(** * Baseline comparison dashboard (lop3.py): merge, filter, aggregate

    A shallow embedding of the Streamlit script [lop3.py] and of the part of
    pandas it calls, followed by the properties of the merge / filter /
    aggregation pipeline.

    Conventions of the model.
    - A Python [str] is a [string] holding its UTF-8 bytes.  Byte order on
      UTF-8 text is code point order, so [String.leb] is Python's [<=].
    - A spreadsheet cell is a [cell]: a blank cell ([NaN] after
      [pd.read_excel]), a text, an integer or a float; dates and booleans
      are left out.  A column has the dtype its cells need, and an integer
      in a float64 column is a float ([to_common_dtype]).
    - float64 values are rationals ([Q]).  The quotient and the product
      behind a percentage are rounded to binary64 ([round64]).  A mean is
      the exact quotient of the exact sum: the order in which pandas adds
      up a column is not fixed by the script.
    - Two things that the script leaves to its environment are parameters
      of the model: [str(x)] of a float ([repr_float]) and what
      [astype(str)] makes of a missing value ([na]).
    - A pandas exception is a value [Raise e] of [result]; the script's
      screen output is the list of the Streamlit elements it emits. *)

From Stdlib Require Import List String Ascii Bool Arith ZArith QArith Lia.
From Stdlib Require Import DecimalString Sorted Permutation Qabs Lqa.
Import ListNotations.

Local Close Scope Q_scope.
Local Open Scope nat_scope.
Local Open Scope string_scope.
Local Open Scope list_scope.

(** ** Exceptions and the error monad *)

Inductive exn : Type :=
| KeyError (labels : list string)      (* label(s) not in the column index *)
| SheetNotFound (sheet : string)       (* ValueError of read_excel *)
| InvalidIndexError                    (* reindexing a frame with duplicate labels *)
| NotOneDimensional (label : string)   (* a duplicated label used as a Series *)
| TypeError.                           (* arithmetic on a text cell *)

Inductive result (A : Type) : Type :=
| Ok (a : A)
| Raise (e : exn).

Arguments Ok {A} a.
Arguments Raise {A} e.

Definition bind {A B : Type} (m : result A) (k : A -> result B) : result B :=
  match m with
  | Ok a => k a
  | Raise e => Raise e
  end.

Notation "x <- m ;; k" := (bind m (fun x => k))
  (at level 61, m at next level, right associativity).

(** ** Python strings *)

Definition nl : ascii := ascii_of_nat 10.

Definition bytes (l : list nat) : string :=
  string_of_list_ascii (map ascii_of_nat l).

(** [re.sub(r'\.0$', '', s)]: without [re.MULTILINE], [$] matches at the end
    of the string and also just before a newline that ends the string. *)
Fixpoint sub_dot_zero (s : string) : string :=
  match s with
  | EmptyString => EmptyString
  | String c s' =>
      if s =? ".0" then EmptyString
      else if s =? String "." (String "0" (String nl EmptyString))
           then String nl EmptyString
           else String c (sub_dot_zero s')
  end.

(** The UTF-8 encodings of the code points for which [str.isspace] holds:
    U+0009..U+000D, U+001C..U+0020, U+0085, U+00A0, U+1680, U+2000..U+200A,
    U+2028, U+2029, U+202F, U+205F, U+3000. *)
Definition whitespace : list (list ascii) :=
  map (map ascii_of_nat)
    [ [9]; [10]; [11]; [12]; [13]; [28]; [29]; [30]; [31]; [32];
      [194; 133]; [194; 160]; [225; 154; 128];
      [226; 128; 128]; [226; 128; 129]; [226; 128; 130]; [226; 128; 131];
      [226; 128; 132]; [226; 128; 133]; [226; 128; 134]; [226; 128; 135];
      [226; 128; 136]; [226; 128; 137]; [226; 128; 138];
      [226; 128; 168]; [226; 128; 169]; [226; 128; 175];
      [226; 129; 159]; [227; 128; 128] ].

Fixpoint drop_prefix (p s : list ascii) : option (list ascii) :=
  match p, s with
  | [], _ => Some s
  | a :: p', b :: s' => if Ascii.eqb a b then drop_prefix p' s' else None
  | _ :: _, [] => None
  end.

Fixpoint drop_any (ps : list (list ascii)) (s : list ascii)
  : option (list ascii) :=
  match ps with
  | [] => None
  | p :: ps' =>
      match drop_prefix p s with
      | Some r => Some r
      | None => drop_any ps' s
      end
  end.

Fixpoint lstrip_upto (n : nat) (ws : list (list ascii)) (s : list ascii)
  : list ascii :=
  match n with
  | O => s
  | S n' =>
      match drop_any ws s with
      | Some r => lstrip_upto n' ws r
      | None => s
      end
  end.

Definition lstrip (ws : list (list ascii)) (s : list ascii) : list ascii :=
  lstrip_upto (List.length s) ws s.

(** [s.strip()] *)
Definition strip (s : string) : string :=
  let l := lstrip whitespace (list_ascii_of_string s) in
  let r := lstrip (map (@rev ascii) whitespace) (rev l) in
  string_of_list_ascii (rev r).

(** [str(n)] for an [int]. *)
Definition str_int (z : Z) : string :=
  NilZero.string_of_int (Z.to_int z).

(** ** Cells and frames *)

Inductive cell : Type :=
| CNull                  (* NaN: a blank spreadsheet cell *)
| CStr (s : string)
| CInt (z : Z)
| CFloat (x : Q).

Definition isna (c : cell) : bool :=
  match c with
  | CNull => true
  | _ => false
  end.

(** Python's [==] on cell values: [3 == 3.0], and NaN equals nothing. *)
Definition cell_eqb (a b : cell) : bool :=
  match a, b with
  | CStr s, CStr t => s =? t
  | CInt x, CInt y => Z.eqb x y
  | CInt x, CFloat y => Qeq_bool (inject_Z x) y
  | CFloat x, CInt y => Qeq_bool x (inject_Z y)
  | CFloat x, CFloat y => Qeq_bool x y
  | _, _ => false
  end.

(** The value of a number cell; texts and blanks have none. *)
Definition number_of (c : cell) : option Q :=
  match c with
  | CInt z => Some (inject_Z z)
  | CFloat x => Some x
  | _ => None
  end.

Definition is_text (c : cell) : bool :=
  match c with
  | CStr _ => true
  | _ => false
  end.

Definition is_number (c : cell) : bool :=
  match number_of c with
  | Some _ => true
  | None => false
  end.

(** The order in which pandas sorts group keys: numbers by value, before
    texts; texts in code point order. *)
Definition cell_leb (a b : cell) : bool :=
  match number_of a, number_of b with
  | Some x, Some y => Qle_bool x y
  | Some _, None => true
  | None, Some _ => false
  | None, None =>
      match a, b with
      | CStr s, CStr t => String.leb s t
      | CNull, _ => true
      | _, _ => false
      end
  end.

(** A DataFrame in row-major form: the column index (labels may repeat after a
    rename) and the rows, each with one cell per label.  The row index is not
    kept: the script resets it with [ignore_index=True] and never reads it. *)
Record DataFrame : Type := mkFrame {
  columns : list string;
  rows : list (list cell)
}.

(** [len(df)] and [df.empty] *)
Definition len (df : DataFrame) : nat := List.length (rows df).

Definition empty (df : DataFrame) : bool :=
  match rows df, columns df with
  | _ :: _, _ :: _ => false
  | _, _ => true
  end.

(** What [pd.read_excel] guarantees: distinct labels (repeated header texts
    are renamed apart) and one cell per label in every row. *)
Definition well_formed (df : DataFrame) : Prop :=
  NoDup (columns df) /\
  Forall (fun r => List.length r = List.length (columns df)) (rows df).

Definition mem (x : string) (l : list string) : bool :=
  existsb (String.eqb x) l.

(** The cells of row [r] under label [c], for the column index [hdr]. *)
Fixpoint cells_at (hdr : list string) (r : list cell) (c : string)
  : list cell :=
  match hdr, r with
  | h :: hdr', x :: r' =>
      if h =? c then x :: cells_at hdr' r' c else cells_at hdr' r' c
  | _, _ => []
  end.

(** The cell of row [r] under the first column labelled [c]. *)
Definition get (hdr : list string) (r : list cell) (c : string) : cell :=
  hd CNull (cells_at hdr r c).

(** [df.rename(columns={old: new})] *)
Definition rename (old new : string) (df : DataFrame) : DataFrame :=
  mkFrame (map (fun c => if c =? old then new else c) (columns df)) (rows df).

(** [df[label] = v] for a scalar [v]: every column with that label is
    overwritten; a new column is appended when there is none. *)
Fixpoint overwrite (hdr : list string) (label : string) (v : cell)
  (r : list cell) : list cell :=
  match hdr, r with
  | h :: hdr', x :: r' =>
      (if h =? label then v else x) :: overwrite hdr' label v r'
  | _, _ => r
  end.

Definition set_scalar (label : string) (v : cell) (df : DataFrame)
  : DataFrame :=
  if mem label (columns df)
  then mkFrame (columns df) (map (overwrite (columns df) label v) (rows df))
  else mkFrame (columns df ++ [label]) (map (fun r => r ++ [v]) (rows df)).

(** [df[labels]] for a list of labels: all columns carrying each label, in the
    order of [labels]; [KeyError] names the labels that are not there. *)
Definition getitem_list (labels : list string) (df : DataFrame)
  : result DataFrame :=
  match filter (fun c => negb (mem c (columns df))) labels with
  | [] =>
      Ok (mkFrame
            (flat_map (fun c => filter (String.eqb c) (columns df)) labels)
            (map (fun r => flat_map (cells_at (columns df) r) labels)
               (rows df)))
  | missing => Raise (KeyError missing)
  end.

(** [df[label]] as a Series.  A label that repeats gives a sub-frame, on
    which the Series operations of the script ([.str], [.unique], a group
    key) raise. *)
Definition getitem (label : string) (df : DataFrame) : result (list cell) :=
  match count_occ string_dec (columns df) label with
  | 0 => Raise (KeyError [label])
  | 1 => Ok (map (fun r => get (columns df) r label) (rows df))
  | _ => Raise (NotOneDimensional label)
  end.

(** [df[label] = f(df[label])] for an elementwise [f]. *)
Fixpoint update_at (hdr : list string) (label : string) (f : cell -> cell)
  (r : list cell) : list cell :=
  match hdr, r with
  | h :: hdr', x :: r' =>
      (if h =? label then f x else x) :: update_at hdr' label f r'
  | _, _ => r
  end.

Definition map_series (label : string) (f : cell -> cell) (df : DataFrame)
  : result DataFrame :=
  _ <- getitem label df ;;
  Ok (mkFrame (columns df) (map (update_at (columns df) label f) (rows df))).

(** Column dtypes.  pandas keeps one dtype per column: [object] when the
    column holds a text, [float64] when it holds numbers of which one is a
    float or is missing, [int64] when it holds integers only.  In a
    [float64] column an integer is stored as a float: [pd.read_excel] builds
    its columns that way, and [pd.concat] brings the columns it stacks to
    their common dtype. *)
Definition is_int (c : cell) : bool :=
  match c with
  | CInt _ => true
  | _ => false
  end.

Definition float_column (s : list cell) : bool :=
  forallb (fun c => negb (is_text c)) s && existsb (fun c => negb (is_int c)) s.

Definition upcast (c : cell) : cell :=
  match c with
  | CInt z => CFloat (inject_Z z)
  | _ => c
  end.

Definition column_at (j : nat) (rs : list (list cell)) : list cell :=
  map (fun r => nth j r CNull) rs.

Fixpoint upcast_row (floats : list bool) (r : list cell) : list cell :=
  match floats, r with
  | f :: floats', x :: r' =>
      (if f then upcast x else x) :: upcast_row floats' r'
  | _, _ => r
  end.

Definition to_common_dtype (df : DataFrame) : DataFrame :=
  let floats :=
    map (fun j => float_column (column_at j (rows df)))
      (seq 0 (List.length (columns df))) in
  mkFrame (columns df) (map (upcast_row floats) (rows df)).

Definition list_eqb (a b : list string) : bool :=
  if list_eq_dec string_dec a b then true else false.

Fixpoint nodupb (l : list string) : bool :=
  match l with
  | [] => true
  | x :: l' => negb (mem x l') && nodupb l'
  end.

(** [pd.concat([a, b], ignore_index=True)]: rows of [a], then rows of [b],
    each stacked column brought to its common dtype.  Frames with the same
    column index are stacked as they are.  Otherwise the result has the
    union of the labels and both frames are reindexed to it (NaN where a
    frame has no such column), which pandas refuses for a frame whose labels
    repeat. *)
Definition reindex (hdr new : list string) (r : list cell) : list cell :=
  map (get hdr r) new.

Definition concat (a b : DataFrame) : result DataFrame :=
  if list_eqb (columns a) (columns b)
  then Ok (to_common_dtype (mkFrame (columns a) (rows a ++ rows b)))
  else if nodupb (columns a) && nodupb (columns b)
  then
    let new :=
      columns a ++ filter (fun c => negb (mem c (columns a))) (columns b) in
    Ok (to_common_dtype
          (mkFrame new
             (map (reindex (columns a) new) (rows a)
              ++ map (reindex (columns b) new) (rows b))))
  else Raise InvalidIndexError.

(** [df[mask]] for a boolean Series computed row by row. *)
Definition select_rows (p : list cell -> bool) (df : DataFrame) : DataFrame :=
  mkFrame (columns df) (filter p (rows df)).

(** [s.dropna()], [s.unique()] (first occurrences, in order), [sorted(l)] *)
Definition dropna (s : list cell) : list cell :=
  filter (fun c => negb (isna c)) s.

Fixpoint unique_by {A : Type} (eqb : A -> A -> bool) (l : list A) : list A :=
  match l with
  | [] => []
  | x :: l' => x :: filter (fun y => negb (eqb x y)) (unique_by eqb l')
  end.

Fixpoint insert_by {A : Type} (leb : A -> A -> bool) (x : A) (l : list A)
  : list A :=
  match l with
  | [] => [x]
  | y :: l' => if leb x y then x :: l else y :: insert_by leb x l'
  end.

Definition sorted_by {A : Type} (leb : A -> A -> bool) (l : list A) : list A :=
  fold_right (insert_by leb) [] l.

(** A workbook: its sheets by name, each with the cells as they are stored.
    [pd.read_excel(file, sheet_name=...)] gives every column its dtype. *)
Definition workbook : Type := list (string * DataFrame).

Fixpoint read_excel (file : workbook) (sheet_name : string)
  : result DataFrame :=
  match file with
  | [] => Raise (SheetNotFound sheet_name)
  | (n, df) :: file' =>
      if n =? sheet_name then Ok (to_common_dtype df)
      else read_excel file' sheet_name
  end.

(** [sorted(l)] on cell values: Python orders texts among themselves and
    numbers among themselves, and raises [TypeError] when it has to compare
    a text with a number.  The script sorts after [dropna], so no NaN is
    among the values. *)
Definition sorted (l : list cell) : result (list cell) :=
  if forallb is_text l || forallb is_number l
  then Ok (sorted_by cell_leb l)
  else Raise TypeError.

(** ** Aggregation (pandas) *)

(** Rounding to binary64, to nearest with ties to even.  A positive rational
    is scaled by a power of two into [2^52, 2^53), rounded to an integer and
    scaled back.  The exponent range is not modelled (no overflow to [inf],
    no subnormals): the shares of a count and their percentages lie between
    [1 / number of rows] and 100. *)
Definition nearest_even (n d : Z) : Z :=
  let q := (n / d)%Z in
  match (2 * (n mod d) ?= d)%Z with
  | Lt => q
  | Eq => if Z.even q then q else (q + 1)%Z
  | Gt => (q + 1)%Z
  end.

(** [2 ^ k] for [k >= 0], and 1 below: [x * 2 ^ s] is
    [x * pow2 s / pow2 (- s)]. *)
Definition pow2 (k : Z) : Z := (2 ^ Z.max k 0)%Z.

Definition round64_pos (x : Q) : Q :=
  let n := Qnum x in
  let d := Zpos (Qden x) in
  let s0 := (53 + Z.log2 d - Z.log2 n)%Z in
  let s :=
    if (n * pow2 s0 <? 2 ^ 53 * (d * pow2 (- s0)))%Z then s0
    else (s0 - 1)%Z in
  let m := nearest_even (n * pow2 s) (d * pow2 (- s)) in
  (m * pow2 (- s)) # Z.to_pos (pow2 s).

Definition round64 (x : Q) : Q :=
  match Qnum x with
  | Z0 => 0%Q
  | Zpos _ => round64_pos x
  | Zneg _ => Qopp (round64_pos (Qopp x))
  end.

Definition Qsum (xs : list Q) : Q := fold_right Qplus 0%Q xs.

(** An integer count as a float. *)
Definition Qnat (n : nat) : Q := inject_Z (Z.of_nat n).

(** The numbers of a Series with NaN skipped ([skipna=True]); a text cell
    cannot be added. *)
Fixpoint numbers (s : list cell) : result (list Q) :=
  match s with
  | [] => Ok []
  | CNull :: s' => numbers s'
  | CStr _ :: _ => Raise TypeError
  | CInt z :: s' => xs <- numbers s' ;; Ok (inject_Z z :: xs)
  | CFloat x :: s' => xs <- numbers s' ;; Ok (x :: xs)
  end.

Definition average (xs : list Q) : option Q :=
  match xs with
  | [] => None
  | _ :: _ => Some (Qsum xs / Qnat (List.length xs))%Q
  end.

(** [s.mean()]: [None] stands for the NaN of an empty or all-NaN Series. *)
Definition mean (s : list cell) : result (option Q) :=
  xs <- numbers s ;;
  Ok (average xs).

Definition key : Type := (cell * cell)%type.

Definition key_eqb (a b : key) : bool :=
  cell_eqb (fst a) (fst b) && cell_eqb (snd a) (snd b).

Definition key_leb (a b : key) : bool :=
  if cell_eqb (fst a) (fst b) then cell_leb (snd a) (snd b)
  else cell_leb (fst a) (fst b).

Definition key_of (hdr : list string) (k1 k2 : string) (r : list cell) : key :=
  (get hdr r k1, get hdr r k2).

Definition key_notna (k : key) : bool :=
  negb (isna (fst k)) && negb (isna (snd k)).

(** [df.groupby([k1, k2])]: the groups in sorted key order, each with its
    rows in frame order; rows with a NaN key are dropped ([dropna=True]). *)
Definition groupby (k1 k2 : string) (df : DataFrame)
  : result (list (key * list (list cell))) :=
  _ <- getitem k1 df ;;
  _ <- getitem k2 df ;;
  let hdr := columns df in
  let keyed := filter (fun r => key_notna (key_of hdr k1 k2 r)) (rows df) in
  let keys := sorted_by key_leb (unique_by key_eqb (map (key_of hdr k1 k2) keyed)) in
  Ok (map (fun k =>
             (k, filter (fun r => key_eqb k (key_of hdr k1 k2 r)) keyed))
        keys).

(** [df.groupby([k1, k2])[value].mean().reset_index()] *)
Fixpoint group_means (hdr : list string) (value : string)
  (groups : list (key * list (list cell)))
  : result (list (key * option Q)) :=
  match groups with
  | [] => Ok []
  | (k, rs) :: groups' =>
      m <- mean (map (fun r => get hdr r value) rs) ;;
      ms <- group_means hdr value groups' ;;
      Ok ((k, m) :: ms)
  end.

Definition groupby_mean (k1 k2 value : string) (df : DataFrame)
  : result (list (key * option Q)) :=
  groups <- groupby k1 k2 df ;;
  _ <- getitem value df ;;
  group_means (columns df) value groups.

(** [df.groupby([k1, k2]).size().reset_index(name='Count')] *)
Definition groupby_size (k1 k2 : string) (df : DataFrame)
  : result (list (key * nat)) :=
  groups <- groupby k1 k2 df ;;
  Ok (map (fun g => (fst g, List.length (snd g))) groups).

(** ** What the page shows *)

(** Formatted numbers are kept symbolic: [Grouped n] is [f"{n:,}"],
    [Fixed2 x] is [f"{x:.2f}"] and [Percent1 x] is [f"{x:.1f}%"]. *)
Inductive text : Type :=
| Lit (s : string)
| Grouped (n : nat)
| Fixed2 (x : Q)
| Percent1 (x : Q).

Record cat_row : Type := mkCat {
  cat_year : cell;
  cat_category : cell;
  Count : nat;
  Percentage : Q
}.

Inductive figure : Type :=
| BarMeans (x y color : string) (data : list (key * option Q))
| BarShares (x y color : string) (data : list cat_row) (labels : list text).

Inductive element : Type :=
| Title (s : string)
| Markdown (s : string)
| SidebarHeader (s : string)
| FileUploader (label : string)
| SidebarSuccess (s : string)
| SidebarMarkdown (s : string)
| Multiselect (label : string) (options : list cell) (default : list string)
| Warning (s : string)
| Metric (label : string) (value : text) (delta : option text)
| PlotlyChart (fig : figure)
| Dataframe (expander : string) (df : DataFrame)
| Error (e : exn)
| Info (s : string).

(** A run of script code: what it has put on the page so far, and its value
    or the exception that stopped it. *)
Definition ui (A : Type) : Type := (list element * result A)%type.

Definition emit (e : element) : ui unit := ([e], Ok tt).

Definition eval {A : Type} (r : result A) : ui A := ([], r).

Definition ui_bind {A B : Type} (m : ui A) (k : A -> ui B) : ui B :=
  match m with
  | (out, Ok a) => let (out', r) := k a in (out ++ out', r)
  | (out, Raise e) => (out, Raise e)
  end.

Notation "x <~ m ;; k" := (ui_bind m (fun x => k))
  (at level 61, m at next level, right associativity).

Notation "m ;;; k" := (ui_bind m (fun _ => k))
  (at level 61, right associativity).

(** [try: body / except Exception as e: st.error(...)] *)
Definition try_except (body : ui unit) : list element :=
  match body with
  | (out, Ok _) => out
  | (out, Raise e) => out ++ [Error e]
  end.

(** ** The script *)

Record Selections : Type := mkSel {
  selected_states : list string;
  selected_centres : list string;
  selected_donors : list string;
  selected_subjects : list string;
  selected_grades : list string
}.

Definition common_cols : list string :=
  ["State"; "Centre Name"; "Donor"; "Subject"; "Grade"; "Total Marks";
   "Obtained Marks"; "Category"; "Academic Year"].

(** [s.isin(values)] for a list of texts. *)
Definition isin (values : list string) (c : cell) : bool :=
  match c with
  | CStr s => mem s values
  | _ => false
  end.

(** One of the five blocks
    [if "All" not in selected: filtered_df = filtered_df[filtered_df[label].isin(selected)]] *)
Definition apply_filter (label : string) (selected : list string)
  (filtered_df : DataFrame) : result DataFrame :=
  if negb (mem "All" selected)
  then
    _ <- getitem label filtered_df ;;
    Ok (select_rows
          (fun r => isin selected (get (columns filtered_df) r label))
          filtered_df)
  else Ok filtered_df.

Definition filtered_df (df : DataFrame) (sel : Selections)
  : result DataFrame :=
  let filtered_df := df in
  filtered_df <- apply_filter "State" (selected_states sel) filtered_df ;;
  filtered_df <- apply_filter "Centre Name" (selected_centres sel) filtered_df ;;
  filtered_df <- apply_filter "Donor" (selected_donors sel) filtered_df ;;
  filtered_df <- apply_filter "Subject" (selected_subjects sel) filtered_df ;;
  filtered_df <- apply_filter "Grade" (selected_grades sel) filtered_df ;;
  Ok filtered_df.

(** [["All"] + sorted(df[label].dropna().unique().tolist())] *)
Definition options (df : DataFrame) (label : string) : result (list cell) :=
  s <- getitem label df ;;
  l <- sorted (unique_by cell_eqb (dropna s)) ;;
  Ok (CStr "All" :: l).

(** [filtered_df[filtered_df['Academic Year'] == year]['Obtained Marks'].mean()] *)
Definition year_rows (year : string) (filtered_df : DataFrame) : DataFrame :=
  select_rows
    (fun r => cell_eqb (get (columns filtered_df) r "Academic Year") (CStr year))
    filtered_df.

Definition avg_marks (year : string) (filtered_df : DataFrame)
  : result (option Q) :=
  _ <- getitem "Academic Year" filtered_df ;;
  s <- getitem "Obtained Marks" (year_rows year filtered_df) ;;
  mean s.

Definition fixed2_or_na (m : option Q) : text :=
  match m with
  | Some x => Fixed2 x
  | None => Lit "N/A"
  end.

(** The [delta=] argument of the third metric. *)
Definition delta (avg_marks_24 avg_marks_25 : option Q) : option text :=
  match avg_marks_24, avg_marks_25 with
  | Some a24, Some a25 => Some (Fixed2 (a25 - a24)%Q)
  | _, _ => None
  end.

(** [cat_counts]: sizes by (Academic Year, Category), then
    [Percentage = Count / (sum of Count over the same Academic Year) * 100],
    a float64 division and a float64 multiplication of integer counts. *)
Definition year_total (year : cell) (counts : list (key * nat)) : nat :=
  list_sum
    (map snd (filter (fun kc => cell_eqb (fst (fst kc)) year) counts)).

(** [lambda x: x / x.sum() * 100] on one row of the counts. *)
Definition with_percentage (counts : list (key * nat)) (kc : key * nat)
  : cat_row :=
  let year := fst (fst kc) in
  mkCat year (snd (fst kc)) (snd kc)
    (round64 (round64 (Qnat (snd kc) / Qnat (year_total year counts)) * 100))%Q.

Definition cat_counts (filtered_df : DataFrame) : result (list cat_row) :=
  counts <- groupby_size "Academic Year" "Category" filtered_df ;;
  Ok (map (with_percentage counts) counts).

(** What [astype(str)] makes of a missing value.  pandas before 3.0 applies
    [str] to it and stores the text [nan]; pandas 3 converts to its string
    dtype, in which the value stays missing.  The script pins no release. *)
Inductive astype_na : Type :=
| NanText
| StaysMissing.

Section Script.

Variable na : astype_na.

(** [str(x)] for a float: Python's shortest round-trip form. *)
Variable repr_float : Q -> string.

(** [s.astype(str)], cell by cell: [str] of the value. *)
Definition astype_str (c : cell) : cell :=
  match c with
  | CNull =>
      match na with
      | NanText => CStr "nan"
      | StaysMissing => CNull
      end
  | CStr s => CStr s
  | CInt z => CStr (str_int z)
  | CFloat x => CStr (repr_float x)
  end.

(** A method of the [.str] accessor: applied to a text, missing for anything
    else. *)
Definition str_map (f : string -> string) (c : cell) : cell :=
  match c with
  | CStr s => CStr (f s)
  | _ => CNull
  end.

Definition clean_text (c : cell) : cell := str_map strip (astype_str c).

Definition clean_grade (c : cell) : cell :=
  str_map sub_dot_zero (astype_str c).

(** [for col in cols: df_combined[col] = df_combined[col].astype(str).str.strip()] *)
Fixpoint strip_columns (cols : list string) (df_combined : DataFrame)
  : result DataFrame :=
  match cols with
  | [] => Ok df_combined
  | col :: cols' =>
      df_combined <- map_series col clean_text df_combined ;;
      strip_columns cols' df_combined
  end.

Definition standardize (df : DataFrame) : DataFrame :=
  if mem "Rubrics" (columns df) then rename "Rubrics" "Category" df else df.

Definition load_and_prep_data (file1 file2 : workbook) : result DataFrame :=
  df_24_25 <- read_excel file1 "BaseLine-AY2425" ;;
  df_25_26 <- read_excel file2 "BL-Data" ;;
  let df_24_25 := standardize df_24_25 in
  let df_25_26 := standardize df_25_26 in
  let df_24_25 := set_scalar "Academic Year" (CStr "AY 24-25") df_24_25 in
  let df_25_26 := set_scalar "Academic Year" (CStr "AY 25-26") df_25_26 in
  a <- getitem_list common_cols df_24_25 ;;
  b <- getitem_list common_cols df_25_26 ;;
  df_combined <- concat a b ;;
  df_combined <-
    strip_columns ["State"; "Centre Name"; "Donor"; "Subject"] df_combined ;;
  df_combined <- map_series "Grade" clean_grade df_combined ;;
  Ok df_combined.

(** The [else] branch of [if filtered_df.empty]: metrics, three charts and
    the raw rows.  Layout containers ([st.columns], [st.expander]) hold the
    elements but show nothing themselves. *)
Definition show_dashboard (filtered_df : DataFrame) : ui unit :=
  emit (Markdown "### Quick Metrics") ;;;
  let total_students := len filtered_df in
  avg_marks_24 <~ eval (avg_marks "AY 24-25" filtered_df) ;;
  avg_marks_25 <~ eval (avg_marks "AY 25-26" filtered_df) ;;
  emit (Metric "Total Assessments (Filtered)" (Grouped total_students) None) ;;;
  emit (Metric "Avg Baseline Score (AY 24-25)" (fixed2_or_na avg_marks_24) None) ;;;
  emit (Metric "Avg Baseline Score (AY 25-26)" (fixed2_or_na avg_marks_25)
          (delta avg_marks_24 avg_marks_25)) ;;;
  emit (Markdown "---") ;;;
  emit (Markdown "#### Average Marks by Subject") ;;;
  (if negb (empty filtered_df)
   then
     avg_subj <~ eval (groupby_mean "Subject" "Academic Year" "Obtained Marks"
                         filtered_df) ;;
     emit (PlotlyChart
             (BarMeans "Subject" "Obtained Marks" "Academic Year" avg_subj))
   else eval (Ok tt)) ;;;
  emit (Markdown "#### Performance Category Distribution") ;;;
  (if negb (empty filtered_df)
   then
     cat_counts <~ eval (cat_counts filtered_df) ;;
     emit (PlotlyChart
             (BarShares "Academic Year" "Percentage" "Category" cat_counts
                (map (fun r => Percent1 (Percentage r)) cat_counts)))
   else eval (Ok tt)) ;;;
  emit (Markdown "#### Average Marks by State") ;;;
  (if negb (empty filtered_df)
   then
     avg_state <~ eval (groupby_mean "State" "Academic Year" "Obtained Marks"
                          filtered_df) ;;
     emit (PlotlyChart
             (BarMeans "State" "Obtained Marks" "Academic Year" avg_state))
   else eval (Ok tt)) ;;;
  emit (Dataframe "View Filtered Raw Data" filtered_df).

(** The body of the [try] block; [sel] is what the user has picked in the
    five multiselects. *)
Definition process (file1 file2 : workbook) (sel : Selections) : ui unit :=
  df <~ eval (load_and_prep_data file1 file2) ;;
  emit (SidebarSuccess "Baseline Data Merged Successfully!") ;;;
  emit (SidebarMarkdown "---") ;;;
  emit (SidebarHeader "2. Filter Data") ;;;
  states <~ eval (options df "State") ;;
  centres <~ eval (options df "Centre Name") ;;
  donors <~ eval (options df "Donor") ;;
  subjects <~ eval (options df "Subject") ;;
  grades <~ eval (options df "Grade") ;;
  emit (Multiselect "Select State(s)" states ["All"]) ;;;
  emit (Multiselect "Select Centre Name(s)" centres ["All"]) ;;;
  emit (Multiselect "Select Donor(s)" donors ["All"]) ;;;
  emit (Multiselect "Select Subject(s)" subjects ["All"]) ;;;
  emit (Multiselect "Select Class/Grade(s)" grades ["All"]) ;;;
  filtered_df <~ eval (filtered_df df sel) ;;
  if empty filtered_df
  then emit (Warning
    "No data available for the selected filters. Please adjust your selection.")
  else show_dashboard filtered_df.

(** What every run shows first.  [st.set_page_config] and [st.spinner] put
    no lasting element on the page. *)
Definition page_head : list element :=
  [ Title (bytes [240; 159; 147; 136] ++ " Baseline Assessment Comparison");
    Markdown "**Academic Year 24-25 vs Academic Year 25-26**";
    SidebarHeader "1. Upload Data";
    FileUploader "Upload AY 24-25 (EL-BL-Data-AY-24-25.xlsx)";
    FileUploader "Upload AY 25-26 (BaseLine_Data_25-26YMR.xlsx)" ].

(** One run of the script: [file1], [file2] are the uploads, if any. *)
Definition script (file1 file2 : option workbook) (sel : Selections)
  : list element :=
  page_head ++
  match file1, file2 with
  | Some file1, Some file2 => try_except (process file1 file2 sel)
  | _, _ =>
      [Info (bytes [240; 159; 145; 136] ++
             " Please upload both Excel files in the sidebar to generate the baseline comparison dashboard.")]
  end.

End Script.

(** ** Notions used in the statements *)

(** [s.endswith(suffix)] *)
Fixpoint endswith (s suffix : string) : bool :=
  (s =? suffix) ||
  match s with
  | EmptyString => false
  | String _ s' => endswith s' suffix
  end.

Definition dot0 : string := ".0".

Definition dot0nl : string := String "." (String "0" (String nl EmptyString)).

(** [l1] is [l2] with some elements left out: nothing added, nothing
    repeated, nothing reordered. *)
Inductive subseq {A : Type} : list A -> list A -> Prop :=
| subseq_nil : subseq [] []
| subseq_skip x l1 l2 : subseq l1 l2 -> subseq l1 (x :: l2)
| subseq_keep x l1 l2 : subseq l1 l2 -> subseq (x :: l1) (x :: l2).

Definition filter_cols : list string :=
  ["State"; "Centre Name"; "Donor"; "Subject"; "Grade"].

Definition required_cols : list string :=
  ["State"; "Centre Name"; "Donor"; "Subject"; "Grade"; "Total Marks";
   "Obtained Marks"; "Category"].

(** A sheet the merger accepts: a frame as [pd.read_excel] builds it, with
    either a Rubrics or a Category column (so that the labels stay distinct
    once Rubrics is renamed) and every required column after the renaming. *)
Definition valid_source (df : DataFrame) : Prop :=
  well_formed df /\
  NoDup (columns (standardize df)) /\
  incl required_cols (columns (standardize df)).

(** The cells of column [label], blank when a row has none. *)
Definition series (df : DataFrame) (label : string) : list cell :=
  map (fun r => get (columns df) r label) (rows df).

(** The cells that the two sheets hold under [label] once Rubrics is
    renamed, first sheet first; and a column brought to its dtype. *)
Definition stacked (a b : DataFrame) (label : string) : list cell :=
  series (standardize a) label ++ series (standardize b) label.

Definition to_dtype (floats : bool) (c : cell) : cell :=
  if floats then upcast c else c.

Definition upcast_column (s : list cell) : list cell :=
  map (to_dtype (float_column s)) s.

(** The unified row that the merger builds from the source row [r] read
    under the (standardized) column index [hdr]; [floats] tells which of the
    stacked columns are float64. *)
Definition prepared (na : astype_na) (repr_float : Q -> string)
  (floats : string -> bool) (tag : cell) (hdr : list string) (r : list cell)
  : list cell :=
  let cell_of label := to_dtype (floats label) (get hdr r label) in
  [ clean_text na repr_float (cell_of "State");
    clean_text na repr_float (cell_of "Centre Name");
    clean_text na repr_float (cell_of "Donor");
    clean_text na repr_float (cell_of "Subject");
    clean_grade na repr_float (cell_of "Grade");
    cell_of "Total Marks";
    cell_of "Obtained Marks";
    cell_of "Category";
    tag ].

(** The unified table of two valid sheets. *)
Definition floats (a b : DataFrame) (label : string) : bool :=
  float_column (stacked a b label).

Definition unified (na : astype_na) (repr_float : Q -> string)
  (a b : DataFrame) : DataFrame :=
  mkFrame common_cols
    (map (prepared na repr_float (floats a b) (CStr "AY 24-25")
            (columns (standardize a))) (rows a)
     ++ map (prepared na repr_float (floats a b) (CStr "AY 25-26")
               (columns (standardize b))) (rows b)).

(** The cleaning that the merger applies to the filter column [label]. *)
Definition clean (na : astype_na) (repr_float : Q -> string) (label : string)
  : cell -> cell :=
  if label =? "Grade" then clean_grade na repr_float
  else clean_text na repr_float.

(** Python's [==] on cells, as a relation. *)
Definition cell_eq (a b : cell) : Prop :=
  match a, b with
  | CStr s, CStr t => s = t
  | CNull, _ | _, CNull => False
  | CStr _, _ | _, CStr _ => False
  | _, _ =>
      match number_of a, number_of b with
      | Some x, Some y => (x == y)%Q
      | _, _ => False
      end
  end.

(** [valid_source], decided. *)
Definition valid_sourceb (df : DataFrame) : bool :=
  nodupb (columns df) &&
  forallb (fun r => Nat.eqb (List.length r) (List.length (columns df)))
    (rows df) &&
  nodupb (columns (standardize df)) &&
  forallb (fun c => mem c (columns (standardize df))) required_cols.

(** A label that names exactly one column. *)
Definition one_column (df : DataFrame) (label : string) : Prop :=
  count_occ string_dec (columns df) label = 1.

(** The number in a cell, if any, as a list; and the Obtained Marks that are
    present in the rows tagged [year]. *)
Definition present (c : cell) : list Q :=
  match number_of c with
  | Some x => [x]
  | None => []
  end.

Definition marks_present (year : string) (df : DataFrame) : list Q :=
  flat_map (fun r => present (get (columns df) r "Obtained Marks"))
    (rows (year_rows year df)).

Definition numeric_marks (df : DataFrame) : Prop :=
  Forall (fun c => is_text c = false) (series df "Obtained Marks").

Definition all_selected : Selections :=
  mkSel ["All"] ["All"] ["All"] ["All"] ["All"].

(** The five criteria, the column each one tests, its selection, and the
    selections with that criterion reset to ["All"]. *)
Inductive criterion : Type :=
| ByState | ByCentre | ByDonor | BySubject | ByGrade.

Definition label_of (c : criterion) : string :=
  match c with
  | ByState => "State"
  | ByCentre => "Centre Name"
  | ByDonor => "Donor"
  | BySubject => "Subject"
  | ByGrade => "Grade"
  end.

Definition selected (c : criterion) (sel : Selections) : list string :=
  match c with
  | ByState => selected_states sel
  | ByCentre => selected_centres sel
  | ByDonor => selected_donors sel
  | BySubject => selected_subjects sel
  | ByGrade => selected_grades sel
  end.

Definition select_all (c : criterion) (sel : Selections) : Selections :=
  match c with
  | ByState =>
      mkSel ["All"] (selected_centres sel) (selected_donors sel)
        (selected_subjects sel) (selected_grades sel)
  | ByCentre =>
      mkSel (selected_states sel) ["All"] (selected_donors sel)
        (selected_subjects sel) (selected_grades sel)
  | ByDonor =>
      mkSel (selected_states sel) (selected_centres sel) ["All"]
        (selected_subjects sel) (selected_grades sel)
  | BySubject =>
      mkSel (selected_states sel) (selected_centres sel) (selected_donors sel)
        ["All"] (selected_grades sel)
  | ByGrade =>
      mkSel (selected_states sel) (selected_centres sel) (selected_donors sel)
        (selected_subjects sel) ["All"]
  end.

(** Elements that only the dashboard branch puts on the page. *)
Definition is_aggregate (e : element) : bool :=
  match e with
  | Metric _ _ _ | PlotlyChart _ | Dataframe _ _ => true
  | _ => false
  end.

Definition is_error (e : element) : bool :=
  match e with
  | Error _ => true
  | _ => false
  end.

Definition no_data_warning : element :=
  Warning
    "No data available for the selected filters. Please adjust your selection.".

(** ** Sample data *)

(** [repr] of a float with an integral value of moderate size: [3.0]. *)
Definition repr_whole (x : Q) : string :=
  (str_int (Qnum x / Zpos (Qden x)) ++ ".0")%string.

Definition sheet_24_25 : DataFrame :=
  mkFrame
    ["State"; "Centre Name"; "Donor"; "Subject"; "Grade"; "Total Marks";
     "Obtained Marks"; "Rubrics"; "Remarks"]
    [ [CStr " Goa "; CStr "Centre 1"; CStr "D1"; CStr "Math"; CFloat 3;
       CInt 100; CInt 50; CStr "Beginner"; CNull];
      [CStr "Goa"; CNull; CStr "D1"; CStr "Eng"; CNull;
       CInt 100; CInt 60; CStr "Advanced"; CStr "late"] ].

Definition sheet_25_26 : DataFrame :=
  mkFrame
    ["Centre Name"; "State"; "Donor"; "Subject"; "Grade"; "Total Marks";
     "Obtained Marks"; "Category"]
    [ [CStr "Centre 2"; CStr "Kerala"; CStr "D2"; CStr "Math"; CInt 3;
       CInt 100; CInt 70; CStr "Beginner"] ].

Definition book_24_25 : workbook := [("BaseLine-AY2425", sheet_24_25)].

Definition book_25_26 : workbook :=
  [("Notes", mkFrame [] []); ("BL-Data", sheet_25_26)].

(** The unified table of the two sample sheets. *)
Definition sample_df : DataFrame :=
  mkFrame common_cols
    [ [CStr "Goa"; CStr "Centre 1"; CStr "D1"; CStr "Math"; CStr "3";
       CInt 100; CInt 50; CStr "Beginner"; CStr "AY 24-25"];
      [CStr "Goa"; CStr "nan"; CStr "D1"; CStr "Eng"; CStr "nan";
       CInt 100; CInt 60; CStr "Advanced"; CStr "AY 24-25"];
      [CStr "Kerala"; CStr "Centre 2"; CStr "D2"; CStr "Math"; CStr "3";
       CInt 100; CInt 70; CStr "Beginner"; CStr "AY 25-26"] ].

(** A filtered table whose only AY 24-25 row has a blank Obtained Marks. *)
Definition blank_marks_df : DataFrame :=
  mkFrame common_cols
    [ [CStr "Goa"; CStr "Centre 1"; CStr "D1"; CStr "Math"; CStr "3";
       CInt 100; CNull; CStr "Beginner"; CStr "AY 24-25"];
      [CStr "Kerala"; CStr "Centre 2"; CStr "D2"; CStr "Math"; CStr "3";
       CInt 100; CInt 70; CStr "Beginner"; CStr "AY 25-26"] ].

(** Three selections: a subject that no row has, a selection that keeps one
    row, and one that lists ["All"] next to a value. *)
Definition pick_hindi : Selections :=
  mkSel ["All"] ["All"] ["All"] ["Hindi"] ["All"].

Definition pick_goa : Selections :=
  mkSel ["Goa"] ["All"] ["All"] ["Math"; "Eng"] ["3"].

Definition pick_math_and_all : Selections :=
  mkSel ["All"] ["All"] ["All"] ["Math"; "All"] ["3"].

(** ** Notions used in the further properties *)

Definition criteria : list criterion :=
  [ByState; ByCentre; ByDonor; BySubject; ByGrade].

(** The test of criterion [c] on the row [r], and the five tests together. *)
Definition passes_one (hdr : list string) (sel : Selections) (r : list cell)
  (c : criterion) : bool :=
  mem "All" (selected c sel) || isin (selected c sel) (get hdr r (label_of c)).

Definition passes (hdr : list string) (sel : Selections) (r : list cell)
  : bool :=
  forallb (passes_one hdr sel r) criteria.

(** The required columns that a sheet does not have once Rubrics is renamed. *)
Definition missing_cols (df : DataFrame) : list string :=
  filter (fun c => negb (mem c (columns (standardize df)))) required_cols.

(** The label under which a sheet holds the performance band. *)
Definition band_label (df : DataFrame) : string :=
  if mem "Rubrics" (columns df) then "Rubrics" else "Category".

(** A text that neither starts nor ends with a whitespace character. *)
Definition stripped (t : string) : bool :=
  match drop_any whitespace (list_ascii_of_string t),
        drop_any (map (@rev ascii) whitespace) (rev (list_ascii_of_string t))
  with
  | None, None => true
  | _, _ => false
  end.

Definition text_cols : list string :=
  ["State"; "Centre Name"; "Donor"; "Subject"].

(** A text made of decimal digits and minus signs only. *)
Fixpoint digits_only (s : string) : bool :=
  match s with
  | EmptyString => true
  | String c s' =>
      (Nat.leb 48 (nat_of_ascii c) && Nat.leb (nat_of_ascii c) 57
       || Nat.eqb (nat_of_ascii c) 45)
      && digits_only s'
  end.

(** Elements of the page head and the sidebar: no warning, no error, nothing
    of the dashboard. *)
Definition is_warning (e : element) : bool :=
  match e with
  | Warning _ => true
  | _ => false
  end.

Definition quiet (e : element) : bool :=
  negb (is_aggregate e) && negb (is_warning e) && negb (is_error e).

Definition calm (e : element) : bool :=
  negb (is_warning e) && negb (is_error e).

(** ** More sample data *)

(** A selection wider than [pick_goa], one with no donor selected, and one
    that picks a single offered state. *)
Definition pick_wide : Selections :=
  mkSel ["Goa"; "Kerala"] ["All"] ["All"] ["Math"; "Eng"] ["3"; "nan"].

Definition pick_no_donor : Selections :=
  mkSel ["All"] ["All"] [] ["All"] ["All"].

Definition pick_kerala : Selections :=
  mkSel ["Kerala"] ["All"] ["All"] ["All"] ["All"].

(** A first sheet without most of the required columns. *)
Definition sheet_short : DataFrame :=
  mkFrame ["State"; "Grade"; "Rubrics"]
    [ [CStr "Goa"; CInt 3; CStr "Beginner"] ].

Definition book_short : workbook := [("BaseLine-AY2425", sheet_short)].

(** ** Notions used for the category percentages *)

(** The rows of [df] of year [y] that have a Category, and those of them
    whose Category is [c]. *)
Definition categorised (df : DataFrame) (y : cell) : list (list cell) :=
  filter (fun r => cell_eqb (get (columns df) r "Academic Year") y
                   && negb (isna (get (columns df) r "Category")))
    (rows df).

Definition in_category (df : DataFrame) (y c : cell) : list (list cell) :=
  filter (fun r => cell_eqb (get (columns df) r "Academic Year") y
                   && cell_eqb (get (columns df) r "Category") c)
    (rows df).

(** The rows of a distribution that are of year [y]. *)
Definition of_year (y : cell) (dist : list cat_row) : list cat_row :=
  filter (fun r => cell_eqb (cat_year r) y) dist.

(** How far from 100 the percentages of a year may add up: 1e-13.  The
    two roundings behind a percentage change it by at most [share_error]
    times the exact share, for the unit roundoff [2^-53]. *)
Definition percent_tolerance : Q := 1 # 10000000000000.

Definition share_error : Q :=
  (100 * (2 * (1 # 2 ^ 53) + (1 # 2 ^ 53) * (1 # 2 ^ 53)))%Q.

(** A filtered table in which one AY 24-25 row and the only AY 25-26 row
    have a blank Category. *)
Definition blank_category_df : DataFrame :=
  mkFrame common_cols
    [ [CStr "Goa"; CStr "Centre 1"; CStr "D1"; CStr "Math"; CStr "3";
       CInt 100; CInt 50; CStr "Beginner"; CStr "AY 24-25"];
      [CStr "Goa"; CStr "Centre 1"; CStr "D1"; CStr "Eng"; CStr "3";
       CInt 100; CInt 60; CNull; CStr "AY 24-25"];
      [CStr "Kerala"; CStr "Centre 2"; CStr "D2"; CStr "Math"; CStr "3";
       CInt 100; CInt 70; CNull; CStr "AY 25-26"] ].

(** A filtered table with three categories of one row each in one year. *)
Definition thirds_df : DataFrame :=
  mkFrame common_cols
    [ [CStr "Goa"; CStr "Centre 1"; CStr "D1"; CStr "Math"; CStr "3";
       CInt 100; CInt 20; CStr "Beginner"; CStr "AY 24-25"];
      [CStr "Goa"; CStr "Centre 1"; CStr "D1"; CStr "Math"; CStr "3";
       CInt 100; CInt 50; CStr "Intermediate"; CStr "AY 24-25"];
      [CStr "Goa"; CStr "Centre 1"; CStr "D1"; CStr "Math"; CStr "3";
       CInt 100; CInt 90; CStr "Advanced"; CStr "AY 24-25"] ].

(** The unified table of the two sample sheets where [astype(str)] keeps a
    missing value missing. *)
Definition sample_df_missing : DataFrame :=
  mkFrame common_cols
    [ [CStr "Goa"; CStr "Centre 1"; CStr "D1"; CStr "Math"; CStr "3";
       CInt 100; CInt 50; CStr "Beginner"; CStr "AY 24-25"];
      [CStr "Goa"; CNull; CStr "D1"; CStr "Eng"; CNull;
       CInt 100; CInt 60; CStr "Advanced"; CStr "AY 24-25"];
      [CStr "Kerala"; CStr "Centre 2"; CStr "D2"; CStr "Math"; CStr "3";
       CInt 100; CInt 70; CStr "Beginner"; CStr "AY 25-26"] ].

(** A second sheet with a numeric centre code, a blank one and a mark that
    is not whole, and a first sheet with numeric centre codes. *)
Definition sheet_codes_24_25 : DataFrame :=
  mkFrame
    ["State"; "Centre Name"; "Donor"; "Subject"; "Grade"; "Total Marks";
     "Obtained Marks"; "Rubrics"]
    [ [CStr "Goa"; CInt 101; CStr "D1"; CStr "Math"; CInt 3;
       CInt 100; CInt 50; CStr "Beginner"] ].

Definition sheet_codes_25_26 : DataFrame :=
  mkFrame
    ["State"; "Centre Name"; "Donor"; "Subject"; "Grade"; "Total Marks";
     "Obtained Marks"; "Category"]
    [ [CStr "Goa"; CFloat 102; CStr "D1"; CStr "Math"; CInt 3;
       CInt 100; CFloat (141 # 2); CStr "Beginner"];
      [CStr "Goa"; CNull; CStr "D1"; CStr "Math"; CInt 4;
       CInt 100; CFloat 80; CStr "Advanced"] ].

Definition book_codes_24_25 : workbook :=
  [("BaseLine-AY2425", sheet_codes_24_25)].

Definition book_codes_25_26 : workbook := [("BL-Data", sheet_codes_25_26)].

(** * Properties *)

(** ** Texts *)

Lemma length_append (s t : string) :
  String.length (s ++ t) = String.length s + String.length t.
Proof. induction s as [|c s IH]; simpl; [reflexivity | now rewrite IH]. Qed.

Lemma append_assoc (s t u : string) : ((s ++ t) ++ u = s ++ (t ++ u))%string.
Proof. induction s as [|c s IH]; simpl; [reflexivity | now rewrite IH]. Qed.

Lemma append_inv_tail (u : string) :
  forall s t : string, (s ++ u = t ++ u)%string -> s = t.
Proof.
  induction s as [|c s IH]; intros [|d t] H; simpl in H.
  - reflexivity.
  - apply (f_equal String.length) in H. simpl in H.
    rewrite length_append in H. lia.
  - apply (f_equal String.length) in H. simpl in H.
    rewrite length_append in H. lia.
  - inversion H. f_equal. now apply IH.
Qed.

Lemma endswith_unfold s suffix :
  endswith s suffix =
  (s =? suffix) ||
  match s with
  | EmptyString => false
  | String _ s' => endswith s' suffix
  end.
Proof. destruct s; reflexivity. Qed.

Lemma endswith_iff s suffix :
  endswith s suffix = true <-> exists t, s = (t ++ suffix)%string.
Proof.
  induction s as [|c s IH]; rewrite endswith_unfold.
  - rewrite orb_false_r, String.eqb_eq. split.
    + intros <-. now exists "".
    + intros [t Ht]. destruct t; simpl in Ht; [auto | discriminate].
  - rewrite orb_true_iff, String.eqb_eq, IH. split.
    + intros [<- | [t ->]]; [now exists "" | now exists (String c t)].
    + intros [t Ht]. destruct t as [|d t]; simpl in Ht.
      * now left.
      * right. exists t. now inversion Ht.
Qed.

Lemma endswith_append t suffix : endswith (t ++ suffix) suffix = true.
Proof. apply endswith_iff. now exists t. Qed.

Lemma sub_dot_zero_unfold c s :
  sub_dot_zero (String c s) =
  if String c s =? dot0 then EmptyString
  else if String c s =? dot0nl then String nl EmptyString
  else String c (sub_dot_zero s).
Proof. reflexivity. Qed.

(** A text without a match is left as it is. *)
Lemma sub_dot_zero_nomatch s :
  endswith s dot0 = false -> endswith s dot0nl = false -> sub_dot_zero s = s.
Proof.
  induction s as [|c s IH]; [reflexivity|].
  intros H1 H2. rewrite sub_dot_zero_unfold.
  rewrite endswith_unfold in H1, H2. apply orb_false_iff in H1, H2.
  destruct H1 as [-> H1], H2 as [-> H2]. now rewrite IH.
Qed.

Ltac length_clash H :=
  apply (f_equal String.length) in H; simpl in H;
  rewrite ?length_append in H; simpl in H; lia.

(** A final [.0] is removed. *)
Lemma sub_dot_zero_dot0 t : sub_dot_zero (t ++ dot0) = t.
Proof.
  induction t as [|c t IH]; [reflexivity|].
  simpl append. rewrite sub_dot_zero_unfold, IH.
  replace (String c (t ++ dot0) =? dot0) with false
    by (symmetry; apply String.eqb_neq; intros H; length_clash H).
  replace (String c (t ++ dot0) =? dot0nl) with false; [reflexivity|].
  symmetry. apply String.eqb_neq. intros H.
  destruct t as [|d [|e t]]; try discriminate H. length_clash H.
Qed.

(** So is a [.0] that stands before a final newline. *)
Lemma sub_dot_zero_dot0nl t :
  sub_dot_zero (t ++ dot0nl) = (t ++ String nl EmptyString)%string.
Proof.
  induction t as [|c t IH]; [reflexivity|].
  simpl append. rewrite sub_dot_zero_unfold, IH.
  replace (String c (t ++ dot0nl) =? dot0nl) with false
    by (symmetry; apply String.eqb_neq; intros H; length_clash H).
  replace (String c (t ++ dot0nl) =? dot0) with false; [reflexivity|].
  symmetry. apply String.eqb_neq. intros H. length_clash H.
Qed.

Lemma sub_dot_zero_cases s :
  (exists t, s = (t ++ dot0)%string /\ sub_dot_zero s = t) \/
  (exists t, s = (t ++ dot0nl)%string /\
             sub_dot_zero s = (t ++ String nl EmptyString)%string) \/
  (endswith s dot0 = false /\ endswith s dot0nl = false /\ sub_dot_zero s = s).
Proof.
  destruct (endswith s dot0) eqn:E1.
  - left. apply endswith_iff in E1 as [t ->]. exists t.
    split; [reflexivity | apply sub_dot_zero_dot0].
  - destruct (endswith s dot0nl) eqn:E2.
    + right; left. apply endswith_iff in E2 as [t ->]. exists t.
      split; [reflexivity | apply sub_dot_zero_dot0nl].
    + right; right. repeat split. now apply sub_dot_zero_nomatch.
Qed.

Lemma last_char_clash (t u : string) (a b : ascii) :
  a <> b -> (t ++ String a "")%string <> (u ++ String b "")%string.
Proof.
  intros Hab. revert u. induction t as [|c t IH]; intros [|d u] H; simpl in H.
  - inversion H. contradiction.
  - inversion H. destruct u; discriminate.
  - inversion H. destruct t; discriminate.
  - inversion H. eapply IH; eauto.
Qed.

Example sub_dot_zero_ex :
  sub_dot_zero "3.0" = "3" /\ sub_dot_zero "3" = "3" /\
  sub_dot_zero "3.05" = "3.05" /\ sub_dot_zero "10.0" = "10" /\
  sub_dot_zero "3A" = "3A" /\
  sub_dot_zero (String "3" dot0nl) = String "3" (String nl "").
Proof. repeat split. Qed.

Example strip_ex :
  strip (bytes [32; 9; 65; 32; 66; 194; 160; 10]) = "A B" /\
  strip "nan" = "nan" /\ strip "  " = "" /\ strip " Goa " = "Goa".
Proof. repeat split. Qed.

Example str_int_ex :
  str_int 3%Z = "3" /\ str_int (-12)%Z = "-12" /\ str_int 0%Z = "0".
Proof. repeat split. Qed.

(** C7 as stated fails: normalising the text [3.0.0] gives [3.0], and
    normalising that again gives [3]. *)
Lemma grade_normalization_strips_twice :
  clean_grade NanText repr_whole (CStr "3.0.0") = CStr "3.0" /\
  clean_grade NanText repr_whole (clean_grade NanText repr_whole (CStr "3.0.0")) = CStr "3" /\
  clean_grade NanText repr_whole (clean_grade NanText repr_whole (CStr "3.0.0"))
  <> clean_grade NanText repr_whole (CStr "3.0.0").
Proof. repeat split. discriminate. Qed.

(** C7, amended: grade normalisation removes one final [.0] (also before a
    final newline), and normalising an already normalised text changes
    nothing for every text that does not end in [.0.0], [.0.0\n] or
    [.0\n.0]. *)
Theorem grade_normalization_idempotent (na : astype_na) (repr_float : Q -> string) (s : string) :
  endswith s (dot0 ++ dot0) = false ->
  endswith s (dot0 ++ dot0nl) = false ->
  endswith s (dot0nl ++ dot0) = false ->
  clean_grade na repr_float (clean_grade na repr_float (CStr s))
  = clean_grade na repr_float (CStr s).
Proof.
  intros H1 H2 H3. unfold clean_grade. cbn [astype_str str_map]. f_equal.
  destruct (sub_dot_zero_cases s)
    as [(t & -> & ->) | [(t & -> & ->) | (_ & _ & E)]].
  - apply sub_dot_zero_nomatch.
    + destruct (endswith t dot0) eqn:E; [|reflexivity].
      apply endswith_iff in E as [u ->].
      rewrite append_assoc, endswith_append in H1. discriminate.
    + destruct (endswith t dot0nl) eqn:E; [|reflexivity].
      apply endswith_iff in E as [u ->].
      rewrite append_assoc, endswith_append in H3. discriminate.
  - apply sub_dot_zero_nomatch.
    + destruct (endswith _ dot0) eqn:E; [|reflexivity].
      apply endswith_iff in E as [u E]. exfalso.
      change dot0 with ("." ++ String "0" "")%string in E.
      rewrite <- append_assoc in E. revert E. apply last_char_clash.
      discriminate.
    + destruct (endswith _ dot0nl) eqn:E; [|reflexivity].
      apply endswith_iff in E as [u E]. exfalso.
      change dot0nl with (dot0 ++ String nl "")%string in E.
      rewrite <- append_assoc in E. apply append_inv_tail in E. subst t.
      rewrite append_assoc, endswith_append in H2. discriminate.
  - now rewrite !E.
Qed.

(** The three excluded endings are exactly the texts on which a second
    normalisation still finds something to remove. *)
Lemma grade_normalization_twice (na : astype_na) (repr_float : Q -> string) (s : string) :
  endswith s (dot0 ++ dot0) = true \/
  endswith s (dot0 ++ dot0nl) = true \/
  endswith s (dot0nl ++ dot0) = true ->
  clean_grade na repr_float (clean_grade na repr_float (CStr s))
  <> clean_grade na repr_float (CStr s).
Proof.
  unfold clean_grade. cbn [astype_str str_map].
  intros [H | [H | H]] E; apply endswith_iff in H as [t H];
    rewrite <- append_assoc in H; subst s; injection E as E.
  - rewrite !sub_dot_zero_dot0 in E. length_clash E.
  - rewrite sub_dot_zero_dot0nl in E.
    rewrite append_assoc in E.
    change (dot0 ++ String nl "")%string with dot0nl in E.
    rewrite sub_dot_zero_dot0nl in E. length_clash E.
  - rewrite sub_dot_zero_dot0, sub_dot_zero_dot0nl in E. length_clash E.
Qed.

(** ** Frames *)

Lemma mem_In x l : mem x l = true <-> In x l.
Proof.
  unfold mem. rewrite existsb_exists. split.
  - intros (y & Hy & E). apply String.eqb_eq in E. now subst.
  - intros H. exists x. split; [assumption | apply String.eqb_refl].
Qed.

Lemma mem_false x l : mem x l = false <-> ~ In x l.
Proof.
  rewrite <- mem_In. destruct (mem x l); split; intros; easy.
Qed.

Lemma subseq_refl {A : Type} (l : list A) : subseq l l.
Proof. induction l; constructor; assumption. Qed.

Lemma subseq_filter {A : Type} (p : A -> bool) (l : list A) :
  subseq (filter p l) l.
Proof.
  induction l as [|x l IH]; simpl; [constructor|].
  destruct (p x); constructor; assumption.
Qed.

Lemma subseq_trans {A : Type} (l1 l2 l3 : list A) :
  subseq l1 l2 -> subseq l2 l3 -> subseq l1 l3.
Proof.
  intros H12 H23. revert l1 H12.
  induction H23 as [|x l2 l3 H IH|x l2 l3 H IH]; intros l1 H12.
  - assumption.
  - constructor. now apply IH.
  - inversion H12; subst; constructor; now apply IH.
Qed.

Lemma subseq_length {A : Type} (l1 l2 : list A) :
  subseq l1 l2 -> List.length l1 <= List.length l2.
Proof. induction 1; simpl; lia. Qed.

Lemma subseq_In {A : Type} (l1 l2 : list A) (x : A) :
  subseq l1 l2 -> In x l1 -> In x l2.
Proof. induction 1; simpl; intuition. Qed.

(** A subsequence is the list read at strictly increasing positions. *)
Lemma subseq_positions {A : Type} (l1 l2 : list A) :
  subseq l1 l2 ->
  exists pos : list nat,
    map (nth_error l2) pos = map Some l1 /\
    (forall i j a b, i < j -> nth_error pos i = Some a ->
                     nth_error pos j = Some b -> a < b).
Proof.
  induction 1 as [|x l1 l2 H (pos & Hm & Hs)|x l1 l2 H (pos & Hm & Hs)].
  - exists []. split; [reflexivity|]. intros i j a b _ Hi. destruct i; discriminate.
  - exists (map S pos). split.
    + rewrite map_map. simpl. assumption.
    + intros i j a b Hij Hi Hj. rewrite nth_error_map in Hi, Hj.
      destruct (nth_error pos i) as [a'|] eqn:Ea; [|discriminate].
      destruct (nth_error pos j) as [b'|] eqn:Eb; [|discriminate].
      injection Hi as <-. injection Hj as <-.
      apply -> Nat.succ_lt_mono. eauto.
  - exists (0 :: map S pos). split.
    + simpl. rewrite map_map. simpl. now f_equal.
    + intros i j a b Hij Hi Hj.
      destruct j as [|j]; [lia|]. simpl in Hj. rewrite nth_error_map in Hj.
      destruct (nth_error pos j) as [b'|] eqn:Eb; [|discriminate].
      injection Hj as <-.
      destruct i as [|i]; simpl in Hi.
      * injection Hi as <-. lia.
      * rewrite nth_error_map in Hi.
        destruct (nth_error pos i) as [a'|] eqn:Ea; [|discriminate].
        injection Hi as <-. apply -> Nat.succ_lt_mono.
        apply (Hs i j); [lia | assumption | assumption].
Qed.

Lemma getitem_ok df label :
  one_column df label -> getitem label df = Ok (series df label).
Proof. unfold one_column, getitem. now intros ->. Qed.

Lemma getitem_ok_inv df label s :
  getitem label df = Ok s -> one_column df label /\ s = series df label.
Proof.
  unfold getitem, one_column.
  destruct (count_occ string_dec (columns df) label) as [|[|n]];
    try discriminate.
  intros H. injection H as <-. now split.
Qed.

(** ** Filtering *)

Lemma apply_filter_all label selected df :
  In "All" selected -> apply_filter label selected df = Ok df.
Proof.
  intros H. unfold apply_filter. apply mem_In in H. now rewrite H.
Qed.

Lemma apply_filter_subseq label selected df f :
  apply_filter label selected df = Ok f ->
  columns f = columns df /\ subseq (rows f) (rows df).
Proof.
  unfold apply_filter. destruct (negb (mem "All" selected)).
  - destruct (getitem label df); simpl; [|discriminate].
    intros H. injection H as <-. split; [reflexivity|].
    apply subseq_filter.
  - intros H. injection H as <-. split; [reflexivity | apply subseq_refl].
Qed.

Lemma apply_filter_total label selected df :
  one_column df label -> exists f, apply_filter label selected df = Ok f.
Proof.
  intros H. unfold apply_filter. destruct (negb (mem "All" selected)).
  - rewrite (getitem_ok _ _ H). simpl. eauto.
  - eauto.
Qed.

Lemma filtered_df_subseq df sel f :
  filtered_df df sel = Ok f ->
  columns f = columns df /\ subseq (rows f) (rows df).
Proof.
  unfold filtered_df.
  destruct (apply_filter "State" _ df) as [f1|] eqn:E1; simpl; [|discriminate].
  destruct (apply_filter "Centre Name" _ f1) as [f2|] eqn:E2; simpl; [|discriminate].
  destruct (apply_filter "Donor" _ f2) as [f3|] eqn:E3; simpl; [|discriminate].
  destruct (apply_filter "Subject" _ f3) as [f4|] eqn:E4; simpl; [|discriminate].
  destruct (apply_filter "Grade" _ f4) as [f5|] eqn:E5; simpl; [|discriminate].
  intros H. injection H as <-.
  apply apply_filter_subseq in E1 as [C1 S1], E2 as [C2 S2], E3 as [C3 S3],
    E4 as [C4 S4], E5 as [C5 S5].
  split; [congruence|].
  eauto using subseq_trans.
Qed.

Lemma filtered_df_total df sel :
  Forall (one_column df) filter_cols -> exists f, filtered_df df sel = Ok f.
Proof.
  intros H. unfold filter_cols in H.
  repeat match goal with
         | H : Forall _ (_ :: _) |- _ =>
             let H1 := fresh "Hc" in
             apply Forall_cons_iff in H; destruct H as [H1 H]
         end.
  unfold filtered_df, one_column in *.
  destruct (apply_filter_total "State" (selected_states sel) df Hc)
    as [f1 E1]. rewrite E1. simpl.
  apply apply_filter_subseq in E1 as [C1 _].
  destruct (apply_filter_total "Centre Name" (selected_centres sel) f1)
    as [f2 E2]; [unfold one_column; now rewrite C1|]. rewrite E2. simpl.
  apply apply_filter_subseq in E2 as [C2 _].
  destruct (apply_filter_total "Donor" (selected_donors sel) f2)
    as [f3 E3]; [unfold one_column; now rewrite C2, C1|]. rewrite E3. simpl.
  apply apply_filter_subseq in E3 as [C3 _].
  destruct (apply_filter_total "Subject" (selected_subjects sel) f3)
    as [f4 E4]; [unfold one_column; now rewrite C3, C2, C1|].
  rewrite E4. simpl.
  apply apply_filter_subseq in E4 as [C4 _].
  destruct (apply_filter_total "Grade" (selected_grades sel) f4)
    as [f5 E5]; [unfold one_column; now rewrite C4, C3, C2, C1|].
  rewrite E5. simpl. eauto.
Qed.

(** C3: when the selection of each of the five criteria is ["All"], the
    filter hands back the unified table itself, whatever the table: the same
    rows, in the same number and order, under the same columns. *)
Theorem filter_all_is_identity (df : DataFrame) (sel : Selections) :
  (forall c : criterion, selected c sel = ["All"]) ->
  filtered_df df sel = Ok df.
Proof.
  intros H. unfold filtered_df.
  pose proof (H ByState) as Hs. pose proof (H ByCentre) as Hc.
  pose proof (H ByDonor) as Hd. pose proof (H BySubject) as Hj.
  pose proof (H ByGrade) as Hg. simpl in Hs, Hc, Hd, Hj, Hg.
  rewrite Hs, Hc, Hd, Hj, Hg.
  repeat (rewrite apply_filter_all by (simpl; tauto); simpl bind).
  reflexivity.
Qed.

(** C8: for a table in which each of the five filter labels names one column
    (every unified table is one), the filter returns a table with the same
    columns whose rows are a subsequence of the table's rows: each kept row is
    a row of the table as it was, none is repeated, and their order is the
    table's. *)
Theorem filtered_is_subsequence (df : DataFrame) (sel : Selections) :
  Forall (one_column df) filter_cols ->
  exists f,
    filtered_df df sel = Ok f /\
    columns f = columns df /\
    subseq (rows f) (rows df).
Proof.
  intros H. destruct (filtered_df_total df sel H) as [f E].
  exists f. split; [assumption|]. now apply filtered_df_subseq with sel.
Qed.

(** C9: when the selection of a criterion contains ["All"], alone or next
    to other values, that criterion's test is not applied (every row of any
    table passes it), and the filter returns what it returns with that
    selection replaced by ["All"] alone; this holds for each of the five
    criteria, whatever the other four selections are. *)
Theorem all_sentinel_dominates
  (df : DataFrame) (sel : Selections) (c : criterion) :
  In "All" (selected c sel) ->
  (forall f, apply_filter (label_of c) (selected c sel) f = Ok f) /\
  filtered_df df sel = filtered_df df (select_all c sel).
Proof.
  intros H. split; [intros f; now apply apply_filter_all|].
  assert (E : forall label f,
             apply_filter label (selected c sel) f
             = apply_filter label ["All"] f).
  { intros label f. now rewrite (apply_filter_all label _ f H). }
  unfold filtered_df. destruct c; simpl in E; simpl select_all;
    cbn [selected_states selected_centres selected_donors selected_subjects
         selected_grades].
  - now rewrite E.
  - destruct (apply_filter "State" _ df); [simpl|reflexivity].
    now rewrite E.
  - destruct (apply_filter "State" _ df) as [f1|]; [simpl|reflexivity].
    destruct (apply_filter "Centre Name" _ f1); [simpl|reflexivity].
    now rewrite E.
  - destruct (apply_filter "State" _ df) as [f1|]; [simpl|reflexivity].
    destruct (apply_filter "Centre Name" _ f1) as [f2|]; [simpl|reflexivity].
    destruct (apply_filter "Donor" _ f2); [simpl|reflexivity].
    now rewrite E.
  - destruct (apply_filter "State" _ df) as [f1|]; [simpl|reflexivity].
    destruct (apply_filter "Centre Name" _ f1) as [f2|]; [simpl|reflexivity].
    destruct (apply_filter "Donor" _ f2) as [f3|]; [simpl|reflexivity].
    destruct (apply_filter "Subject" _ f3); [simpl|reflexivity].
    now rewrite E.
Qed.

(** ** Column access *)

Lemma cells_at_length hdr : forall r c,
  List.length r = List.length hdr ->
  List.length (cells_at hdr r c) = count_occ string_dec hdr c.
Proof.
  induction hdr as [|h hdr IH]; intros [|x r] c Hl; simpl in *;
    try reflexivity; try discriminate.
  injection Hl as Hl.
  destruct (String.eqb_spec h c) as [->|Hn].
  - destruct (string_dec c c); [simpl; now rewrite IH | contradiction].
  - destruct (string_dec h c); [contradiction | now apply IH].
Qed.

Lemma cells_at_notin hdr : forall r c, ~ In c hdr -> cells_at hdr r c = [].
Proof.
  induction hdr as [|h hdr IH]; intros [|x r] c Hn; simpl in *;
    try reflexivity.
  destruct (String.eqb_spec h c) as [->|Hne]; [tauto|].
  apply IH. tauto.
Qed.

Lemma count_occ_one hdr c :
  NoDup hdr -> In c hdr -> count_occ string_dec hdr c = 1.
Proof.
  intros Hnd Hin.
  pose proof (proj1 (NoDup_count_occ string_dec hdr) Hnd c).
  pose proof (proj1 (count_occ_In string_dec hdr c) Hin). lia.
Qed.

Lemma cells_at_one hdr r c :
  List.length r = List.length hdr ->
  count_occ string_dec hdr c = 1 ->
  cells_at hdr r c = [get hdr r c].
Proof.
  intros Hl Hc. unfold get.
  pose proof (cells_at_length hdr r c Hl) as H. rewrite Hc in H.
  destruct (cells_at hdr r c) as [|x [|y l]]; try discriminate. reflexivity.
Qed.

Lemma filter_eqb_one hdr c :
  count_occ string_dec hdr c = 1 -> filter (String.eqb c) hdr = [c].
Proof.
  assert (G : forall n, count_occ string_dec hdr c = n ->
                        filter (String.eqb c) hdr = repeat c n).
  { induction hdr as [|h hdr IH]; intros n; simpl.
    - now intros <-.
    - destruct (String.eqb_spec c h) as [->|Hn].
      + destruct (string_dec h h); [|contradiction].
        intros <-. simpl. f_equal. now apply IH.
      + destruct (string_dec h c); [now subst | apply IH]. }
  apply G.
Qed.

Lemma flat_map_singleton {A B : Type} (f : A -> list B) (g : A -> B) l :
  (forall x, In x l -> f x = [g x]) -> flat_map f l = map g l.
Proof.
  induction l as [|x l IH]; intros H; simpl; [reflexivity|].
  rewrite (H x) by now left. simpl. f_equal. apply IH.
  intros y Hy. apply H. now right.
Qed.

Lemma filter_none {A : Type} (p : A -> bool) l :
  (forall x, In x l -> p x = false) -> filter p l = [].
Proof.
  induction l as [|x l IH]; intros H; simpl; [reflexivity|].
  rewrite (H x) by now left. apply IH. intros y Hy. apply H. now right.
Qed.

(** [df[labels]] when each label names one column. *)
Lemma getitem_list_ok labels df :
  Forall (fun r => List.length r = List.length (columns df)) (rows df) ->
  Forall (one_column df) labels ->
  getitem_list labels df
  = Ok (mkFrame labels
          (map (fun r => map (get (columns df) r) labels) (rows df))).
Proof.
  intros Hl Hc. unfold getitem_list. rewrite Forall_forall in Hc.
  replace (filter (fun c => negb (mem c (columns df))) labels) with (@nil string).
  2:{ symmetry. apply filter_none. intros c Hin.
      apply negb_false_iff. apply mem_In. apply (count_occ_In string_dec).
      rewrite (Hc c Hin). lia. }
  f_equal. f_equal.
  - rewrite (flat_map_singleton _ (fun c => c)); [apply map_id|].
    intros c Hin. apply filter_eqb_one. now apply Hc.
  - apply map_ext_in. intros r Hr. apply flat_map_singleton.
    intros c Hin. apply cells_at_one; [|now apply Hc].
    rewrite Forall_forall in Hl. now apply Hl.
Qed.

Lemma get_overwrite_other hdr label v : forall r c,
  c <> label -> get hdr (overwrite hdr label v r) c = get hdr r c.
Proof.
  unfold get.
  induction hdr as [|h hdr IH]; intros [|x r] c Hn; simpl; try reflexivity.
  destruct (String.eqb_spec h c) as [->|Hhc].
  - simpl. destruct (String.eqb_spec c label); [contradiction | reflexivity].
  - now apply IH.
Qed.

Lemma get_overwrite_same hdr label v : forall r,
  List.length r = List.length hdr -> In label hdr ->
  get hdr (overwrite hdr label v r) label = v.
Proof.
  unfold get.
  induction hdr as [|h hdr IH]; intros [|x r] Hl Hin; simpl in *;
    try contradiction; try discriminate.
  destruct (String.eqb_spec h label) as [->|Hn]; [reflexivity|].
  apply IH; [lia | tauto].
Qed.

Lemma overwrite_length hdr label v : forall r,
  List.length (overwrite hdr label v r) = List.length r.
Proof.
  induction hdr as [|h hdr IH]; intros [|x r]; simpl; auto.
Qed.

Lemma cells_at_snoc hdr label v : forall r c,
  List.length r = List.length hdr ->
  cells_at (hdr ++ [label]) (r ++ [v]) c
  = cells_at hdr r c ++ (if label =? c then [v] else []).
Proof.
  induction hdr as [|h hdr IH]; intros [|x r] c Hl; simpl in *;
    try discriminate.
  - destruct (label =? c); reflexivity.
  - injection Hl as Hl. destruct (h =? c); simpl; now rewrite IH.
Qed.

Lemma get_snoc hdr label v r c :
  List.length r = List.length hdr -> ~ In label hdr ->
  get (hdr ++ [label]) (r ++ [v]) c
  = if c =? label then v else get hdr r c.
Proof.
  intros Hl Hn. unfold get. rewrite cells_at_snoc by assumption.
  rewrite (String.eqb_sym label c).
  destruct (String.eqb_spec c label) as [->|Hne].
  - now rewrite cells_at_notin.
  - now rewrite app_nil_r.
Qed.

(** [df[label] = v] on a well-formed frame: the labels stay distinct, [label]
    is among them, and each row reads [v] under [label] and what it read
    before under every other label. *)
Lemma set_scalar_spec label v df :
  well_formed df ->
  let df' := set_scalar label v df in
  NoDup (columns df') /\
  In label (columns df') /\
  incl (columns df) (columns df') /\
  exists g,
    rows df' = map g (rows df) /\
    forall r, In r (rows df) ->
      List.length (g r) = List.length (columns df') /\
      forall c, get (columns df') (g r) c
                = if c =? label then v else get (columns df) r c.
Proof.
  intros [Hnd Hl]. rewrite Forall_forall in Hl. unfold set_scalar.
  destruct (mem label (columns df)) eqn:E; simpl.
  - apply mem_In in E. repeat split; try assumption.
    + apply incl_refl.
    + exists (overwrite (columns df) label v). split; [reflexivity|].
      intros r Hr. split.
      * rewrite overwrite_length. now apply Hl.
      * intros c. destruct (String.eqb_spec c label) as [->|Hn].
        -- apply get_overwrite_same; [now apply Hl | assumption].
        -- now apply get_overwrite_other.
  - apply mem_false in E. repeat split.
    + apply NoDup_app; [assumption | repeat constructor; simpl; tauto |].
      intros x Hx [<-|[]]. contradiction.
    + apply in_or_app. right. now left.
    + apply incl_appl, incl_refl.
    + exists (fun r => r ++ [v]). split; [reflexivity|].
      intros r Hr. split.
      * rewrite !length_app. simpl. now rewrite (Hl r Hr).
      * intros c. apply get_snoc; [now apply Hl | assumption].
Qed.

(** ** Sorting and first occurrences *)

Lemma insert_by_In {A : Type} (leb : A -> A -> bool) x y l :
  In x (insert_by leb y l) <-> x = y \/ In x l.
Proof.
  induction l as [|z l IH]; simpl.
  - intuition.
  - destruct (leb y z); simpl; [intuition | rewrite IH; intuition].
Qed.

Lemma sorted_by_In {A : Type} (leb : A -> A -> bool) x l :
  In x (sorted_by leb l) <-> In x l.
Proof.
  induction l as [|y l IH]; simpl; [reflexivity|].
  rewrite insert_by_In, IH. intuition.
Qed.

Lemma sorted_by_length {A : Type} (leb : A -> A -> bool) l :
  List.length (sorted_by leb l) = List.length l.
Proof.
  assert (G : forall y m, List.length (insert_by leb y m) = S (List.length m)).
  { intros y m. induction m as [|z m IH]; simpl; [reflexivity|].
    destruct (leb y z); simpl; [reflexivity | now rewrite IH]. }
  induction l as [|y l IH]; simpl; [reflexivity|]. now rewrite G, IH.
Qed.

Lemma unique_by_incl {A : Type} (eqb : A -> A -> bool) x l :
  In x (unique_by eqb l) -> In x l.
Proof.
  induction l as [|y l IH]; simpl; [tauto|].
  intros [->|H]; [now left|]. apply filter_In in H. right. tauto.
Qed.

(** Of the values equal to [x], the first one in [l] stays. *)
Lemma unique_by_keeps {A : Type} (eqb : A -> A -> bool) x l :
  (forall a b, In a l -> In b l -> eqb a b = true -> a = b) ->
  In x l -> In x (unique_by eqb l).
Proof.
  induction l as [|y l IH]; simpl; [tauto|].
  intros Heq [->|Hin]; [now left|].
  destruct (eqb y x) eqn:E.
  - left. apply Heq; auto.
  - right. apply filter_In. split; [|now rewrite E].
    apply IH; [|assumption]. intros a b Ha Hb. apply Heq; auto.
Qed.

Lemma cell_eqb_text a b :
  is_text a = true -> cell_eqb a b = true -> a = b.
Proof.
  destruct a, b; simpl; try discriminate.
  intros _ H. apply String.eqb_eq in H. now subst.
Qed.

Lemma dropna_texts s :
  Forall (fun c => is_text c = true) s -> dropna s = s.
Proof.
  induction 1 as [|c s Hc _ IH]; simpl; [reflexivity|].
  destruct c; try discriminate. simpl. now rewrite IH.
Qed.

Lemma sorted_texts l :
  Forall (fun c => is_text c = true) l -> sorted l = Ok (sorted_by cell_leb l).
Proof.
  intros H. unfold sorted.
  replace (forallb is_text l) with true; [reflexivity|].
  symmetry. apply forallb_forall. now apply Forall_forall.
Qed.

(** The candidate values of a text column: ["All"], then every value of the
    column. *)
Lemma options_texts df label :
  one_column df label ->
  Forall (fun c => is_text c = true) (series df label) ->
  exists l,
    options df label = Ok (CStr "All" :: l) /\
    forall c, In c l <-> In c (series df label).
Proof.
  intros H1 Ht. unfold options. rewrite (getitem_ok _ _ H1). simpl bind.
  rewrite (dropna_texts _ Ht).
  rewrite sorted_texts.
  - simpl bind. eexists. split; [reflexivity|].
    intros c. rewrite sorted_by_In. split.
    + apply unique_by_incl.
    + apply unique_by_keeps. intros a b Ha _.
      apply cell_eqb_text. rewrite Forall_forall in Ht. now apply Ht.
  - apply Forall_forall. intros c Hc. apply unique_by_incl in Hc.
    rewrite Forall_forall in Ht. now apply Ht.
Qed.

(** The candidate values of a column of texts and blanks: ["All"], then
    every text of the column. *)
Lemma options_text_or_null df label :
  one_column df label ->
  Forall (fun c => is_text c = true \/ c = CNull) (series df label) ->
  exists l,
    options df label = Ok (CStr "All" :: l) /\
    forall c, In c l <-> In c (dropna (series df label)).
Proof.
  intros H1 Ht. unfold options. rewrite (getitem_ok _ _ H1). simpl bind.
  fold (series df label).
  assert (Hd : Forall (fun c => is_text c = true) (dropna (series df label))).
  { apply Forall_forall. intros c Hc. apply filter_In in Hc as [Hc Hn].
    rewrite Forall_forall in Ht. destruct (Ht c Hc) as [T| ->];
      [assumption | discriminate]. }
  rewrite sorted_texts.
  - simpl bind. eexists. split; [reflexivity|].
    intros c. rewrite sorted_by_In. split.
    + apply unique_by_incl.
    + apply unique_by_keeps. intros x y Hx _.
      apply cell_eqb_text. rewrite Forall_forall in Hd. now apply Hd.
  - apply Forall_forall. intros c Hc. apply unique_by_incl in Hc.
    rewrite Forall_forall in Hd. now apply Hd.
Qed.

Lemma nodupb_sound l : nodupb l = true -> NoDup l.
Proof.
  induction l as [|x l IH]; simpl; intros H; constructor.
  - apply andb_true_iff in H as [H _]. apply negb_true_iff in H.
    now apply mem_false.
  - apply andb_true_iff in H as [_ H]. now apply IH.
Qed.

(** ** Aggregation *)

Lemma cell_eqb_iff a b : cell_eqb a b = true <-> cell_eq a b.
Proof.
  destruct a, b; simpl; try (split; (discriminate || contradiction)).
  - apply String.eqb_eq.
  - rewrite Z.eqb_eq. symmetry. apply inject_Z_injective.
  - apply Qeq_bool_iff.
  - apply Qeq_bool_iff.
  - apply Qeq_bool_iff.
Qed.

Lemma cell_eq_sym a b : cell_eq a b -> cell_eq b a.
Proof.
  destruct a, b; simpl; try tauto; try (intros; now symmetry).
Qed.

Lemma cell_eq_trans a b c : cell_eq a b -> cell_eq b c -> cell_eq a c.
Proof.
  destruct a, b, c; simpl; try tauto; try congruence;
    intros H1 H2; now rewrite H1.
Qed.

Lemma cell_eqb_refl c : isna c = false -> cell_eqb c c = true.
Proof.
  intros H. apply cell_eqb_iff. destruct c; simpl; try reflexivity.
  discriminate.
Qed.

(** Equal cells are equal to the same cells. *)
Lemma cell_eqb_right a b c :
  cell_eqb a b = true -> cell_eqb c a = cell_eqb c b.
Proof.
  intros H. apply cell_eqb_iff in H. apply eq_true_iff_eq.
  rewrite !cell_eqb_iff. split; intros E.
  - eapply cell_eq_trans; eassumption.
  - eapply cell_eq_trans; [eassumption | now apply cell_eq_sym].
Qed.

Lemma key_eqb_refl k : key_notna k = true -> key_eqb k k = true.
Proof.
  unfold key_notna, key_eqb. intros H. apply andb_true_iff in H as [H1 H2].
  apply negb_true_iff in H1, H2. now rewrite !cell_eqb_refl.
Qed.

Lemma groupby_ok k1 k2 df :
  one_column df k1 -> one_column df k2 ->
  exists groups,
    groupby k1 k2 df = Ok groups /\
    Forall (fun g => snd g <> []) groups.
Proof.
  intros H1 H2. unfold groupby.
  rewrite (getitem_ok _ _ H1), (getitem_ok _ _ H2). simpl bind.
  eexists. split; [reflexivity|].
  apply Forall_forall. intros g Hg.
  apply in_map_iff in Hg as (k & <- & Hk). simpl.
  apply sorted_by_In, unique_by_incl, in_map_iff in Hk as (r & <- & Hr).
  intros E.
  assert (Hin : In r (filter
                        (fun r0 => key_eqb (key_of (columns df) k1 k2 r)
                                     (key_of (columns df) k1 k2 r0))
                        (filter (fun r0 => key_notna (key_of (columns df) k1 k2 r0))
                           (rows df)))).
  { apply filter_In. split; [assumption|].
    apply key_eqb_refl. now apply filter_In in Hr. }
  rewrite E in Hin. destruct Hin.
Qed.

Lemma groupby_size_ok k1 k2 df :
  one_column df k1 -> one_column df k2 ->
  exists counts,
    groupby_size k1 k2 df = Ok counts /\
    Forall (fun kc => 0 < snd kc) counts.
Proof.
  intros H1 H2. destruct (groupby_ok k1 k2 df H1 H2) as (groups & E & Hne).
  unfold groupby_size. rewrite E. simpl bind. eexists.
  split; [reflexivity|].
  apply Forall_forall. intros kc Hkc.
  apply in_map_iff in Hkc as (g & <- & Hg). simpl.
  rewrite Forall_forall in Hne. specialize (Hne g Hg).
  destruct (snd g); [contradiction | simpl; lia].
Qed.

Lemma Qnat_list_sum l : (Qnat (list_sum l) == Qsum (map Qnat l))%Q.
Proof.
  induction l as [|n l IH]; simpl; [reflexivity|].
  rewrite <- IH. unfold Qnat. now rewrite Nat2Z.inj_add, inject_Z_plus.
Qed.

Lemma Qsum_share (t : Q) l :
  (Qsum (map (fun n => Qnat n / t * 100) l) == Qsum (map Qnat l) / t * 100)%Q.
Proof.
  induction l as [|n l IH]; simpl.
  - unfold Qdiv. now rewrite !Qmult_0_l.
  - rewrite IH. unfold Qdiv. ring.
Qed.

Lemma filter_map_comm {A B : Type} (f : A -> B) (p : B -> bool) l :
  filter p (map f l) = map f (filter (fun x => p (f x)) l).
Proof.
  induction l as [|x l IH]; simpl; [reflexivity|].
  destruct (p (f x)); simpl; now rewrite IH.
Qed.

Lemma year_total_eq y y' counts :
  cell_eqb y y' = true -> year_total y counts = year_total y' counts.
Proof.
  intros H. unfold year_total. f_equal. f_equal.
  apply filter_ext. intros kc. now apply cell_eqb_right.
Qed.

Lemma list_sum_pos (l : list (key * nat)) kc :
  In kc l -> 0 < snd kc -> 0 < list_sum (map snd l).
Proof.
  induction l as [|x l IH]; [intros []|].
  change (list_sum (map snd (x :: l))) with (snd x + list_sum (map snd l)).
  intros [->|H] Hp; [lia|]. specialize (IH H Hp). lia.
Qed.

(** ** Key figures *)

Lemma numbers_spec s :
  Forall (fun c => is_text c = false) s -> numbers s = Ok (flat_map present s).
Proof.
  induction 1 as [|c s Hc _ IH]; [reflexivity|].
  destruct c; simpl in *; try discriminate; now rewrite IH.
Qed.

Lemma flat_map_map {A B C : Type} (f : A -> B) (g : B -> list C) l :
  flat_map g (map f l) = flat_map (fun x => g (f x)) l.
Proof.
  induction l as [|x l IH]; simpl; [reflexivity | now rewrite IH].
Qed.

(** The year's mean, as the script computes it, is the average of the marks
    that are present in the year's rows. *)
Lemma avg_marks_spec year f :
  one_column f "Academic Year" -> one_column f "Obtained Marks" ->
  numeric_marks f ->
  avg_marks year f = Ok (average (marks_present year f)).
Proof.
  intros H1 H2 Hn. unfold avg_marks.
  rewrite (getitem_ok _ _ H1). simpl bind.
  rewrite getitem_ok by exact H2. simpl bind.
  unfold mean. rewrite numbers_spec.
  - simpl bind. unfold series, marks_present. now rewrite flat_map_map.
  - unfold numeric_marks, series in *. simpl rows. simpl columns.
    rewrite Forall_forall in *. intros c Hc.
    apply in_map_iff in Hc as (r & <- & Hr). apply filter_In in Hr as [Hr _].
    apply Hn. apply in_map_iff. now exists r.
Qed.

Lemma fst_bind_emit {B : Type} e (k : unit -> ui B) :
  fst (ui_bind (emit e) k) = e :: fst (k tt).
Proof. unfold ui_bind, emit. now destruct (k tt). Qed.

Lemma fst_bind_eval {A B : Type} (a : A) (k : A -> ui B) :
  fst (ui_bind (eval (Ok a)) k) = fst (k a).
Proof. unfold ui_bind, eval. now destruct (k a). Qed.

Lemma marks_present_all year f :
  Forall (fun c => is_number c = true) (series f "Obtained Marks") ->
  List.length (marks_present year f) = len (year_rows year f).
Proof.
  intros H. unfold marks_present, len, year_rows, select_rows. simpl rows.
  unfold series in H. rewrite Forall_forall in H.
  assert (G : forall l, (forall r, In r l -> In r (rows f)) ->
                        List.length
                          (flat_map
                             (fun r => present (get (columns f) r "Obtained Marks"))
                             l)
                        = List.length l).
  { induction l as [|r l IH]; intros Hl; [reflexivity|]. simpl.
    rewrite length_app, IH by (intros; apply Hl; now right).
    assert (Hr : is_number (get (columns f) r "Obtained Marks") = true).
    { apply H. apply in_map_iff. exists r. split; [reflexivity|].
      apply Hl. now left. }
    unfold is_number in Hr. unfold present.
    now destruct (number_of (get (columns f) r "Obtained Marks")). }
  apply G. intros r Hr. now apply filter_In in Hr.
Qed.

(** C4 as stated fails: with a blank Obtained Marks in the only AY 24-25 row,
    both year groups have rows, the AY 24-25 mean is NaN, and no delta is
    shown. *)
Lemma kpi_delta_blank_marks :
  len (year_rows "AY 24-25" blank_marks_df) = 1 /\
  len (year_rows "AY 25-26" blank_marks_df) = 1 /\
  avg_marks "AY 24-25" blank_marks_df = Ok None /\
  avg_marks "AY 25-26" blank_marks_df = Ok (Some 70%Q) /\
  nth_error (fst (show_dashboard blank_marks_df)) 3
  = Some (Metric "Avg Baseline Score (AY 25-26)" (Fixed2 70) None).
Proof. repeat split. Qed.

(** C4, amended: for a table with one Academic Year and one Obtained Marks
    column, whose marks are numbers or blank, the third metric shows the
    AY 25-26 mean with a delta that is exactly (AY 25-26 mean) - (AY 24-25
    mean) whenever each year has at least one mark that is present, the means
    being taken over the marks that are present; the delta is missing (not a
    zero) whenever a year has no mark that is present, in particular whenever
    the year has no rows.  When no mark is blank, a year has a mark exactly
    when it has a row. *)
Theorem kpi_delta_spec (filtered : DataFrame) :
  one_column filtered "Academic Year" ->
  one_column filtered "Obtained Marks" ->
  numeric_marks filtered ->
  let m24 := marks_present "AY 24-25" filtered in
  let m25 := marks_present "AY 25-26" filtered in
  nth_error (fst (show_dashboard filtered)) 3
  = Some (Metric "Avg Baseline Score (AY 25-26)"
            (fixed2_or_na (average m25)) (delta (average m24) (average m25))) /\
  (m24 <> [] -> m25 <> [] ->
   delta (average m24) (average m25)
   = Some (Fixed2 (Qsum m25 / Qnat (List.length m25)
                   - Qsum m24 / Qnat (List.length m24))%Q)) /\
  (m24 = [] \/ m25 = [] -> delta (average m24) (average m25) = None) /\
  (len (year_rows "AY 24-25" filtered) = 0 \/
   len (year_rows "AY 25-26" filtered) = 0 ->
   delta (average m24) (average m25) = None) /\
  (Forall (fun c => is_number c = true) (series filtered "Obtained Marks") ->
   List.length m24 = len (year_rows "AY 24-25" filtered) /\
   List.length m25 = len (year_rows "AY 25-26" filtered)).
Proof.
  intros H1 H2 Hn m24 m25.
  assert (Hnone : m24 = [] \/ m25 = [] ->
                  delta (average m24) (average m25) = None).
  { intros [E|E]; rewrite E; simpl; [reflexivity|].
    now destruct (average m24). }
  split; [|split; [|split; [|split]]].
  - unfold show_dashboard.
    rewrite fst_bind_emit.
    rewrite (avg_marks_spec "AY 24-25" filtered H1 H2 Hn), fst_bind_eval.
    rewrite (avg_marks_spec "AY 25-26" filtered H1 H2 Hn), fst_bind_eval.
    rewrite !fst_bind_emit. reflexivity.
  - intros N24 N25. destruct m24 as [|x l]; [contradiction|].
    destruct m25 as [|x' l']; [contradiction|]. reflexivity.
  - exact Hnone.
  - intros [E|E]; apply Hnone; [left|right];
      unfold m24, m25, marks_present;
      unfold len in E; apply length_zero_iff_nil in E; now rewrite E.
  - intros Hall. split; now apply marks_present_all.
Qed.

(** ** The merger *)

Section Merger.

Variable na : astype_na.
Variable repr_float : Q -> string.

Lemma standardize_length df :
  List.length (columns (standardize df)) = List.length (columns df).
Proof.
  unfold standardize. destruct (mem "Rubrics" (columns df)); simpl;
    [apply length_map | reflexivity].
Qed.

Lemma standardize_rows df : rows (standardize df) = rows df.
Proof. unfold standardize. now destruct (mem "Rubrics" (columns df)). Qed.

Lemma valid_standardized df :
  valid_source df -> well_formed (standardize df).
Proof.
  intros [[_ Hl] [Hnd _]]. split; [assumption|].
  rewrite standardize_rows, standardize_length. assumption.
Qed.

(** Renaming Rubrics leaves the cells under any other label where they are. *)
Lemma get_standardize df r c :
  c <> "Rubrics" -> c <> "Category" ->
  get (columns (standardize df)) r c = get (columns df) r c.
Proof.
  intros H1 H2. unfold standardize.
  destruct (mem "Rubrics" (columns df)); [|reflexivity].
  unfold get, rename. simpl. f_equal.
  generalize (columns df) as hdr. intros hdr. revert r.
  induction hdr as [|h hdr IH]; intros [|x r]; simpl; try reflexivity.
  destruct (String.eqb_spec h "Rubrics") as [->|Hn].
  - destruct (String.eqb_spec "Category" c); [congruence|].
    destruct (String.eqb_spec "Rubrics" c); [congruence|]. apply IH.
  - destruct (h =? c); [f_equal|]; apply IH.
Qed.

(** One source, tagged and projected to the common columns. *)
Lemma project_tagged df tag :
  valid_source df ->
  getitem_list common_cols
    (set_scalar "Academic Year" tag (standardize df))
  = Ok (mkFrame common_cols
          (map (fun r =>
                  let hdr := columns (standardize df) in
                  [ get hdr r "State"; get hdr r "Centre Name";
                    get hdr r "Donor"; get hdr r "Subject";
                    get hdr r "Grade"; get hdr r "Total Marks";
                    get hdr r "Obtained Marks"; get hdr r "Category"; tag ])
             (rows df))).
Proof.
  intros Hv. pose proof (valid_standardized df Hv) as Hwf.
  destruct Hv as (_ & _ & Hreq).
  destruct (set_scalar_spec "Academic Year" tag (standardize df) Hwf)
    as (Hnd & Hin & Hincl & g & Hrows & Hg).
  rewrite standardize_rows in Hrows, Hg.
  rewrite getitem_list_ok.
  - f_equal. f_equal. rewrite Hrows, map_map. apply map_ext_in.
    intros r Hr. destruct (Hg r Hr) as [_ Hget].
    simpl. now rewrite !Hget.
  - rewrite Hrows. apply Forall_forall. intros r' Hr'.
    apply in_map_iff in Hr' as (r & <- & Hr). now apply Hg.
  - apply Forall_forall. intros c Hc. apply count_occ_one; [assumption|].
    destruct Hc as [<-|Hc]; [apply Hincl, Hreq; simpl; tauto|].
    repeat (destruct Hc as [<-|Hc]; [apply Hincl, Hreq; simpl; tauto|]).
    destruct Hc as [<-|[]]. assumption.
Qed.

Lemma map_series_common label f rs :
  In label common_cols ->
  map_series label f (mkFrame common_cols rs)
  = Ok (mkFrame common_cols (map (update_at common_cols label f) rs)).
Proof.
  intros H. unfold map_series.
  rewrite getitem_ok; [reflexivity|].
  unfold one_column. simpl columns.
  repeat (destruct H as [<-|H]; [reflexivity|]). destruct H.
Qed.

Lemma bind_ok {A B : Type} (a : A) (k : A -> result B) : bind (Ok a) k = k a.
Proof. reflexivity. Qed.

Lemma strip_columns_cons col cols df :
  strip_columns na repr_float (col :: cols) df
  = bind (map_series col (clean_text na repr_float) df)
      (strip_columns na repr_float cols).
Proof. reflexivity. Qed.

Lemma to_dtype_text f s : to_dtype f (CStr s) = CStr s.
Proof. now destruct f. Qed.

Lemma to_dtype_null f : to_dtype f CNull = CNull.
Proof. now destruct f. Qed.

Lemma to_dtype_is_text f c : is_text (to_dtype f c) = is_text c.
Proof. destruct f, c; reflexivity. Qed.

Lemma series_standardize df label :
  series (standardize df) label
  = map (fun r => get (columns (standardize df)) r label) (rows df).
Proof. unfold series. now rewrite standardize_rows. Qed.

(** Stacking the two projected sheets brings each column to the dtype of
    the cells stacked in it. *)
Lemma stack_common a b tag_a tag_b :
  to_common_dtype
    (mkFrame common_cols
       (map (fun r =>
               let hdr := columns (standardize a) in
               [ get hdr r "State"; get hdr r "Centre Name";
                 get hdr r "Donor"; get hdr r "Subject";
                 get hdr r "Grade"; get hdr r "Total Marks";
                 get hdr r "Obtained Marks"; get hdr r "Category";
                 CStr tag_a ])
          (rows a)
        ++ map (fun r =>
                  let hdr := columns (standardize b) in
                  [ get hdr r "State"; get hdr r "Centre Name";
                    get hdr r "Donor"; get hdr r "Subject";
                    get hdr r "Grade"; get hdr r "Total Marks";
                    get hdr r "Obtained Marks"; get hdr r "Category";
                    CStr tag_b ])
             (rows b)))
  = mkFrame common_cols
      (map (fun r =>
              let hdr := columns (standardize a) in
              let cell_of label := to_dtype (floats a b label) (get hdr r label) in
              [ cell_of "State"; cell_of "Centre Name"; cell_of "Donor";
                cell_of "Subject"; cell_of "Grade"; cell_of "Total Marks";
                cell_of "Obtained Marks"; cell_of "Category"; CStr tag_a ])
         (rows a)
       ++ map (fun r =>
                 let hdr := columns (standardize b) in
                 let cell_of label := to_dtype (floats a b label) (get hdr r label) in
                 [ cell_of "State"; cell_of "Centre Name"; cell_of "Donor";
                   cell_of "Subject"; cell_of "Grade"; cell_of "Total Marks";
                   cell_of "Obtained Marks"; cell_of "Category"; CStr tag_b ])
            (rows b)).
Proof.
  unfold to_common_dtype, floats, stacked.
  rewrite !series_standardize.
  cbn [columns rows common_cols List.length seq map].
  unfold column_at. rewrite !map_app, !map_map. cbn [nth].
  f_equal. f_equal; apply map_ext; intros r; cbn [upcast_row];
    unfold to_dtype; cbv zeta;
    now destruct (float_column (map (fun _ => CStr tag_a) _ ++ _)).
Qed.

(** What [load_and_prep_data] returns for two valid sheets, row by row. *)
Lemma load_and_prep_data_spec file1 file2 a b :
  read_excel file1 "BaseLine-AY2425" = Ok a ->
  read_excel file2 "BL-Data" = Ok b ->
  valid_source a -> valid_source b ->
  load_and_prep_data na repr_float file1 file2
  = Ok (unified na repr_float a b).
Proof.
  intros Ea Eb Ha Hb. unfold load_and_prep_data.
  rewrite Ea, Eb, !bind_ok.
  rewrite (project_tagged a _ Ha), (project_tagged b _ Hb), !bind_ok.
  unfold concat. cbn [columns rows].
  replace (list_eqb common_cols common_cols) with true by reflexivity.
  rewrite stack_common, bind_ok.
  repeat (rewrite strip_columns_cons;
          rewrite map_series_common by (simpl; tauto); rewrite bind_ok).
  change (strip_columns na repr_float [] ?d) with (Ok d). rewrite bind_ok.
  rewrite map_series_common by (simpl; tauto). rewrite bind_ok.
  unfold unified. f_equal. f_equal.
  rewrite !map_map. rewrite !map_app, !map_map. reflexivity.
Qed.

Lemma len_mkFrame hdr rs : len (mkFrame hdr rs) = List.length rs.
Proof. reflexivity. Qed.

Lemma series_app hdr rs1 rs2 label :
  series (mkFrame hdr (rs1 ++ rs2)) label
  = series (mkFrame hdr rs1) label ++ series (mkFrame hdr rs2) label.
Proof. unfold series. simpl. apply map_app. Qed.

Lemma series_prepared_year fl tag hdr rs :
  series (mkFrame common_cols (map (prepared na repr_float fl tag hdr) rs))
    "Academic Year"
  = repeat tag (List.length rs).
Proof.
  unfold series. simpl rows. simpl columns. rewrite map_map.
  induction rs as [|r rs IH]; simpl; [reflexivity | now rewrite IH].
Qed.

Lemma len_set_scalar label v df : len (set_scalar label v df) = len df.
Proof.
  unfold set_scalar, len. destruct (mem label (columns df)); simpl;
    apply length_map.
Qed.

Lemma len_standardize df : len (standardize df) = len df.
Proof. unfold len. now rewrite standardize_rows. Qed.

Lemma len_getitem_list labels df df' :
  getitem_list labels df = Ok df' -> len df' = len df.
Proof.
  unfold getitem_list.
  destruct (filter _ labels); [|discriminate].
  intros H. injection H as <-. apply length_map.
Qed.

Lemma len_to_common_dtype df : len (to_common_dtype df) = len df.
Proof. unfold to_common_dtype, len. simpl. apply length_map. Qed.

Lemma len_concat x y z : concat x y = Ok z -> len z = len x + len y.
Proof.
  unfold concat. destruct (list_eqb _ _).
  - intros H. injection H as <-. rewrite len_to_common_dtype.
    apply length_app.
  - destruct (nodupb (columns x) && nodupb (columns y)); [|discriminate].
    intros H. injection H as <-. rewrite len_to_common_dtype.
    unfold len. simpl. now rewrite length_app, !length_map.
Qed.

Lemma len_map_series label f df df' :
  map_series label f df = Ok df' -> len df' = len df.
Proof.
  unfold map_series. destruct (getitem label df); [|discriminate].
  intros H. injection H as <-. apply length_map.
Qed.

Lemma len_strip_columns cols : forall df df',
  strip_columns na repr_float cols df = Ok df' -> len df' = len df.
Proof.
  induction cols as [|col cols IH]; intros df df'.
  - intros H. now injection H as <-.
  - rewrite strip_columns_cons.
    destruct (map_series col _ df) as [d|] eqn:E; [|discriminate].
    rewrite bind_ok. intros H. apply IH in H. apply len_map_series in E.
    congruence.
Qed.

(** Whatever the two sheets are, a merge that returns a table returns one
    with as many rows as the two sheets together. *)
Lemma load_and_prep_data_len file1 file2 a b df :
  read_excel file1 "BaseLine-AY2425" = Ok a ->
  read_excel file2 "BL-Data" = Ok b ->
  load_and_prep_data na repr_float file1 file2 = Ok df ->
  len df = len a + len b.
Proof.
  intros Ea Eb. unfold load_and_prep_data. rewrite Ea, Eb, !bind_ok.
  destruct (getitem_list common_cols (set_scalar _ _ (standardize a)))
    as [pa|] eqn:Pa; [|discriminate].
  destruct (getitem_list common_cols (set_scalar _ _ (standardize b)))
    as [pb|] eqn:Pb; [|discriminate].
  rewrite !bind_ok.
  destruct (concat pa pb) as [c|] eqn:C; [|discriminate]. rewrite bind_ok.
  destruct (strip_columns na repr_float _ c) as [s|] eqn:S; [|discriminate].
  rewrite bind_ok.
  destruct (map_series "Grade" _ s) as [g|] eqn:G; [|discriminate].
  rewrite bind_ok. intros H. injection H as <-.
  apply len_getitem_list in Pa, Pb. apply len_concat in C.
  apply len_strip_columns in S. apply len_map_series in G.
  rewrite len_set_scalar, len_standardize in Pa, Pb. congruence.
Qed.

Lemma len_unified a b : len (unified na repr_float a b) = len a + len b.
Proof.
  unfold unified. rewrite len_mkFrame, length_app, !length_map. reflexivity.
Qed.

(** C1: a merge that returns a table returns one with as many rows as the
    two sheets together, and for two valid sheets the merge does return a
    table. *)
Theorem merge_row_count (file1 file2 : workbook) (a b : DataFrame) :
  read_excel file1 "BaseLine-AY2425" = Ok a ->
  read_excel file2 "BL-Data" = Ok b ->
  (forall df, load_and_prep_data na repr_float file1 file2 = Ok df ->
              len df = len a + len b) /\
  (valid_source a -> valid_source b ->
   exists df,
     load_and_prep_data na repr_float file1 file2 = Ok df /\
     len df = len a + len b).
Proof.
  intros Ea Eb. split.
  - intros df. now apply load_and_prep_data_len.
  - intros Ha Hb. eexists. split.
    + apply (load_and_prep_data_spec file1 file2 a b); assumption.
    + apply len_unified.
Qed.

Lemma unified_one_column a b label :
  In label common_cols -> one_column (unified na repr_float a b) label.
Proof.
  intros H. unfold one_column, unified. simpl columns.
  repeat (destruct H as [<-|H]; [reflexivity|]). destruct H.
Qed.

Lemma unified_year a b :
  series (unified na repr_float a b) "Academic Year"
  = repeat (CStr "AY 24-25") (len a) ++ repeat (CStr "AY 25-26") (len b).
Proof. unfold unified. now rewrite series_app, !series_prepared_year. Qed.

(** C2: for two valid sheets the merge returns a table with as many rows as
    the two sheets together, whose Academic Year column reads AY 24-25 on
    the rows of the first sheet (the first [len a] rows), AY 25-26 on the
    rows of the second sheet (the [len b] rows after them), and nothing else
    anywhere. *)
Theorem merge_academic_year (file1 file2 : workbook) (a b : DataFrame) :
  read_excel file1 "BaseLine-AY2425" = Ok a ->
  read_excel file2 "BL-Data" = Ok b ->
  valid_source a -> valid_source b ->
  exists df,
    load_and_prep_data na repr_float file1 file2 = Ok df /\
    len df = len a + len b /\
    getitem "Academic Year" df
    = Ok (repeat (CStr "AY 24-25") (len a) ++ repeat (CStr "AY 25-26") (len b)) /\
    (forall i r, nth_error (rows df) i = Some r ->
       get (columns df) r "Academic Year"
       = if Nat.ltb i (len a) then CStr "AY 24-25" else CStr "AY 25-26") /\
    Forall (fun c => c = CStr "AY 24-25" \/ c = CStr "AY 25-26")
      (series df "Academic Year").
Proof.
  intros Ea Eb Ha Hb. eexists. split; [|split; [|split; [|split]]].
  - apply (load_and_prep_data_spec file1 file2 a b); assumption.
  - apply len_unified.
  - rewrite getitem_ok by (apply unified_one_column; simpl; tauto).
    now rewrite unified_year.
  - intros i r Hi.
    assert (E : nth_error (series (unified na repr_float a b) "Academic Year") i
                = Some (get (columns (unified na repr_float a b)) r
                          "Academic Year")).
    { unfold series. now rewrite nth_error_map, Hi. }
    rewrite unified_year in E. unfold len in *.
    destruct (Nat.ltb_spec i (List.length (rows a))) as [L|L].
    + rewrite nth_error_app1 in E by now rewrite repeat_length.
      apply nth_error_In, repeat_spec in E. now symmetry.
    + rewrite nth_error_app2 in E by now rewrite repeat_length.
      apply nth_error_In, repeat_spec in E. now symmetry.
  - rewrite unified_year. apply Forall_app. split.
    + apply Forall_forall. intros c Hc. apply repeat_spec in Hc. now left.
    + apply Forall_forall. intros c Hc. apply repeat_spec in Hc. now right.
Qed.

Lemma clean_is_text label c :
  na = NanText -> is_text (clean na repr_float label c) = true.
Proof.
  intros E. unfold clean, clean_text, clean_grade, astype_str. rewrite E.
  now destruct (label =? "Grade"), c.
Qed.

Lemma clean_null label :
  na = NanText -> clean na repr_float label CNull = CStr "nan".
Proof.
  intros E. unfold clean, clean_text, clean_grade, astype_str. rewrite E.
  now destruct (label =? "Grade").
Qed.

Lemma clean_text_or_null label c :
  is_text (clean na repr_float label c) = true
  \/ clean na repr_float label c = CNull.
Proof.
  unfold clean, clean_text, clean_grade, astype_str.
  destruct (label =? "Grade"), c; simpl; auto; destruct na; simpl; auto.
Qed.

Lemma series_prepared fl tag hdr rs label :
  In label filter_cols ->
  series (mkFrame common_cols (map (prepared na repr_float fl tag hdr) rs)) label
  = map (fun r => clean na repr_float label (to_dtype (fl label) (get hdr r label)))
      rs.
Proof.
  intros H. unfold series. simpl rows. simpl columns. rewrite map_map.
  apply map_ext. intros r.
  repeat (destruct H as [<-|H]; [reflexivity|]). destruct H.
Qed.

(** The cells of the unified table under a label whose column is stacked
    as it is: the marks and the performance band. *)
Lemma series_prepared_value fl tag hdr rs label :
  In label ["Total Marks"; "Obtained Marks"; "Category"] ->
  series (mkFrame common_cols (map (prepared na repr_float fl tag hdr) rs)) label
  = map (fun r => to_dtype (fl label) (get hdr r label)) rs.
Proof.
  intros H. unfold series. simpl rows. simpl columns. rewrite map_map.
  apply map_ext. intros r.
  repeat (destruct H as [<-|H]; [reflexivity|]). destruct H.
Qed.

Lemma upcast_column_stacked a b label :
  upcast_column (stacked a b label)
  = map (fun r => to_dtype (floats a b label)
                    (get (columns (standardize a)) r label)) (rows a)
    ++ map (fun r => to_dtype (floats a b label)
                       (get (columns (standardize b)) r label)) (rows b).
Proof.
  unfold upcast_column, floats, stacked.
  now rewrite map_app, !series_standardize, !map_map.
Qed.

Lemma unified_value_column a b label :
  In label ["Total Marks"; "Obtained Marks"; "Category"] ->
  series (unified na repr_float a b) label
  = upcast_column (stacked a b label).
Proof.
  intros H. unfold unified.
  rewrite series_app, !series_prepared_value by assumption.
  now rewrite upcast_column_stacked.
Qed.

Lemma filter_col_not_category label :
  In label filter_cols -> label <> "Rubrics" /\ label <> "Category".
Proof.
  intros H. repeat (destruct H as [<-|H]; [split; discriminate|]). destruct H.
Qed.

Lemma filter_col_common label : In label filter_cols -> In label common_cols.
Proof. unfold filter_cols, common_cols. simpl. tauto. Qed.

(** A filter column of the unified table: one column; its cells are the
    stacked cells of the two sheets, brought to their dtype and cleaned;
    each is a text or is missing. *)
Lemma unified_filter_column (a b : DataFrame) (label : string) :
  In label filter_cols ->
  one_column (unified na repr_float a b) label /\
  series (unified na repr_float a b) label
  = map (clean na repr_float label) (upcast_column (stacked a b label)) /\
  Forall (fun c => is_text c = true \/ c = CNull)
    (series (unified na repr_float a b) label).
Proof.
  intros Hl.
  assert (Hs : series (unified na repr_float a b) label
               = map (clean na repr_float label)
                   (upcast_column (stacked a b label))).
  { unfold unified. rewrite series_app, !series_prepared by assumption.
    now rewrite upcast_column_stacked, map_app, !map_map. }
  split; [|split; [exact Hs|]].
  - apply unified_one_column. now apply filter_col_common.
  - rewrite Hs. apply Forall_forall. intros c Hc.
    apply in_map_iff in Hc as (x & <- & _). apply clean_text_or_null.
Qed.

Lemma stacked_blank a b label r :
  label <> "Rubrics" -> label <> "Category" ->
  (In r (rows a) /\ get (columns a) r label = CNull) \/
  (In r (rows b) /\ get (columns b) r label = CNull) ->
  In CNull (upcast_column (stacked a b label)).
Proof.
  intros N1 N2 H. rewrite upcast_column_stacked. apply in_or_app.
  destruct H as [[Hr Hn]|[Hr Hn]]; [left|right]; apply in_map_iff;
    exists r; (split; [|assumption]);
    rewrite get_standardize, Hn by assumption; apply to_dtype_null.
Qed.

(** C10, amended: when [astype(str)] writes a missing value as the text
    [nan] (pandas before 3.0), in the unified table of two valid sheets each
    of the five filter columns holds texts only, so none of its cells is
    null and [dropna] keeps the whole column; a cell that was blank in a
    sheet has become the text [nan], and [nan] is then one of the values
    offered for that column. *)
Theorem filter_columns_have_no_nulls
  (file1 file2 : workbook) (a b : DataFrame) (label : string) :
  na = NanText ->
  read_excel file1 "BaseLine-AY2425" = Ok a ->
  read_excel file2 "BL-Data" = Ok b ->
  valid_source a -> valid_source b ->
  In label filter_cols ->
  exists df l,
    load_and_prep_data na repr_float file1 file2 = Ok df /\
    one_column df label /\
    Forall (fun c => is_text c = true /\ isna c = false) (series df label) /\
    dropna (series df label) = series df label /\
    options df label = Ok (CStr "All" :: l) /\
    (forall r,
        (In r (rows a) /\ get (columns a) r label = CNull) \/
        (In r (rows b) /\ get (columns b) r label = CNull) ->
        In (CStr "nan") (series df label) /\ In (CStr "nan") l).
Proof.
  intros Hna Ea Eb Ha Hb Hl.
  pose proof (load_and_prep_data_spec file1 file2 a b Ea Eb Ha Hb) as E.
  destruct (unified_filter_column a b label Hl) as (H1 & Hs & _).
  set (df := unified na repr_float a b) in *.
  assert (Ht : Forall (fun c => is_text c = true) (series df label)).
  { rewrite Hs. apply Forall_forall. intros c Hc.
    apply in_map_iff in Hc as (x & <- & _). now apply clean_is_text. }
  destruct (options_texts df label H1 Ht) as (l & Ho & Hin).
  assert (Hnan : forall r,
             (In r (rows a) /\ get (columns a) r label = CNull) \/
             (In r (rows b) /\ get (columns b) r label = CNull) ->
             In (CStr "nan") (series df label)).
  { intros r H. destruct (filter_col_not_category label Hl) as [N1 N2].
    rewrite Hs. apply in_map_iff. exists CNull.
    split; [now apply clean_null | now apply stacked_blank with r]. }
  exists df, l. repeat split; try assumption.
  - apply Forall_forall. intros c Hc. rewrite Forall_forall in Ht.
    specialize (Ht c Hc). destruct c; try discriminate. now split.
  - now apply dropna_texts.
  - now apply Hnan with r.
  - apply Hin. now apply Hnan with r.
Qed.

Lemma empty_of_len f : len f = 0 -> empty f = true.
Proof.
  unfold len, empty. intros H. apply length_zero_iff_nil in H. now rewrite H.
Qed.

(** The five candidate lists of the unified table are computed. *)
Lemma unified_options a b label :
  In label filter_cols ->
  exists l, options (unified na repr_float a b) label = Ok l.
Proof.
  intros Hl. destruct (unified_filter_column a b label Hl) as (H1 & _ & Ht).
  destruct (options_text_or_null _ label H1 Ht) as (l & Ho & _). eauto.
Qed.

(** C6: for two valid sheets and any selection the merge, the five candidate
    lists and the filter all succeed; when the filtered table has no rows the
    page ends with the no-data warning, right after the five multiselects:
    no metric, no chart and no table is computed or shown, and no error is
    reported. *)
Theorem empty_result_shows_no_data
  (file1 file2 : workbook) (a b : DataFrame) (sel : Selections) :
  read_excel file1 "BaseLine-AY2425" = Ok a ->
  read_excel file2 "BL-Data" = Ok b ->
  valid_source a -> valid_source b ->
  exists df filtered states centres donors subjects grades,
    load_and_prep_data na repr_float file1 file2 = Ok df /\
    options df "State" = Ok states /\
    options df "Centre Name" = Ok centres /\
    options df "Donor" = Ok donors /\
    options df "Subject" = Ok subjects /\
    options df "Grade" = Ok grades /\
    filtered_df df sel = Ok filtered /\
    (len filtered = 0 ->
     script na repr_float (Some file1) (Some file2) sel
     = page_head ++
       [ SidebarSuccess "Baseline Data Merged Successfully!";
         SidebarMarkdown "---";
         SidebarHeader "2. Filter Data";
         Multiselect "Select State(s)" states ["All"];
         Multiselect "Select Centre Name(s)" centres ["All"];
         Multiselect "Select Donor(s)" donors ["All"];
         Multiselect "Select Subject(s)" subjects ["All"];
         Multiselect "Select Class/Grade(s)" grades ["All"];
         no_data_warning ] /\
     forallb (fun e => negb (is_aggregate e) && negb (is_error e))
       (script na repr_float (Some file1) (Some file2) sel) = true).
Proof.
  intros Ea Eb Ha Hb.
  pose proof (load_and_prep_data_spec file1 file2 a b Ea Eb Ha Hb) as E.
  set (df := unified na repr_float a b) in *.
  destruct (unified_options a b "State") as [states O1]; [simpl; tauto|].
  destruct (unified_options a b "Centre Name") as [centres O2]; [simpl; tauto|].
  destruct (unified_options a b "Donor") as [donors O3]; [simpl; tauto|].
  destruct (unified_options a b "Subject") as [subjects O4]; [simpl; tauto|].
  destruct (unified_options a b "Grade") as [grades O5]; [simpl; tauto|].
  fold df in O1, O2, O3, O4, O5.
  destruct (filtered_df_total df sel) as [filtered F].
  { apply Forall_forall. intros label Hl.
    apply unified_one_column. now apply filter_col_common. }
  exists df, filtered, states, centres, donors, subjects, grades.
  repeat (split; [assumption|]).
  intros Hlen. apply empty_of_len in Hlen.
  assert (Hs : script na repr_float (Some file1) (Some file2) sel
               = page_head ++
                 [ SidebarSuccess "Baseline Data Merged Successfully!";
                   SidebarMarkdown "---";
                   SidebarHeader "2. Filter Data";
                   Multiselect "Select State(s)" states ["All"];
                   Multiselect "Select Centre Name(s)" centres ["All"];
                   Multiselect "Select Donor(s)" donors ["All"];
                   Multiselect "Select Subject(s)" subjects ["All"];
                   Multiselect "Select Class/Grade(s)" grades ["All"];
                   no_data_warning ]).
  { unfold script, process. rewrite E. clearbody df.
    unfold eval, emit, ui_bind, try_except.
    rewrite O1, O2, O3, O4, O5, F, Hlen. reflexivity. }
  split; [exact Hs|]. rewrite Hs. reflexivity.
Qed.

End Merger.

(** C10 as stated fails where [astype(str)] keeps a missing value missing
    (pandas 3): the blank Centre Name of the first sample sheet is still
    missing in the unified table, [dropna] removes it, and no [nan] is
    among the values offered. *)
Lemma filter_columns_keep_missing :
  exists df,
    load_and_prep_data StaysMissing repr_whole book_24_25 book_25_26 = Ok df /\
    series df "Centre Name" = [CStr "Centre 1"; CNull; CStr "Centre 2"] /\
    dropna (series df "Centre Name") = [CStr "Centre 1"; CStr "Centre 2"] /\
    options df "Centre Name"
    = Ok [CStr "All"; CStr "Centre 1"; CStr "Centre 2"] /\
    ~ In (CStr "nan") (series df "Centre Name").
Proof.
  exists sample_df_missing. repeat split.
  simpl. intros [H|[H|[H|[]]]]; discriminate.
Qed.

(** * Further properties *)

(** ** The filter as one test per row *)

Lemma filter_all_true {A : Type} (p : A -> bool) l :
  (forall x, In x l -> p x = true) -> filter p l = l.
Proof.
  induction l as [|x l IH]; intros H; simpl; [reflexivity|].
  rewrite (H x) by now left. f_equal. apply IH. intros y Hy. apply H. now right.
Qed.

Lemma filter_filter {A : Type} (p q : A -> bool) l :
  filter q (filter p l) = filter (fun x => p x && q x) l.
Proof.
  induction l as [|x l IH]; simpl; [reflexivity|].
  destruct (p x); simpl; [destruct (q x)|]; now rewrite IH.
Qed.

Lemma apply_filter_rows c sel hdr rs :
  count_occ string_dec hdr (label_of c) = 1 ->
  apply_filter (label_of c) (selected c sel) (mkFrame hdr rs)
  = Ok (mkFrame hdr (filter (fun r => passes_one hdr sel r c) rs)).
Proof.
  intros H. unfold apply_filter, passes_one.
  destruct (mem "All" (selected c sel)) eqn:E; simpl.
  - now rewrite filter_all_true by reflexivity.
  - now rewrite (getitem_ok (mkFrame hdr rs) _ H).
Qed.

(** The five steps of the filter keep exactly the rows that pass the five
    tests. *)
Lemma filtered_df_passes df sel :
  Forall (one_column df) filter_cols ->
  filtered_df df sel = Ok (select_rows (passes (columns df) sel) df).
Proof.
  intros H. unfold filter_cols in H. destruct df as [hdr rs].
  unfold one_column in H. simpl columns in *.
  repeat match goal with
         | H : Forall _ (_ :: _) |- _ =>
             let H1 := fresh "Hc" in
             apply Forall_cons_iff in H; destruct H as [H1 H]
         end.
  unfold filtered_df.
  pose proof (fun rs => apply_filter_rows ByState sel hdr rs Hc) as E.
  simpl in E. rewrite E, bind_ok. clear E.
  pose proof (fun rs => apply_filter_rows ByCentre sel hdr rs Hc0) as E.
  simpl in E. rewrite E, bind_ok. clear E.
  pose proof (fun rs => apply_filter_rows ByDonor sel hdr rs Hc1) as E.
  simpl in E. rewrite E, bind_ok. clear E.
  pose proof (fun rs => apply_filter_rows BySubject sel hdr rs Hc2) as E.
  simpl in E. rewrite E, bind_ok. clear E.
  pose proof (fun rs => apply_filter_rows ByGrade sel hdr rs Hc3) as E.
  simpl in E. rewrite E, bind_ok. clear E.
  f_equal. unfold select_rows. simpl. f_equal.
  rewrite !filter_filter. apply filter_ext. intros r.
  unfold passes, criteria. simpl. now rewrite andb_true_r, !andb_assoc.
Qed.

Lemma isin_iff values c :
  isin values c = true <-> exists v, c = CStr v /\ In v values.
Proof.
  destruct c; simpl; try (split; [discriminate | intros (v & E & _); discriminate]).
  rewrite mem_In. split.
  - intros H. now exists s.
  - intros (v & E & H). now injection E as ->.
Qed.

Lemma passes_one_iff hdr sel r c :
  passes_one hdr sel r c = true <->
  In "All" (selected c sel) \/
  exists v, get hdr r (label_of c) = CStr v /\ In v (selected c sel).
Proof.
  unfold passes_one. now rewrite orb_true_iff, mem_In, isin_iff.
Qed.

Lemma passes_iff hdr sel r :
  passes hdr sel r = true <->
  forall c, In "All" (selected c sel) \/
            exists v, get hdr r (label_of c) = CStr v /\ In v (selected c sel).
Proof.
  unfold passes. rewrite forallb_forall. split.
  - intros H c. apply passes_one_iff. apply H. destruct c; simpl; tauto.
  - intros H c _. apply passes_one_iff. apply H.
Qed.

(** X1: the filter keeps a row exactly when, for each of the five criteria,
    the selection contains ["All"] or the row's cell is a text that is in
    the selection; the kept rows stay in the table's order. *)
Theorem filter_keeps_passing_rows (df : DataFrame) (sel : Selections) :
  Forall (one_column df) filter_cols ->
  exists f,
    filtered_df df sel = Ok f /\
    columns f = columns df /\
    rows f = filter (passes (columns df) sel) (rows df) /\
    forall r,
      In r (rows f) <->
      In r (rows df) /\
      forall c, In "All" (selected c sel) \/
                exists v, get (columns df) r (label_of c) = CStr v /\
                          In v (selected c sel).
Proof.
  intros H. eexists. split; [apply (filtered_df_passes df sel H)|].
  repeat split; simpl in *.
  - now apply filter_In in H0.
  - apply passes_iff. now apply filter_In in H0.
  - intros [Hr Hp]. apply filter_In. split; [assumption|]. now apply passes_iff.
Qed.

(** X2: filtering a filtered table again with the same selection changes
    nothing, and filtering by two selections one after the other gives the
    same table in either order. *)
Theorem filter_twice (df : DataFrame) (s1 s2 : Selections) :
  Forall (one_column df) filter_cols ->
  exists f1 f2 f12,
    filtered_df df s1 = Ok f1 /\
    filtered_df df s2 = Ok f2 /\
    filtered_df f1 s1 = Ok f1 /\
    filtered_df f1 s2 = Ok f12 /\
    filtered_df f2 s1 = Ok f12.
Proof.
  intros H.
  assert (Hs : forall p, Forall (one_column (select_rows p df)) filter_cols)
    by (intros p; exact H).
  exists (select_rows (passes (columns df) s1) df),
    (select_rows (passes (columns df) s2) df),
    (select_rows (fun r => passes (columns df) s1 r && passes (columns df) s2 r)
       df).
  rewrite !filtered_df_passes by (exact H || apply Hs).
  unfold select_rows. simpl. rewrite !filter_filter.
  repeat split; f_equal; f_equal; apply filter_ext; intros r.
  - now destruct (passes (columns df) s1 r).
  - apply andb_comm.
Qed.

Lemma subseq_filter_imp {A : Type} (p q : A -> bool) l :
  (forall x, p x = true -> q x = true) -> subseq (filter p l) (filter q l).
Proof.
  intros H. induction l as [|x l IH]; simpl; [constructor|].
  destruct (p x) eqn:E.
  - rewrite (H x E). now constructor.
  - destruct (q x); [constructor|]; assumption.
Qed.

(** X3: selecting more values never loses a row: when every selection of
    [sel] is contained in the matching selection of [sel'], the rows kept
    under [sel] are a subsequence of the rows kept under [sel']. *)
Theorem filter_monotone (df : DataFrame) (sel sel' : Selections) :
  Forall (one_column df) filter_cols ->
  (forall c, incl (selected c sel) (selected c sel')) ->
  exists f f',
    filtered_df df sel = Ok f /\
    filtered_df df sel' = Ok f' /\
    subseq (rows f) (rows f').
Proof.
  intros H Hincl. do 2 eexists.
  rewrite !filtered_df_passes by exact H.
  split; [reflexivity|]. split; [reflexivity|]. simpl.
  apply subseq_filter_imp. intros r Hr. apply passes_iff.
  intros c. destruct (proj1 (passes_iff _ _ _) Hr c) as [Ha | (v & E & Hv)].
  - left. now apply Hincl.
  - right. exists v. split; [assumption | now apply Hincl].
Qed.

(** X4: a criterion with nothing selected removes every row, whatever the
    other four selections are. *)
Theorem empty_selection_keeps_nothing
  (df : DataFrame) (sel : Selections) (c : criterion) :
  Forall (one_column df) filter_cols ->
  selected c sel = [] ->
  exists f, filtered_df df sel = Ok f /\ columns f = columns df /\ len f = 0.
Proof.
  intros H Hc. eexists. split; [apply (filtered_df_passes df sel H)|].
  split; [reflexivity|]. unfold len. simpl.
  rewrite filter_none; [reflexivity|].
  intros r _. destruct (passes (columns df) sel r) eqn:E; [|reflexivity].
  destruct (proj1 (passes_iff _ _ _) E c) as [Ha | (v & _ & Hv)];
    rewrite Hc in *; contradiction.
Qed.

Lemma options_values df label l :
  options df label = Ok l ->
  exists rest,
    l = CStr "All" :: rest /\
    forall x, In x rest -> In x (series df label) /\ isna x = false.
Proof.
  unfold options. destruct (getitem label df) as [s|] eqn:G; [|discriminate].
  apply getitem_ok_inv in G as [_ ->]. rewrite bind_ok.
  unfold sorted.
  destruct (forallb is_text _ || forallb is_number _); [|discriminate].
  rewrite bind_ok. intros E. injection E as <-. eexists. split; [reflexivity|].
  intros x Hx. apply sorted_by_In, unique_by_incl in Hx.
  apply filter_In in Hx as [Hx Hn]. split; [assumption|].
  now apply negb_true_iff.
Qed.

(** X5: a value offered in a multiselect always matches a row: selecting
    just one value from the candidate list of a criterion (the entries after
    ["All"]), with ["All"] in the other four selections, keeps at least one
    row. *)
Theorem offered_value_matches_a_row
  (df : DataFrame) (sel : Selections) (c : criterion) (v : string)
  (rest : list cell) :
  Forall (one_column df) filter_cols ->
  options df (label_of c) = Ok (CStr "All" :: rest) ->
  In (CStr v) rest ->
  selected c sel = [v] ->
  (forall c', c' <> c -> In "All" (selected c' sel)) ->
  exists f, filtered_df df sel = Ok f /\ 0 < len f.
Proof.
  intros H Ho Hv Hc Hother.
  destruct (options_values _ _ _ Ho) as (rest' & E & Hin).
  injection E as <-. destruct (Hin _ Hv) as [Hs _].
  unfold series in Hs. apply in_map_iff in Hs as (r & Hg & Hr).
  eexists. split; [apply (filtered_df_passes df sel H)|].
  unfold len. simpl.
  assert (Hf : In r (filter (passes (columns df) sel) (rows df))).
  { apply filter_In. split; [assumption|]. apply passes_iff. intros c'.
    assert (D : {c' = c} + {c' <> c}) by (decide equality).
    destruct D as [->|N].
    - right. exists v. rewrite Hc. split; [assumption | now left].
    - left. now apply Hother. }
  destruct (filter _ _); [destruct Hf | simpl; lia].
Qed.

(** ** The candidate lists *)

Lemma insert_by_perm {A : Type} (leb : A -> A -> bool) x l :
  Permutation (insert_by leb x l) (x :: l).
Proof.
  induction l as [|y l IH]; simpl; [reflexivity|].
  destruct (leb x y); [reflexivity|].
  rewrite IH. apply perm_swap.
Qed.

Lemma sorted_by_perm {A : Type} (leb : A -> A -> bool) l :
  Permutation (sorted_by leb l) l.
Proof.
  induction l as [|x l IH]; simpl; [reflexivity|].
  rewrite insert_by_perm. now constructor.
Qed.

Lemma insert_by_sorted {A : Type} (leb : A -> A -> bool) x l :
  (forall a b, leb a b = true \/ leb b a = true) ->
  Sorted (fun a b => leb a b = true) l ->
  Sorted (fun a b => leb a b = true) (insert_by leb x l).
Proof.
  intros Htot. induction 1 as [|y l Hs IH Hd]; simpl.
  - repeat constructor.
  - destruct (leb x y) eqn:E.
    + constructor; [now constructor | now constructor].
    + constructor; [assumption|].
      destruct l as [|z l]; simpl.
      * constructor. destruct (Htot x y); congruence.
      * destruct (leb x z); constructor.
        -- destruct (Htot x y); congruence.
        -- now inversion Hd.
Qed.

Lemma sorted_by_sorted {A : Type} (leb : A -> A -> bool) l :
  (forall a b, leb a b = true \/ leb b a = true) ->
  Sorted (fun a b => leb a b = true) (sorted_by leb l).
Proof.
  intros Htot. induction l as [|x l IH]; simpl; [constructor|].
  now apply insert_by_sorted.
Qed.

Lemma Qle_bool_total x y : Qle_bool x y = true \/ Qle_bool y x = true.
Proof.
  rewrite !Qle_bool_iff. destruct (Qlt_le_dec x y) as [H|H].
  - left. now apply Qlt_le_weak.
  - now right.
Qed.

Lemma cell_leb_total a b : cell_leb a b = true \/ cell_leb b a = true.
Proof.
  unfold cell_leb.
  destruct a as [|s|x|x], b as [|t|y|y]; simpl; auto;
    try apply String.leb_total; apply Qle_bool_total.
Qed.

Lemma unique_by_nodup {A : Type} (eqb : A -> A -> bool) l :
  (forall a, In a l -> eqb a a = true) -> NoDup (unique_by eqb l).
Proof.
  induction l as [|x l IH]; intros Hr; simpl; constructor.
  - intros Hin. apply filter_In in Hin as [_ Hn].
    rewrite (Hr x) in Hn by now left. discriminate.
  - apply NoDup_filter. apply IH. intros a Ha. apply Hr. now right.
Qed.

(** X6: the candidate list of a column that holds texts only is ["All"]
    followed by the column's values, each exactly once, in ascending order;
    a value is offered exactly when some row has it. *)
Theorem options_sorted_distinct (df : DataFrame) (label : string) :
  one_column df label ->
  Forall (fun c => is_text c = true) (series df label) ->
  exists rest,
    options df label = Ok (CStr "All" :: rest) /\
    NoDup rest /\
    Sorted (fun a b => cell_leb a b = true) rest /\
    (forall v, In (CStr v) rest <-> exists r, In r (rows df) /\
                                           get (columns df) r label = CStr v).
Proof.
  intros H1 Ht. unfold options. rewrite (getitem_ok _ _ H1), bind_ok.
  rewrite (dropna_texts _ Ht).
  assert (Hu : Forall (fun c => is_text c = true)
                 (unique_by cell_eqb (series df label))).
  { apply Forall_forall. intros c Hc. apply unique_by_incl in Hc.
    rewrite Forall_forall in Ht. now apply Ht. }
  rewrite (sorted_texts _ Hu), bind_ok.
  eexists. split; [reflexivity|]. split; [|split].
  - eapply Permutation_NoDup; [symmetry; apply sorted_by_perm|].
    apply unique_by_nodup. intros a Ha. rewrite Forall_forall in Ht.
    specialize (Ht a Ha). destruct a; try discriminate. apply String.eqb_refl.
  - apply sorted_by_sorted. apply cell_leb_total.
  - intros v. rewrite sorted_by_In. split.
    + intros Hin. apply unique_by_incl in Hin. unfold series in Hin.
      apply in_map_iff in Hin as (r & E & Hr). eauto.
    + intros (r & Hr & E). apply unique_by_keeps.
      * intros a b Ha _. apply cell_eqb_text.
        rewrite Forall_forall in Ht. now apply Ht.
      * unfold series. apply in_map_iff. eauto.
Qed.

(** ** Failures of the merger *)

Lemma mem_app x l1 l2 : mem x (l1 ++ l2) = mem x l1 || mem x l2.
Proof. unfold mem. apply existsb_app. Qed.

Lemma mem_set_scalar c label v df :
  mem c (columns (set_scalar label v df))
  = mem c (columns df) || (c =? label).
Proof.
  unfold set_scalar. destruct (mem label (columns df)) eqn:E; simpl.
  - destruct (String.eqb_spec c label) as [->|N].
    + now rewrite E.
    + now rewrite orb_false_r.
  - rewrite mem_app. simpl. now rewrite orb_false_r.
Qed.

Lemma missing_after_tag tag df :
  filter (fun c => negb (mem c (columns (set_scalar "Academic Year" tag
                                          (standardize df)))))
    common_cols
  = missing_cols df.
Proof.
  unfold missing_cols.
  change common_cols with (required_cols ++ ["Academic Year"]).
  rewrite filter_app.
  replace (filter _ ["Academic Year"]) with (@nil string).
  2:{ symmetry. apply filter_none. intros c [<-|[]].
      now rewrite mem_set_scalar, String.eqb_refl, orb_true_r. }
  rewrite app_nil_r. apply filter_ext_in. intros c Hc.
  rewrite mem_set_scalar.
  replace (c =? "Academic Year") with false; [now rewrite orb_false_r|].
  symmetry. apply String.eqb_neq. intros ->.
  unfold required_cols in Hc. simpl in Hc.
  repeat (destruct Hc as [Hc|Hc]; [discriminate|]). destruct Hc.
Qed.

Lemma getitem_list_cases labels df :
  let missing := filter (fun c => negb (mem c (columns df))) labels in
  (missing <> [] /\ getitem_list labels df = Raise (KeyError missing)) \/
  (missing = [] /\ exists p,
      getitem_list labels df = Ok p /\
      forall c, In c labels -> In c (columns p)).
Proof.
  intros missing. unfold getitem_list. fold missing.
  destruct missing as [|m ms] eqn:E.
  - right. split; [reflexivity|]. eexists. split; [reflexivity|].
    intros c Hc. simpl. apply in_flat_map. exists c. split; [assumption|].
    apply filter_In. split; [|apply String.eqb_refl].
    apply mem_In. destruct (mem c (columns df)) eqn:M; [reflexivity|].
    assert (In c missing) by (apply filter_In; now rewrite M).
    unfold missing in E. subst missing. rewrite E in H. destruct H.
  - left. split; [discriminate | reflexivity].
Qed.

Lemma getitem_not_key_error label df :
  In label (columns df) -> forall m, getitem label df <> Raise (KeyError m).
Proof.
  intros H m. unfold getitem.
  apply (count_occ_In string_dec) in H.
  destruct (count_occ string_dec (columns df) label) as [|[|n]];
    [lia | discriminate | discriminate].
Qed.

Lemma map_series_columns label f df df' :
  map_series label f df = Ok df' -> columns df' = columns df.
Proof.
  unfold map_series. destruct (getitem label df); [|discriminate].
  rewrite bind_ok. intros E. now injection E as <-.
Qed.

Lemma map_series_not_key_error label f df :
  In label (columns df) ->
  forall m, map_series label f df <> Raise (KeyError m).
Proof.
  intros H m. unfold map_series.
  destruct (getitem label df) eqn:G; [discriminate|].
  simpl. intros E. injection E as ->.
  now apply (getitem_not_key_error label df H m).
Qed.

Lemma concat_columns a b c :
  concat a b = Ok c -> incl (columns a) (columns c).
Proof.
  unfold concat. destruct (list_eqb _ _).
  - intros E. injection E as <-. apply incl_refl.
  - destruct (nodupb _ && nodupb _); [|discriminate].
    intros E. injection E as <-. cbn [to_common_dtype columns].
    apply incl_appl, incl_refl.
Qed.

Lemma concat_not_key_error a b m : concat a b <> Raise (KeyError m).
Proof.
  unfold concat. destruct (list_eqb _ _); [discriminate|].
  destruct (nodupb _ && nodupb _); discriminate.
Qed.

Lemma script_merge_error na repr_float file1 file2 sel e :
  load_and_prep_data na repr_float file1 file2 = Raise e ->
  script na repr_float (Some file1) (Some file2) sel = page_head ++ [Error e].
Proof. intros E. unfold script, process. now rewrite E. Qed.

Section MergerFailures.

Variable na : astype_na.
Variable repr_float : Q -> string.

Lemma strip_columns_not_key_error cols : forall df,
  incl cols (columns df) ->
  forall m, strip_columns na repr_float cols df <> Raise (KeyError m).
Proof.
  induction cols as [|col cols IH]; intros df Hi m; [discriminate|].
  rewrite strip_columns_cons.
  destruct (map_series col (clean_text na repr_float) df) as [d|e] eqn:E.
  - rewrite bind_ok. apply IH. apply map_series_columns in E. rewrite E.
    intros c Hc. apply Hi. now right.
  - simpl. intros X. injection X as ->.
    apply (map_series_not_key_error col (clean_text na repr_float) df) in E;
      [assumption | apply Hi; now left].
Qed.

Lemma strip_columns_columns cols : forall df df',
  strip_columns na repr_float cols df = Ok df' -> columns df' = columns df.
Proof.
  induction cols as [|col cols IH]; intros df df'.
  - intros E. now injection E as <-.
  - rewrite strip_columns_cons.
    destruct (map_series col _ df) as [d|] eqn:E; [|discriminate].
    rewrite bind_ok. intros H. apply IH in H.
    apply map_series_columns in E. congruence.
Qed.

(** X7: the merger raises KeyError exactly when a sheet lacks a required
    column once Rubrics is renamed: for the first sheet that lacks one, the
    error names that sheet's missing required columns, in the order of the
    common column list; the page then shows the head and this one error. *)
Theorem merge_key_error (file1 file2 : workbook) (a b : DataFrame)
  (sel : Selections) :
  read_excel file1 "BaseLine-AY2425" = Ok a ->
  read_excel file2 "BL-Data" = Ok b ->
  (missing_cols a <> [] ->
   load_and_prep_data na repr_float file1 file2
   = Raise (KeyError (missing_cols a)) /\
   script na repr_float (Some file1) (Some file2) sel
   = page_head ++ [Error (KeyError (missing_cols a))]) /\
  (missing_cols a = [] -> missing_cols b <> [] ->
   load_and_prep_data na repr_float file1 file2
   = Raise (KeyError (missing_cols b)) /\
   script na repr_float (Some file1) (Some file2) sel
   = page_head ++ [Error (KeyError (missing_cols b))]) /\
  (missing_cols a = [] -> missing_cols b = [] ->
   forall m, load_and_prep_data na repr_float file1 file2 <> Raise (KeyError m)).
Proof.
  intros Ea Eb.
  assert (L : load_and_prep_data na repr_float file1 file2
              = bind (getitem_list common_cols
                        (set_scalar "Academic Year" (CStr "AY 24-25")
                           (standardize a)))
                  (fun pa =>
                     bind (getitem_list common_cols
                             (set_scalar "Academic Year" (CStr "AY 25-26")
                                (standardize b)))
                       (fun pb =>
                          bind (concat pa pb)
                            (fun c =>
                               bind (strip_columns na repr_float
                                       ["State"; "Centre Name"; "Donor"; "Subject"] c)
                                 (fun s =>
                                    bind (map_series "Grade"
                                            (clean_grade na repr_float) s)
                                      (fun g => Ok g)))))).
  { unfold load_and_prep_data. now rewrite Ea, Eb, !bind_ok. }
  pose proof (getitem_list_cases common_cols
                (set_scalar "Academic Year" (CStr "AY 24-25") (standardize a)))
    as Ca.
  pose proof (getitem_list_cases common_cols
                (set_scalar "Academic Year" (CStr "AY 25-26") (standardize b)))
    as Cb.
  cbv zeta in Ca, Cb. rewrite missing_after_tag in Ca, Cb.
  split; [|split].
  - intros N. destruct Ca as [[_ Ga]|[Z _]]; [|contradiction].
    assert (E : load_and_prep_data na repr_float file1 file2
                = Raise (KeyError (missing_cols a))) by (now rewrite L, Ga).
    split; [exact E | now apply script_merge_error].
  - intros Za N. destruct Ca as [[Na _]|[_ (pa & Ga & _)]]; [contradiction|].
    destruct Cb as [[_ Gb]|[Z _]]; [|contradiction].
    assert (E : load_and_prep_data na repr_float file1 file2
                = Raise (KeyError (missing_cols b)))
      by (now rewrite L, Ga, bind_ok, Gb).
    split; [exact E | now apply script_merge_error].
  - intros Za Zb m.
    destruct Ca as [[Na _]|[_ (pa & Ga & Ia)]]; [contradiction|].
    destruct Cb as [[Nb _]|[_ (pb & Gb & _)]]; [contradiction|].
    rewrite L, Ga, bind_ok, Gb, bind_ok.
    destruct (concat pa pb) as [c|e] eqn:C.
    + rewrite bind_ok. apply concat_columns in C.
      assert (Ic : incl common_cols (columns c))
        by (intros x Hx; apply C, Ia, Hx).
      destruct (strip_columns na repr_float _ c) as [s|e] eqn:S.
      * rewrite bind_ok. apply strip_columns_columns in S.
        destruct (map_series "Grade" _ s) as [g|e] eqn:G; [discriminate|].
        simpl. intros X. injection X as ->.
        apply (map_series_not_key_error "Grade" (clean_grade na repr_float) s)
          in G; [assumption|].
        rewrite S. apply Ic. simpl. tauto.
      * simpl. intros X. injection X as ->.
        apply (strip_columns_not_key_error
                 ["State"; "Centre Name"; "Donor"; "Subject"] c) in S;
          [assumption|].
        intros x Hx. apply Ic. simpl in *. tauto.
    + simpl. intros X. injection X as ->.
      now apply (concat_not_key_error pa pb m).
Qed.

End MergerFailures.

(** ** What the merger carries over *)

Lemma NoDup_map_inj {A B : Type} (f : A -> B) l x y :
  NoDup (map f l) -> In x l -> In y l -> f x = f y -> x = y.
Proof.
  induction l as [|z l IH]; simpl; [tauto|].
  intros Hnd Hx Hy E. inversion Hnd as [|? ? Hn Hnd']; subst.
  destruct Hx as [->|Hx], Hy as [->|Hy]; auto.
  - exfalso. apply Hn. rewrite E. now apply in_map.
  - exfalso. apply Hn. rewrite <- E. now apply in_map.
Qed.

Lemma cells_at_renamed hdr : forall r,
  ~ In "Category" hdr ->
  cells_at (map (fun c => if c =? "Rubrics" then "Category" else c) hdr) r
    "Category"
  = cells_at hdr r "Rubrics".
Proof.
  induction hdr as [|h hdr IH]; intros [|x r] Hn; simpl in *; try reflexivity.
  destruct (String.eqb_spec h "Rubrics") as [->|N].
  - simpl. f_equal. apply IH. tauto.
  - destruct (String.eqb_spec h "Category") as [->|N']; [tauto|].
    apply IH. tauto.
Qed.

(** Under the standardized labels a row reads as Category what the sheet
    holds under its own band label. *)
Lemma get_standardize_band df r :
  valid_source df ->
  get (columns (standardize df)) r "Category"
  = get (columns df) r (band_label df).
Proof.
  intros (_ & Hnd & _). unfold band_label. revert Hnd. unfold standardize.
  destruct (mem "Rubrics" (columns df)) eqn:E; [|reflexivity].
  unfold rename, get. simpl. intros Hnd. f_equal.
  apply cells_at_renamed. intros Hc. apply mem_In in E.
  assert (X : "Category" = "Rubrics"); [|discriminate X].
  eapply NoDup_map_inj; [exact Hnd | exact Hc | exact E | reflexivity].
Qed.

Lemma stacked_marks a b label :
  label <> "Rubrics" -> label <> "Category" ->
  stacked a b label = series a label ++ series b label.
Proof.
  intros N1 N2. unfold stacked. rewrite !series_standardize. unfold series.
  f_equal; apply map_ext; intros r; now apply get_standardize.
Qed.

Lemma stacked_band a b :
  valid_source a -> valid_source b ->
  stacked a b "Category"
  = map (fun r => get (columns a) r (band_label a)) (rows a)
    ++ map (fun r => get (columns b) r (band_label b)) (rows b).
Proof.
  intros Ha Hb. unfold stacked. rewrite !series_standardize.
  f_equal; apply map_ext; intros r; now apply get_standardize_band.
Qed.

Section MergerContent.

Variable na : astype_na.
Variable repr_float : Q -> string.

(** X8: the unified table of two valid sheets has exactly the nine common
    columns, whatever else the sheets hold; its Category column carries, row
    by row, the cells that each sheet holds under Rubrics (if it has that
    label) or Category, and its Total Marks and Obtained Marks columns carry
    the sheets' cells, each of the three columns in the dtype of the cells
    stacked in it: in a column without text that has a float or a blank an
    integer is held as the float of the same value, and every other cell is
    the sheet's cell. *)
Theorem merge_carries_columns (file1 file2 : workbook) (a b : DataFrame) :
  read_excel file1 "BaseLine-AY2425" = Ok a ->
  read_excel file2 "BL-Data" = Ok b ->
  valid_source a -> valid_source b ->
  exists df,
    load_and_prep_data na repr_float file1 file2 = Ok df /\
    columns df = common_cols /\
    getitem "Category" df
    = Ok (upcast_column
            (map (fun r => get (columns a) r (band_label a)) (rows a)
             ++ map (fun r => get (columns b) r (band_label b)) (rows b))) /\
    getitem "Total Marks" df
    = Ok (upcast_column (series a "Total Marks" ++ series b "Total Marks")) /\
    getitem "Obtained Marks" df
    = Ok (upcast_column
            (series a "Obtained Marks" ++ series b "Obtained Marks")).
Proof.
  intros Ea Eb Ha Hb.
  pose proof (load_and_prep_data_spec na repr_float file1 file2 a b Ea Eb Ha Hb)
    as E.
  eexists. split; [exact E|]. split; [reflexivity|].
  repeat split;
    rewrite getitem_ok by (apply unified_one_column; simpl; tauto);
    fold (series (unified na repr_float a b) "Category");
    fold (series (unified na repr_float a b) "Total Marks");
    fold (series (unified na repr_float a b) "Obtained Marks");
    rewrite unified_value_column by (simpl; tauto); f_equal.
  - now rewrite stacked_band.
  - now rewrite stacked_marks.
  - now rewrite stacked_marks.
Qed.

End MergerContent.

(** ** Stripping *)

Lemma drop_prefix_some p : forall s r,
  drop_prefix p s = Some r -> s = p ++ r.
Proof.
  induction p as [|a p IH]; intros [|b s] r; simpl; try discriminate.
  - intros E. now injection E as <-.
  - intros E. now injection E as <-.
  - destruct (Ascii.eqb_spec a b) as [->|N]; [|discriminate].
    intros E. f_equal. now apply IH.
Qed.

Lemma drop_prefix_app p : forall r, drop_prefix p (p ++ r) = Some r.
Proof.
  induction p as [|a p IH]; intros r; simpl; [reflexivity|].
  now rewrite Ascii.eqb_refl.
Qed.

Lemma drop_any_some ws : forall s r,
  drop_any ws s = Some r -> exists p, In p ws /\ s = p ++ r.
Proof.
  induction ws as [|p ws IH]; intros s r; simpl; [discriminate|].
  destruct (drop_prefix p s) as [r'|] eqn:E.
  - intros X. injection X as ->. apply drop_prefix_some in E. eauto.
  - intros X. destruct (IH _ _ X) as (q & Hq & Es). eauto.
Qed.

Lemma drop_any_none ws : forall s p r,
  drop_any ws s = None -> In p ws -> s <> p ++ r.
Proof.
  induction ws as [|q ws IH]; intros s p r; simpl; [tauto|].
  destruct (drop_prefix q s) eqn:E; [discriminate|].
  intros X [->|Hp] Es.
  - subst s. rewrite drop_prefix_app in E. discriminate.
  - now apply (IH s p r).
Qed.

(** A text that starts with no token has no prefix that starts with one. *)
Lemma drop_any_none_prefix ws u t :
  drop_any ws (u ++ t) = None -> drop_any ws u = None.
Proof.
  intros H. destruct (drop_any ws u) as [r|] eqn:E; [|reflexivity].
  destruct (drop_any_some _ _ _ E) as (p & Hp & ->).
  exfalso. apply (drop_any_none ws ((p ++ r) ++ t) p (r ++ t) H Hp).
  now rewrite app_assoc.
Qed.

Lemma lstrip_upto_done ws :
  Forall (fun p => p <> []) ws ->
  forall n s, List.length s <= n -> drop_any ws (lstrip_upto n ws s) = None.
Proof.
  intros Hne. induction n as [|n IH]; intros s Hl; simpl.
  - destruct s; [|simpl in Hl; lia].
    destruct (drop_any ws []) as [r|] eqn:E; [|reflexivity].
    destruct (drop_any_some _ _ _ E) as (p & Hp & Es).
    rewrite Forall_forall in Hne. specialize (Hne p Hp).
    destruct p; [contradiction | discriminate].
  - destruct (drop_any ws s) as [r|] eqn:E; [|assumption].
    apply IH. destruct (drop_any_some _ _ _ E) as (p & Hp & ->).
    rewrite Forall_forall in Hne. specialize (Hne p Hp).
    rewrite length_app in Hl. destruct p; [contradiction | simpl in Hl; lia].
Qed.

Lemma lstrip_upto_suffix ws : forall n s,
  exists pre, s = pre ++ lstrip_upto n ws s.
Proof.
  induction n as [|n IH]; intros s; simpl; [now exists []|].
  destruct (drop_any ws s) as [r|] eqn:E; [|now exists []].
  destruct (drop_any_some _ _ _ E) as (p & _ & ->).
  destruct (IH r) as [pre Hr]. exists (p ++ pre).
  rewrite <- app_assoc. now rewrite <- Hr.
Qed.

Lemma lstrip_fixed ws s : drop_any ws s = None -> lstrip ws s = s.
Proof.
  intros H. unfold lstrip. destruct (List.length s); simpl; [reflexivity|].
  now rewrite H.
Qed.

Lemma whitespace_tokens :
  Forall (fun p : list ascii => p <> []) whitespace /\
  Forall (fun p : list ascii => p <> []) (map (@rev ascii) whitespace).
Proof. split; repeat constructor; discriminate. Qed.

Lemma strip_spec (s : string) :
  (exists pre post,
      list_ascii_of_string s
      = pre ++ list_ascii_of_string (strip s) ++ post) /\
  drop_any whitespace (list_ascii_of_string (strip s)) = None /\
  drop_any (map (@rev ascii) whitespace)
    (rev (list_ascii_of_string (strip s))) = None /\
  strip (strip s) = strip s.
Proof.
  destruct whitespace_tokens as [W W'].
  unfold strip. cbv zeta. rewrite !list_ascii_of_string_of_list_ascii.
  set (l := lstrip whitespace (list_ascii_of_string s)).
  set (r := lstrip (map (@rev ascii) whitespace) (rev l)).
  assert (Hl : drop_any whitespace l = None)
    by (apply lstrip_upto_done; [exact W | reflexivity]).
  assert (Hr : drop_any (map (@rev ascii) whitespace) r = None)
    by (apply lstrip_upto_done; [exact W' | reflexivity]).
  destruct (lstrip_upto_suffix whitespace
              (List.length (list_ascii_of_string s)) (list_ascii_of_string s))
    as [pre Hpre]. fold (lstrip whitespace (list_ascii_of_string s)) in Hpre.
  fold l in Hpre.
  destruct (lstrip_upto_suffix (map (@rev ascii) whitespace)
              (List.length (rev l)) (rev l)) as [post Hpost].
  fold (lstrip (map (@rev ascii) whitespace) (rev l)) in Hpost. fold r in Hpost.
  assert (El : l = rev r ++ rev post).
  { rewrite <- rev_app_distr, <- Hpost. now rewrite rev_involutive. }
  assert (Hrr : drop_any whitespace (rev r) = None).
  { apply drop_any_none_prefix with (rev post). now rewrite <- El. }
  split; [|split; [|split]].
  - exists pre, (rev post). now rewrite <- El.
  - exact Hrr.
  - now rewrite rev_involutive.
  - f_equal. f_equal.
    rewrite (lstrip_fixed whitespace (rev r) Hrr), rev_involutive.
    now apply lstrip_fixed.
Qed.

(** X9: [strip] only removes from the two ends (the text is some prefix,
    the stripped text, some suffix), what it returns neither starts nor ends
    with a whitespace character, and stripping a stripped text changes
    nothing. *)
Theorem strip_idempotent (s : string) :
  (exists pre post,
      list_ascii_of_string s
      = pre ++ list_ascii_of_string (strip s) ++ post) /\
  stripped (strip s) = true /\
  strip (strip s) = strip s.
Proof.
  destruct (strip_spec s) as (Hsub & H1 & H2 & Hi).
  split; [exact Hsub|]. split; [|exact Hi].
  unfold stripped. now rewrite H1, H2.
Qed.

Section MergerTexts.

Variable na : astype_na.
Variable repr_float : Q -> string.

(** X10: in the unified table of two valid sheets every cell of the State,
    Centre Name, Donor and Subject columns is a text that neither starts nor
    ends with whitespace, or is missing, which happens only where
    [astype(str)] keeps a missing value missing; cleaning any of these cells
    once more leaves it as it is. *)
Theorem merge_texts_are_stripped
  (file1 file2 : workbook) (a b : DataFrame) (label : string) :
  read_excel file1 "BaseLine-AY2425" = Ok a ->
  read_excel file2 "BL-Data" = Ok b ->
  valid_source a -> valid_source b ->
  In label text_cols ->
  exists df,
    load_and_prep_data na repr_float file1 file2 = Ok df /\
    Forall (fun c => ((exists t, c = CStr t /\ stripped t = true) \/
                      (na = StaysMissing /\ c = CNull)) /\
                     clean_text na repr_float c = c)
      (series df label).
Proof.
  intros Ea Eb Ha Hb Hl.
  pose proof (load_and_prep_data_spec na repr_float file1 file2 a b Ea Eb Ha Hb)
    as E.
  assert (Hf : In label filter_cols) by (simpl in *; tauto).
  destruct (unified_filter_column na repr_float a b label Hf) as (_ & Hs & _).
  eexists. split; [exact E|]. rewrite Hs.
  assert (Hc : clean na repr_float label = clean_text na repr_float).
  { unfold clean. simpl in Hl.
    repeat (destruct Hl as [<-|Hl]; [reflexivity|]). destruct Hl. }
  rewrite Hc.
  assert (T : forall u,
             (exists t, CStr (strip u) = CStr t /\ stripped t = true) /\
             clean_text na repr_float (CStr (strip u)) = CStr (strip u)).
  { intros u. destruct (strip_spec u) as (_ & H1 & H2 & Hi).
    split; [|unfold clean_text; cbn [astype_str str_map]; now rewrite Hi].
    eexists. split; [reflexivity|]. unfold stripped. now rewrite H1, H2. }
  assert (G : forall c,
             ((exists t, clean_text na repr_float c = CStr t /\
                         stripped t = true) \/
              (na = StaysMissing /\ clean_text na repr_float c = CNull)) /\
             clean_text na repr_float (clean_text na repr_float c)
             = clean_text na repr_float c).
  { intros c. destruct c as [|u|z|x].
    - unfold clean_text at 2 3 4. cbn [astype_str].
      destruct na; cbn [str_map].
      + destruct (T "nan") as [T1 T2]. split; [now left | exact T2].
      + split; [now right | reflexivity].
    - destruct (T u) as [T1 T2]. split; [now left | exact T2].
    - destruct (T (str_int z)) as [T1 T2]. split; [now left | exact T2].
    - destruct (T (repr_float x)) as [T1 T2]. split; [now left | exact T2]. }
  apply Forall_forall. intros c Hin.
  apply in_map_iff in Hin as (x & <- & _). apply G.
Qed.

End MergerTexts.


(** ** Grade texts *)

Lemma digits_only_uint d : digits_only (NilEmpty.string_of_uint d) = true.
Proof. induction d; simpl; auto. Qed.

Lemma digits_only_str_int z : digits_only (str_int z) = true.
Proof.
  unfold str_int, NilZero.string_of_int, NilZero.string_of_uint.
  destruct (Z.to_int z) as [d|d]; destruct d; simpl;
    auto using digits_only_uint.
Qed.

Lemma sub_dot_zero_digits s : digits_only s = true -> sub_dot_zero s = s.
Proof.
  induction s as [|c s IH]; [reflexivity|].
  intros H. simpl in H. apply andb_true_iff in H as [Hc Hs].
  rewrite sub_dot_zero_unfold, (IH Hs).
  assert (N : c <> "."%char).
  { intros ->. discriminate Hc. }
  replace (String c s =? dot0) with false
    by (symmetry; apply String.eqb_neq; intros X; inversion X; contradiction).
  replace (String c s =? dot0nl) with false
    by (symmetry; apply String.eqb_neq; intros X; inversion X; contradiction).
  reflexivity.
Qed.

(** X11: an integer grade code and the float of the same value get the same
    Grade text, the integer's decimal form, provided [str] writes that float
    as the integer followed by [.0] (as Python does for whole floats of
    moderate size). *)
Theorem grade_int_float_agree (na : astype_na) (repr_float : Q -> string) (z : Z) :
  repr_float (inject_Z z) = (str_int z ++ ".0")%string ->
  clean_grade na repr_float (CInt z) = CStr (str_int z) /\
  clean_grade na repr_float (CFloat (inject_Z z)) = CStr (str_int z).
Proof.
  intros H. unfold clean_grade. cbn [astype_str str_map]. split; f_equal.
  - apply sub_dot_zero_digits, digits_only_str_int.
  - rewrite H. apply sub_dot_zero_dot0.
Qed.

(** ** Groups *)

Section Classes.

Variable A : Type.
Variable e : A -> A -> bool.
Hypothesis e_sym : forall a b, e a b = true -> e b a = true.
Hypothesis e_trans : forall a b c, e a b = true -> e b c = true -> e a c = true.

Lemma unique_by_pairwise l :
  ForallOrdPairs (fun a b => e a b = false) (unique_by e l).
Proof.
  induction l as [|x l IH]; simpl; constructor.
  - apply Forall_forall. intros y Hy. apply filter_In in Hy as [_ Hy].
    now apply negb_true_iff.
  - clear -IH. induction IH as [|y u Hy Hu IHu]; simpl; [constructor|].
    destruct (negb (e x y)); [|assumption].
    constructor; [|assumption].
    apply Forall_forall. intros z Hz. apply filter_In in Hz as [Hz _].
    rewrite Forall_forall in Hy. now apply Hy.
Qed.

Lemma unique_by_covers l y :
  (forall a, In a l -> e a a = true) ->
  In y l -> exists k, In k (unique_by e l) /\ e k y = true.
Proof.
  induction l as [|x l IH]; simpl; [tauto|].
  intros Hr [->|Hy].
  - exists y. split; [now left | apply Hr; now left].
  - destruct IH as (k & Hk & Ek); [intros a Ha; apply Hr; now right | assumption |].
    destruct (e x k) eqn:X.
    + exists x. split; [now left | now apply e_trans with k].
    + exists k. split; [|assumption]. right. apply filter_In.
      split; [assumption | now rewrite X].
Qed.

Lemma filter_at_most_one (p : A -> bool) u :
  ForallOrdPairs (fun a b => e a b = false) u ->
  (forall a b, p a = true -> p b = true -> e a b = true) ->
  List.length (filter p u) <= 1.
Proof.
  intros Hu Hp. induction Hu as [|x u Hx Hu IH]; simpl; [lia|].
  destruct (p x) eqn:Px; [|assumption]. simpl.
  rewrite filter_none; [simpl; lia|].
  intros y Hy. destruct (p y) eqn:Py; [|reflexivity].
  rewrite Forall_forall in Hx. specialize (Hx y Hy).
  rewrite (Hp x y Px Py) in Hx. discriminate.
Qed.

Lemma double_count (u l : list A) :
  list_sum (map (fun k => List.length (filter (e k) l)) u)
  = list_sum (map (fun y => List.length (filter (fun k => e k y) u)) l).
Proof.
  induction u as [|k u IH]; simpl.
  - induction l as [|y l IHl]; simpl; [reflexivity | assumption].
  - rewrite IH. clear IH. induction l as [|y l IHl]; simpl; [reflexivity|].
    destruct (e k y); simpl; rewrite <- IHl; lia.
Qed.

(** Every element falls in exactly one class of first occurrences. *)
Lemma unique_by_partition l :
  (forall a, In a l -> e a a = true) ->
  list_sum (map (fun k => List.length (filter (e k) l)) (unique_by e l))
  = List.length l.
Proof.
  intros Hr. rewrite double_count.
  assert (G : forall y, In y l ->
                        List.length (filter (fun k => e k y) (unique_by e l)) = 1).
  { intros y Hy.
    assert (Hle : List.length (filter (fun k => e k y) (unique_by e l)) <= 1).
    { apply filter_at_most_one; [apply unique_by_pairwise|].
      intros a b Ha Hb. apply e_trans with y; [assumption | now apply e_sym]. }
    destruct (unique_by_covers l y Hr Hy) as (k & Hk & Ek).
    assert (Hin : In k (filter (fun k => e k y) (unique_by e l)))
      by (apply filter_In; now split).
    destruct (filter (fun k => e k y) (unique_by e l));
      [destruct Hin | simpl in *; lia]. }
  revert G. generalize (unique_by e l) as u. intros u G. clear Hr.
  induction l as [|y l IH]; simpl; [reflexivity|].
  rewrite (G y) by now left. rewrite IH; [reflexivity|].
  intros z Hz. apply G. now right.
Qed.

End Classes.

Lemma cell_eqb_sym a b : cell_eqb a b = true -> cell_eqb b a = true.
Proof. rewrite !cell_eqb_iff. apply cell_eq_sym. Qed.

Lemma cell_eqb_trans a b c :
  cell_eqb a b = true -> cell_eqb b c = true -> cell_eqb a c = true.
Proof. rewrite !cell_eqb_iff. apply cell_eq_trans. Qed.

Lemma key_eqb_sym a b : key_eqb a b = true -> key_eqb b a = true.
Proof.
  unfold key_eqb. rewrite !andb_true_iff. intros [H1 H2].
  split; now apply cell_eqb_sym.
Qed.

Lemma key_eqb_trans a b c :
  key_eqb a b = true -> key_eqb b c = true -> key_eqb a c = true.
Proof.
  unfold key_eqb. rewrite !andb_true_iff. intros [H1 H2] [H3 H4].
  split; eapply cell_eqb_trans; eassumption.
Qed.

Lemma key_leb_total a b : key_leb a b = true \/ key_leb b a = true.
Proof.
  unfold key_leb.
  destruct (cell_eqb (fst a) (fst b)) eqn:E.
  - rewrite (cell_eqb_sym _ _ E). apply cell_leb_total.
  - destruct (cell_eqb (fst b) (fst a)) eqn:E'.
    + apply cell_eqb_sym in E'. congruence.
    + apply cell_leb_total.
Qed.

Lemma pairwise_perm {A : Type} (R : A -> A -> Prop) l l' :
  (forall a b, R a b -> R b a) ->
  Permutation l l' -> ForallOrdPairs R l -> ForallOrdPairs R l'.
Proof.
  intros Hs. induction 1 as [|x l l' Hp IH|x y l|l l' l'' H1 IH1 H2 IH2];
    intros H.
  - assumption.
  - inversion H; subst. constructor; [|now apply IH].
    eapply Permutation_Forall; eassumption.
  - inversion H as [|? ? Hy Hl]; subst. inversion Hl as [|? ? Hx Hl']; subst.
    inversion Hy; subst.
    constructor; [constructor; [now apply Hs | assumption]|].
    now constructor.
  - auto.
Qed.

Lemma pairwise_map {A B : Type} (f : A -> B) (R : B -> B -> Prop) l :
  ForallOrdPairs R (map f l) <->
  ForallOrdPairs (fun a b => R (f a) (f b)) l.
Proof.
  induction l as [|x l IH]; simpl; split; intros H; try constructor;
    inversion H; subst.
  - rewrite Forall_map in *. assumption.
  - now apply IH.
  - now rewrite Forall_map.
  - now apply IH.
Qed.

Lemma list_sum_perm l l' : Permutation l l' -> list_sum l = list_sum l'.
Proof. induction 1; simpl; lia. Qed.

Lemma sorted_map {A B : Type} (f : A -> B) (R : B -> B -> Prop) l :
  Sorted R (map f l) <-> Sorted (fun a b => R (f a) (f b)) l.
Proof.
  induction l as [|x l IH]; simpl; split; intros H; try constructor;
    inversion H as [|? ? Hs Hd]; subst.
  - now apply IH.
  - destruct l; simpl in *; constructor. now inversion Hd.
  - now apply IH.
  - destruct l; simpl in *; constructor. now inversion Hd.
Qed.

(** The groups of a frame: their sizes add up to the rows whose two keys are
    present, no key is listed twice, and the keys are in ascending order. *)
Lemma groupby_spec k1 k2 df :
  one_column df k1 -> one_column df k2 ->
  exists groups,
    groupby k1 k2 df = Ok groups /\
    list_sum (map (fun g => List.length (snd g)) groups)
    = List.length
        (filter (fun r => key_notna (key_of (columns df) k1 k2 r)) (rows df)) /\
    ForallOrdPairs (fun g1 g2 => key_eqb (fst g1) (fst g2) = false) groups /\
    Sorted (fun g1 g2 => key_leb (fst g1) (fst g2) = true) groups /\
    Forall (fun g => exists r, In r (rows df) /\
                               key_of (columns df) k1 k2 r = fst g /\
                               In r (snd g)) groups.
Proof.
  intros H1 H2. unfold groupby.
  rewrite (getitem_ok _ _ H1), (getitem_ok _ _ H2), !bind_ok. cbv zeta.
  set (hdr := columns df).
  set (keyed := filter (fun r => key_notna (key_of hdr k1 k2 r)) (rows df)).
  set (ks := map (key_of hdr k1 k2) keyed).
  assert (Hrefl : forall k, In k ks -> key_eqb k k = true).
  { intros k Hk. apply key_eqb_refl. apply in_map_iff in Hk as (r & <- & Hr).
    now apply filter_In in Hr. }
  eexists. split; [reflexivity|]. split; [|split; [|split]].
  - rewrite map_map. simpl.
    rewrite (list_sum_perm _ _
               (Permutation_map _ (sorted_by_perm key_leb (unique_by key_eqb ks)))).
    rewrite <- (length_map (key_of hdr k1 k2) keyed). fold ks.
    rewrite <- (unique_by_partition key key_eqb key_eqb_sym key_eqb_trans ks Hrefl).
    f_equal. apply map_ext. intros k. unfold ks.
    now rewrite filter_map_comm, length_map.
  - apply pairwise_map. simpl.
    apply pairwise_perm with (unique_by key_eqb ks).
    + intros a b E. destruct (key_eqb b a) eqn:X; [|reflexivity].
      apply key_eqb_sym in X. congruence.
    + symmetry. apply sorted_by_perm.
    + apply unique_by_pairwise.
  - apply sorted_map. simpl. apply sorted_by_sorted. apply key_leb_total.
  - apply Forall_forall. intros g Hg.
    apply in_map_iff in Hg as (k & <- & Hk). simpl.
    apply sorted_by_In, unique_by_incl in Hk.
    pose proof (Hrefl k Hk) as Rk.
    apply in_map_iff in Hk as (r & <- & Hr).
    exists r. split; [now apply filter_In in Hr|]. split; [reflexivity|].
    apply filter_In. now split.
Qed.

Lemma groupby_covers k1 k2 df groups r :
  groupby k1 k2 df = Ok groups ->
  In r (rows df) -> key_notna (key_of (columns df) k1 k2 r) = true ->
  exists g, In g groups /\
            key_eqb (fst g) (key_of (columns df) k1 k2 r) = true /\
            In r (snd g).
Proof.
  unfold groupby.
  destruct (getitem k1 df) as [s1|]; [|discriminate]. rewrite bind_ok.
  destruct (getitem k2 df) as [s2|]; [|discriminate]. rewrite bind_ok.
  cbv zeta.
  intros E Hr Hn. injection E as <-.
  set (hdr := columns df) in *.
  set (keyed := filter (fun r => key_notna (key_of hdr k1 k2 r)) (rows df)).
  assert (Hk : In r keyed) by (apply filter_In; now split).
  destruct (unique_by_covers key key_eqb key_eqb_trans
              (map (key_of hdr k1 k2) keyed) (key_of hdr k1 k2 r))
    as (k & Hin & Ek).
  - intros a Ha. apply key_eqb_refl. apply in_map_iff in Ha as (r' & <- & Hr').
    now apply filter_In in Hr'.
  - now apply in_map.
  - eexists. split.
    + apply in_map_iff. exists k. split; [reflexivity|].
      now apply sorted_by_In.
    + simpl. split; [assumption|]. apply filter_In. now split.
Qed.

(** X12: the category distribution counts every row that has a Category
    (and an Academic Year) exactly once: the Counts add up to the number of
    these rows, rows with a blank Category are in no Count, and no (year,
    category) pair is listed twice. *)
Theorem category_counts_cover_rows (filtered : DataFrame) :
  one_column filtered "Academic Year" ->
  one_column filtered "Category" ->
  exists dist,
    cat_counts filtered = Ok dist /\
    list_sum (map Count dist)
    = List.length
        (filter (fun r =>
                   negb (isna (get (columns filtered) r "Academic Year")) &&
                   negb (isna (get (columns filtered) r "Category")))
           (rows filtered)) /\
    ForallOrdPairs
      (fun r1 r2 =>
         cell_eqb (cat_year r1) (cat_year r2) &&
         cell_eqb (cat_category r1) (cat_category r2) = false)
      dist.
Proof.
  intros H1 H2.
  destruct (groupby_spec _ _ filtered H1 H2) as (groups & E & Hsum & Hd & _).
  unfold cat_counts, groupby_size. rewrite E, !bind_ok.
  eexists. split; [reflexivity|]. split.
  - rewrite !map_map. simpl. exact Hsum.
  - apply pairwise_map. apply pairwise_map. simpl. exact Hd.
Qed.

Lemma groupby_rows k1 k2 df groups g :
  groupby k1 k2 df = Ok groups -> In g groups ->
  snd g = filter (fun r => key_eqb (fst g) (key_of (columns df) k1 k2 r))
            (filter (fun r => key_notna (key_of (columns df) k1 k2 r))
               (rows df)).
Proof.
  unfold groupby.
  destruct (getitem k1 df) as [s1|]; [|discriminate]. rewrite bind_ok.
  destruct (getitem k2 df) as [s2|]; [|discriminate]. rewrite bind_ok.
  cbv zeta. intros X. injection X as <-. intros Hg.
  apply in_map_iff in Hg as (k & <- & _). reflexivity.
Qed.

Lemma group_means_spec hdr value groups :
  Forall (fun g => Forall (fun r => is_text (get hdr r value) = false) (snd g))
    groups ->
  group_means hdr value groups
  = Ok (map (fun g => (fst g,
                       average (flat_map (fun r => present (get hdr r value))
                                  (snd g))))
          groups).
Proof.
  induction 1 as [|[k rs] groups Hg _ IH]; [reflexivity|].
  simpl. unfold mean. rewrite numbers_spec.
  - rewrite bind_ok, IH, !bind_ok. now rewrite flat_map_map.
  - simpl in Hg. rewrite Forall_forall in *. intros c Hc.
    apply in_map_iff in Hc as (r & <- & Hr). now apply Hg.
Qed.

(** X13: a table of group means (by subject and year, by state and year)
    is computed whenever the marks are numbers or blank; it lists each pair
    of keys that occurs in a row, once, in ascending order, and no other
    pair; every row with both keys present belongs to a listed pair; and the
    value of a pair is the average of the marks present in its rows, missing
    when none is present. *)
Theorem group_means_listing (k1 k2 : string) (filtered : DataFrame) :
  one_column filtered k1 -> one_column filtered k2 ->
  one_column filtered "Obtained Marks" ->
  numeric_marks filtered ->
  exists means,
    groupby_mean k1 k2 "Obtained Marks" filtered = Ok means /\
    ForallOrdPairs (fun m1 m2 => key_eqb (fst m1) (fst m2) = false) means /\
    Sorted (fun m1 m2 => key_leb (fst m1) (fst m2) = true) means /\
    Forall
      (fun m =>
         (exists r, In r (rows filtered) /\
                    key_of (columns filtered) k1 k2 r = fst m) /\
         snd m
         = average
             (flat_map
                (fun r => present (get (columns filtered) r "Obtained Marks"))
                (filter (fun r => key_eqb (fst m)
                                    (key_of (columns filtered) k1 k2 r))
                   (filter (fun r => key_notna
                                       (key_of (columns filtered) k1 k2 r))
                      (rows filtered)))))
      means /\
    (forall r, In r (rows filtered) ->
               key_notna (key_of (columns filtered) k1 k2 r) = true ->
               exists m, In m means /\
                         key_eqb (fst m) (key_of (columns filtered) k1 k2 r)
                         = true).
Proof.
  intros H1 H2 H3 Hn.
  destruct (groupby_spec _ _ filtered H1 H2)
    as (groups & E & _ & Hd & Hs & Hr).
  pose proof (fun g => groupby_rows k1 k2 filtered groups g E) as Hrows.
  unfold groupby_mean. rewrite E, bind_ok, (getitem_ok _ _ H3), bind_ok.
  rewrite group_means_spec.
  2:{ apply Forall_forall. intros g Hg. rewrite (Hrows g Hg).
      apply Forall_forall. intros r Hin.
      apply filter_In in Hin as [Hin _]. apply filter_In in Hin as [Hin _].
      unfold numeric_marks, series in Hn. rewrite Forall_forall in Hn.
      apply Hn. apply in_map_iff. now exists r. }
  eexists. split; [reflexivity|]. split; [|split; [|split]].
  - apply pairwise_map. simpl. exact Hd.
  - apply sorted_map. simpl. exact Hs.
  - apply Forall_forall. intros m Hm.
    apply in_map_iff in Hm as (g & <- & Hg). simpl.
    rewrite Forall_forall in Hr. destruct (Hr g Hg) as (r & Hin & Ek & _).
    split; [eauto|]. now rewrite <- (Hrows g Hg).
  - intros r Hin Hk.
    destruct (groupby_covers _ _ _ _ r E Hin Hk) as (g & Hg & Ek & _).
    exists (fst g, average (flat_map
                     (fun r => present (get (columns filtered) r "Obtained Marks"))
                     (snd g))).
    split; [|exact Ek].
    apply in_map_iff. now exists g.
Qed.

Lemma groupby_mean_ok k1 k2 df :
  one_column df k1 -> one_column df k2 ->
  one_column df "Obtained Marks" -> numeric_marks df ->
  exists means, groupby_mean k1 k2 "Obtained Marks" df = Ok means.
Proof.
  intros H1 H2 H3 Hn.
  destruct (groupby_spec _ _ df H1 H2) as (groups & E & _).
  unfold groupby_mean. rewrite E, bind_ok, (getitem_ok _ _ H3), bind_ok.
  rewrite group_means_spec; [eauto|].
  apply Forall_forall. intros g Hg.
  rewrite (groupby_rows k1 k2 df groups g E Hg).
  apply Forall_forall. intros r Hin.
  apply filter_In in Hin as [Hin _]. apply filter_In in Hin as [Hin _].
  unfold numeric_marks, series in Hn. rewrite Forall_forall in Hn.
  apply Hn. apply in_map_iff. now exists r.
Qed.

(** ** Rounding to binary64 *)

Section Rounding.

Local Open Scope Z_scope.

Lemma nearest_even_err n d :
  0 < d -> 2 * Z.abs (nearest_even n d * d - n) <= d.
Proof.
  intros Hd. unfold nearest_even.
  pose proof (Z.div_mod n d ltac:(lia)) as E.
  pose proof (Z.mod_pos_bound n d Hd) as B.
  destruct (Z.compare_spec (2 * (n mod d)) d) as [C|C|C].
  - destruct (Z.even (n / d)); nia.
  - nia.
  - nia.
Qed.

Lemma nearest_even_le n d k : 0 < d -> n <= k * d -> nearest_even n d <= k.
Proof.
  intros Hd H. unfold nearest_even.
  pose proof (Z.div_mod n d ltac:(lia)) as E.
  pose proof (Z.mod_pos_bound n d Hd) as B.
  destruct (Z.compare_spec (2 * (n mod d)) d) as [C|C|C];
    [destruct (Z.even (n / d))|..]; nia.
Qed.

Lemma nearest_even_ge n d k : 0 < d -> k * d <= n -> k <= nearest_even n d.
Proof.
  intros Hd H. unfold nearest_even.
  pose proof (Z.div_mod n d ltac:(lia)) as E.
  pose proof (Z.mod_pos_bound n d Hd) as B.
  destruct (Z.compare_spec (2 * (n mod d)) d) as [C|C|C];
    [destruct (Z.even (n / d))|..]; nia.
Qed.

Lemma pow2_pos k : 0 < pow2 k.
Proof. unfold pow2. apply Z.pow_pos_nonneg; lia. Qed.

Lemma pow2_nonneg k : 0 <= k -> pow2 k = 2 ^ k /\ pow2 (- k) = 1.
Proof.
  intros H. unfold pow2. rewrite Z.max_l by lia.
  split; [reflexivity|]. rewrite Z.max_r by lia. reflexivity.
Qed.

Lemma pow2_neg k : k <= 0 -> pow2 k = 1 /\ pow2 (- k) = 2 ^ (- k).
Proof.
  intros H. unfold pow2. rewrite Z.max_r by lia.
  split; [reflexivity|]. rewrite Z.max_l by lia. reflexivity.
Qed.

(** [pow2 (k + 1) / pow2 (- (k + 1))] is twice [pow2 k / pow2 (- k)]. *)
Lemma pow2_succ k :
  pow2 (k + 1) * pow2 (- k) = 2 * (pow2 k * pow2 (- (k + 1))).
Proof.
  destruct (Z_le_gt_dec 0 k) as [H|H].
  - destruct (pow2_nonneg k H) as [-> ->].
    destruct (pow2_nonneg (k + 1) ltac:(lia)) as [-> ->].
    rewrite Z.pow_add_r by lia. lia.
  - destruct (pow2_neg k ltac:(lia)) as [-> ->].
    destruct (pow2_neg (k + 1) ltac:(lia)) as [-> ->].
    replace (- k) with (- (k + 1) + 1) by lia.
    rewrite Z.pow_add_r by lia. lia.
Qed.

(** [pow2 (j + k) / pow2 (- (j + k))] is the product of the two ratios. *)
Lemma pow2_add j k :
  pow2 (j + k) * (pow2 (- j) * pow2 (- k))
  = pow2 (- (j + k)) * (pow2 j * pow2 k).
Proof.
  unfold pow2.
  destruct (Z_le_gt_dec 0 j), (Z_le_gt_dec 0 k), (Z_le_gt_dec 0 (j + k));
    repeat (rewrite Z.max_l by lia || rewrite Z.max_r by lia);
    rewrite ?Z.pow_0_r, ?Z.mul_1_l, ?Z.mul_1_r; try lia.
  all: rewrite <- ?Z.pow_add_r by lia; try (f_equal; lia).
Qed.

(** The scaled fraction of a positive rational lies in [2^52, 2^53). *)
Lemma scale_bounds n d :
  0 < n -> 0 < d ->
  let s0 := 53 + Z.log2 d - Z.log2 n in
  let s := if n * pow2 s0 <? 2 ^ 53 * (d * pow2 (- s0)) then s0 else s0 - 1 in
  2 ^ 52 * (d * pow2 (- s)) <= n * pow2 s < 2 ^ 53 * (d * pow2 (- s)).
Proof.
  intros Hn Hd s0 s.
  destruct (Z.log2_spec n Hn) as [A1 A2].
  destruct (Z.log2_spec d Hd) as [B1 B2].
  pose proof (Z.log2_nonneg n) as An. pose proof (Z.log2_nonneg d) as Bn.
  set (a := Z.log2 n) in *. set (b := Z.log2 d) in *.
  rewrite Z.pow_succ_r in A2, B2 by assumption.
  assert (P : 2 ^ 52 * (d * pow2 (- s0)) < n * pow2 s0
              /\ n * pow2 s0 < 2 ^ 54 * (d * pow2 (- s0))).
  { destruct (Z_le_gt_dec 0 s0) as [H|H].
    - destruct (pow2_nonneg s0 H) as [-> ->]. unfold s0.
      replace (53 + b - a) with (53 + b - a) by lia.
      assert (E : 2 ^ (53 + b - a) * 2 ^ a = 2 ^ 53 * 2 ^ b).
      { rewrite <- !Z.pow_add_r by lia. f_equal. lia. }
      pose proof (Z.pow_pos_nonneg 2 (53 + b - a) ltac:(lia) ltac:(lia)).
      pose proof (Z.pow_pos_nonneg 2 a ltac:(lia) ltac:(lia)).
      pose proof (Z.pow_pos_nonneg 2 b ltac:(lia) ltac:(lia)).
      change (2 ^ 52) with 4503599627370496 in *.
      change (2 ^ 53) with 9007199254740992 in *.
      change (2 ^ 54) with 18014398509481984 in *.
      split; nia.
    - destruct (pow2_neg s0 ltac:(lia)) as [-> ->]. unfold s0.
      assert (E : 2 ^ (- (53 + b - a)) * (2 ^ 53 * 2 ^ b) = 2 ^ a).
      { rewrite <- !Z.pow_add_r by lia. f_equal. lia. }
      pose proof (Z.pow_pos_nonneg 2 (- (53 + b - a)) ltac:(lia) ltac:(lia)).
      pose proof (Z.pow_pos_nonneg 2 a ltac:(lia) ltac:(lia)).
      pose proof (Z.pow_pos_nonneg 2 b ltac:(lia) ltac:(lia)).
      change (2 ^ 52) with 4503599627370496 in *.
      change (2 ^ 53) with 9007199254740992 in *.
      change (2 ^ 54) with 18014398509481984 in *.
      split; nia. }
  unfold s. destruct (Z.ltb_spec (n * pow2 s0) (2 ^ 53 * (d * pow2 (- s0)))) as [L|L].
  - lia.
  - pose proof (pow2_succ (s0 - 1)) as S.
    replace (s0 - 1 + 1) with s0 in S by lia.
    pose proof (pow2_pos s0). pose proof (pow2_pos (- s0)).
    pose proof (pow2_pos (s0 - 1)). pose proof (pow2_pos (- (s0 - 1))).
    change (2 ^ 52) with 4503599627370496 in *.
    change (2 ^ 53) with 9007199254740992 in *.
    change (2 ^ 54) with 18014398509481984 in *.
    destruct P as [P1 P2].
    split.
    + apply Z.mul_le_mono_pos_r with (p := pow2 s0 * pow2 (- s0)); [nia|].
      nia.
    + apply Z.mul_lt_mono_pos_r with (p := pow2 s0 * pow2 (- s0)); [nia|].
      nia.
Qed.

Lemma pow2_one k : pow2 k = 1 \/ pow2 (- k) = 1.
Proof.
  destruct (Z_le_gt_dec 0 k) as [H|H].
  - right. now destruct (pow2_nonneg k H).
  - left. now destruct (pow2_neg k ltac:(lia)).
Qed.


(** What [round64] returns for a positive rational: an integer [m] of 53
    bits, scaled back. *)
Lemma round64_positive x :
  (0 < x)%Q ->
  exists m P M : Z,
    (0 < P /\ 0 < M /\ (P = 1 \/ M = 1) /\
     2 ^ 52 * (Zpos (Qden x) * M) <= Qnum x * P < 2 ^ 53 * (Zpos (Qden x) * M) /\
     m = nearest_even (Qnum x * P) (Zpos (Qden x) * M))%Z /\
    round64 x = ((m * M) # Z.to_pos P)%Q.
Proof.
  intros Hx. destruct x as [n d]. unfold Qlt in Hx. simpl in Hx.
  assert (Hn : (0 < n)%Z) by lia.
  unfold round64. simpl Qnum. destruct n as [|p|p]; try lia.
  unfold round64_pos. cbn [Qnum Qden].
  set (s0 := (53 + Z.log2 (Zpos d) - Z.log2 (Zpos p))%Z).
  set (s := if (Zpos p * pow2 s0 <? 2 ^ 53 * (Zpos d * pow2 (- s0)))%Z
            then s0 else (s0 - 1)%Z).
  pose proof (scale_bounds (Zpos p) (Zpos d) Hn ltac:(lia)) as B.
  cbv zeta in B. fold s0 in B. fold s in B.
  exists (nearest_even (Zpos p * pow2 s) (Zpos d * pow2 (- s))), (pow2 s), (pow2 (- s)).
  split; [|reflexivity].
  repeat split; try apply pow2_pos; try apply B. apply pow2_one.
Qed.

Lemma round64_error x :
  (0 < x -> Qabs (round64 x - x) <= x * (1 # 2 ^ 53))%Q.
Proof.
  intros Hx.
  destruct (round64_positive x Hx) as (m & P & M & (HP & HM & _ & B & Em) & ->).
  pose proof (nearest_even_err (Qnum x * P) (Zpos (Qden x) * M) ltac:(lia)) as E.
  rewrite <- Em in E. clear Em.
  destruct x as [n d]. cbn [Qnum Qden] in *.
  unfold Qle, Qminus, Qplus, Qopp, Qmult, Qabs. cbn [Qnum Qden].
  rewrite !Pos2Z.inj_mul, Z2Pos.id by assumption.
  change (Zpos (2 ^ 53)) with 9007199254740992%Z.
  change (2 ^ 52)%Z with 4503599627370496%Z in *.
  change (2 ^ 53)%Z with 9007199254740992%Z in *.
  unfold Qlt in Hx. simpl in Hx.
  set (D := Zpos d) in *. assert (HD : (0 < D)%Z) by (unfold D; lia).
  clearbody D.
  replace (m * M * D + - n * P)%Z with (m * (D * M) - n * P)%Z by ring.
  assert (Hn : (0 < n)%Z) by lia.
  assert (Z.abs (m * (D * M) - n * P) * 9007199254740992 <= n * P)%Z by lia.
  nia.
Qed.

Lemma round64_gt_0 x : (0 < x -> 0 < round64 x)%Q.
Proof.
  intros Hx.
  destruct (round64_positive x Hx) as (m & P & M & (HP & HM & _ & B & Em) & ->).
  assert (4503599627370496 <= m)%Z.
  { rewrite Em. apply nearest_even_ge; [lia|].
    change (2 ^ 52)%Z with 4503599627370496%Z in B. lia. }
  unfold Qlt. simpl. nia.
Qed.

Lemma round64_le x (b : Z) :
  (0 < x)%Q -> (x <= inject_Z b)%Q -> (b <= 2 ^ 52)%Z ->
  (round64 x <= inject_Z b)%Q.
Proof.
  intros Hx Hb Hs.
  destruct (round64_positive x Hx) as (m & P & M & (HP & HM & H1 & B & Em) & ->).
  destruct x as [n d]. cbn [Qnum Qden] in *.
  unfold Qlt in Hx. unfold Qle in Hb. simpl in Hx, Hb.
  change (2 ^ 52)%Z with 4503599627370496%Z in *.
  change (2 ^ 53)%Z with 9007199254740992%Z in *.
  set (D := Zpos d) in *. assert (HD : (0 < D)%Z) by (unfold D; lia).
  clearbody D.
  assert (HM1 : M = 1%Z).
  { destruct H1 as [->|H1]; [|assumption].
    assert (D * M <= D * 1)%Z by nia. nia. }
  subst M.
  assert (m <= b * P)%Z.
  { rewrite Em. apply nearest_even_le; [lia|]. nia. }
  unfold Qle. simpl. rewrite Z2Pos.id by assumption. lia.
Qed.

End Rounding.

(** The binary64 values of [1/3], [0.1] and [1/7 * 100], an integer that is
    its own float, and two ties, rounded to the even neighbour. *)
Example round64_ex :
  (round64 (1 # 3) == 6004799503160661 # 18014398509481984)%Q /\
  (round64 (1 # 10) == 3602879701896397 # 36028797018963968)%Q /\
  (round64 (round64 (1 # 7) * 100) == 2010535547933257 # 140737488355328)%Q /\
  (round64 100 == 100)%Q /\
  (round64 (inject_Z (2 ^ 53 + 1)) == inject_Z (2 ^ 53))%Q /\
  (round64 (inject_Z (2 ^ 53 + 3)) == inject_Z (2 ^ 53 + 4))%Q.
Proof. vm_compute. repeat split. Qed.

(** ** Category percentages *)

Lemma cell_eqb_notna a b :
  cell_eqb a b = true -> isna a = false /\ isna b = false.
Proof. destruct a, b; simpl; try discriminate; auto. Qed.

Lemma cell_eqb_left a b c :
  cell_eqb a b = true -> cell_eqb a c = cell_eqb b c.
Proof.
  intros H. apply eq_true_iff_eq. split; intros E.
  - apply cell_eqb_trans with a; [now apply cell_eqb_sym | assumption].
  - now apply cell_eqb_trans with b.
Qed.

Lemma filter_imp {A : Type} (p q : A -> bool) l :
  (forall x, In x l -> p x = true -> q x = true) ->
  filter p (filter q l) = filter p l.
Proof.
  intros H. rewrite filter_filter. apply filter_ext_in. intros x Hx.
  destruct (p x) eqn:P; [|now rewrite andb_false_r].
  now rewrite (H x Hx P).
Qed.

Lemma list_sum_filter {A : Type} (f : A -> nat) (p : A -> bool) l :
  list_sum (map f (filter p l))
  = list_sum (map (fun x => if p x then f x else 0) l).
Proof.
  induction l as [|x l IH]; simpl; [reflexivity|].
  destruct (p x); simpl; now rewrite IH.
Qed.

(** Keeping the elements with a property that equal elements share, and
    taking first occurrences, in either order. *)
Lemma filter_unique_by {A : Type} (e : A -> A -> bool) (p : A -> bool) l :
  (forall x y, e x y = true -> p x = p y) ->
  filter p (unique_by e l) = unique_by e (filter p l).
Proof.
  intros Hp. induction l as [|x l IH]; simpl; [reflexivity|].
  destruct (p x) eqn:P; simpl.
  - f_equal. rewrite <- IH. rewrite !filter_filter.
    apply filter_ext. intros y. apply andb_comm.
  - rewrite <- IH. apply filter_imp. intros y _ Py.
    destruct (e x y) eqn:E; [|reflexivity].
    apply Hp in E. congruence.
Qed.

(** The counts of a year add up to the rows of that year that have a
    Category, and each count is the number of rows of its year and
    category. *)
Lemma groupby_size_year df :
  one_column df "Academic Year" -> one_column df "Category" ->
  exists counts,
    groupby_size "Academic Year" "Category" df = Ok counts /\
    (forall y, year_total y counts = List.length (categorised df y)) /\
    Forall (fun kc =>
              snd kc
              = List.length (in_category df (fst (fst kc)) (snd (fst kc))))
      counts.
Proof.
  intros H1 H2. unfold groupby_size, groupby.
  rewrite (getitem_ok _ _ H1), (getitem_ok _ _ H2), !bind_ok. cbv zeta.
  set (hdr := columns df).
  set (kof := key_of hdr "Academic Year" "Category").
  set (keyed := filter (fun r => key_notna (kof r)) (rows df)).
  set (ks := map kof keyed).
  eexists. split; [reflexivity|]. rewrite map_map. cbn [fst snd]. split.
  - intros y. unfold year_total.
    rewrite filter_map_comm, map_map. cbn [fst snd].
    set (py := fun k : key => cell_eqb (fst k) y).
    set (n := fun k : key =>
                List.length (filter (fun r => key_eqb k (kof r)) keyed)).
    assert (Hinv : forall a b : key, key_eqb a b = true -> py a = py b).
    { intros a b E. unfold key_eqb in E. apply andb_true_iff in E as [E _].
      unfold py. now apply cell_eqb_left. }
    change (list_sum (map n (filter py (sorted_by key_leb (unique_by key_eqb ks))))
            = List.length (categorised df y)).
    rewrite list_sum_filter.
    rewrite (list_sum_perm _ _
               (Permutation_map _ (sorted_by_perm key_leb (unique_by key_eqb ks)))).
    rewrite <- list_sum_filter.
    rewrite (filter_unique_by key_eqb py ks Hinv).
    assert (Hn : forall k, In k (unique_by key_eqb (filter py ks)) ->
                   n k = List.length (filter (key_eqb k) (filter py ks))).
    { intros k Hk. apply unique_by_incl, filter_In in Hk as [_ Pk].
      unfold n, ks. rewrite <- (length_map kof), <- filter_map_comm.
      fold ks. f_equal. symmetry. apply filter_imp.
      intros k' _ E. now rewrite <- (Hinv k k' E). }
    rewrite (map_ext_in _ _ _ Hn).
    rewrite (unique_by_partition key key_eqb key_eqb_sym key_eqb_trans).
    + unfold ks. rewrite filter_map_comm, length_map.
      unfold keyed, categorised. rewrite filter_filter. f_equal.
      apply filter_ext. intros r. unfold py, kof, key_of, key_notna.
      cbn [fst snd]. fold hdr.
      destruct (cell_eqb (get hdr r "Academic Year") y) eqn:E;
        [|now rewrite !andb_false_r].
      apply cell_eqb_notna in E as [E _]. rewrite E. simpl.
      now rewrite andb_true_r.
    + intros k Hk. apply filter_In in Hk as [Hk _].
      apply key_eqb_refl. apply in_map_iff in Hk as (r & <- & Hr).
      now apply filter_In in Hr.
  - apply Forall_forall. intros kc Hkc.
    apply in_map_iff in Hkc as (k & <- & Hk). cbn [fst snd].
    apply sorted_by_In, unique_by_incl in Hk.
    unfold keyed, in_category. rewrite filter_filter. f_equal.
    apply filter_ext. intros r. unfold kof, key_of, key_eqb, key_notna.
    cbn [fst snd]. fold hdr.
    rewrite (eq_true_iff_eq _ _
               (conj (cell_eqb_sym (fst k) (get hdr r "Academic Year"))
                     (cell_eqb_sym (get hdr r "Academic Year") (fst k)))).
    rewrite (eq_true_iff_eq _ _
               (conj (cell_eqb_sym (snd k) (get hdr r "Category"))
                     (cell_eqb_sym (get hdr r "Category") (snd k)))).
    destruct (cell_eqb (get hdr r "Academic Year") (fst k)) eqn:E1;
      [|now rewrite andb_false_r].
    destruct (cell_eqb (get hdr r "Category") (snd k)) eqn:E2;
      [|now rewrite andb_false_r].
    apply cell_eqb_notna in E1 as [E1 _]. apply cell_eqb_notna in E2 as [E2 _].
    now rewrite E1, E2.
Qed.

Lemma list_sum_ge (l : list (key * nat)) kc :
  In kc l -> snd kc <= list_sum (map snd l).
Proof.
  induction l as [|x l IH]; [intros []|].
  change (list_sum (map snd (x :: l))) with (snd x + list_sum (map snd l)).
  unfold key in *. intros [->|H]; [lia|]. specialize (IH H). lia.
Qed.

Lemma Qnat_pos n : 0 < n -> (0 < Qnat n)%Q.
Proof. intros H. unfold Qnat, Qlt. simpl. lia. Qed.

Lemma share_pos c t : 0 < c -> 0 < t -> (0 < Qnat c / Qnat t)%Q.
Proof.
  intros Hc Ht. apply Qlt_shift_div_l; [now apply Qnat_pos|].
  rewrite Qmult_0_l. now apply Qnat_pos.
Qed.

Lemma percentage_error (x : Q) :
  (0 < x ->
   Qabs (round64 (round64 x * 100) - x * 100) <= x * share_error)%Q.
Proof.
  intros Hx. unfold share_error.
  pose proof (round64_error x Hx) as E1.
  pose proof (round64_gt_0 x Hx) as P1.
  assert (P2 : (0 < round64 x * 100)%Q) by lra.
  pose proof (round64_error _ P2) as E2.
  apply Qabs_Qle_condition in E1, E2. apply Qabs_Qle_condition.
  set (u := (1 # 2 ^ 53)%Q) in *.
  assert (U : (u == 1 # 9007199254740992)%Q) by reflexivity.
  set (q := round64 x) in *. set (p := round64 (q * 100)) in *.
  clearbody q p u. destruct E1 as [A1 A2], E2 as [B1 B2].
  assert (Hu : (0 < u)%Q) by (rewrite U; reflexivity).
  assert (X : (0 <= x * u)%Q) by (apply Qmult_le_0_compat; lra).
  assert (Y : (0 <= x * u * u)%Q) by (apply Qmult_le_0_compat; lra).
  assert (Q1 : (q * 100 * u <= (x + x * u) * 100 * u)%Q).
  { apply Qmult_le_compat_r; lra. }
  assert (R : ((x + x * u) * 100 * u == 100 * (x * u) + 100 * (x * u * u))%Q)
    by ring.
  assert (S : (x * (100 * (2 * u + u * u))
               == 200 * (x * u) + 100 * (x * u * u))%Q) by ring.
  rewrite S. rewrite R in Q1.
  set (xu := (x * u)%Q) in *. set (xuu := (xu * u)%Q) in *.
  set (qu := (q * 100 * u)%Q) in *. clearbody xu xuu qu.
  split; lra.
Qed.

Lemma Qsum_shares (t : Q) l :
  (Qsum (map (fun n => Qnat n / t) l) == Qnat (list_sum l) / t)%Q.
Proof.
  induction l as [|n l IH]; simpl.
  - unfold Qdiv. now rewrite Qmult_0_l.
  - rewrite IH. unfold Qnat. rewrite Nat2Z.inj_add, inject_Z_plus.
    unfold Qdiv. ring.
Qed.

(** Percentages of counts that add up to their total add up to 100, up to
    the two roundings of each. *)
Lemma percentages_error (t : nat) l :
  Forall (fun c => 0 < c) l -> 0 < t ->
  (Qabs (Qsum (map (fun c => round64 (round64 (Qnat c / Qnat t) * 100)) l)
         - Qsum (map (fun c => Qnat c / Qnat t) l) * 100)
   <= Qsum (map (fun c => Qnat c / Qnat t) l) * share_error)%Q.
Proof.
  intros Hl Ht. induction Hl as [|c l Hc _ IH].
  - simpl. rewrite !Qmult_0_l. discriminate.
  - unfold Qsum in *. cbn [map fold_right].
    pose proof (percentage_error _ (share_pos c t Hc Ht)) as E.
    apply Qabs_Qle_condition in E, IH. apply Qabs_Qle_condition.
    set (x := (Qnat c / Qnat t)%Q) in *.
    set (p := round64 (round64 x * 100)) in *.
    set (P := fold_right Qplus 0%Q
                (map (fun c => round64 (round64 (Qnat c / Qnat t) * 100))%Q l))
      in *.
    set (X := fold_right Qplus 0%Q (map (fun c => Qnat c / Qnat t)%Q l)) in *.
    assert (R : ((x + X) * share_error == x * share_error + X * share_error)%Q)
      by ring.
    rewrite R.
    set (xe := (x * share_error)%Q) in *. set (Xe := (X * share_error)%Q) in *.
    clearbody x p P X xe Xe. destruct E, IH. split; lra.
Qed.

Lemma share_error_small : (share_error <= percent_tolerance)%Q.
Proof. unfold share_error, percent_tolerance, Qle. simpl. lia. Qed.

(** C5 as stated fails: in [blank_category_df], which is not empty, the
    only AY 25-26 row has a blank Category, so the distribution has no row
    and no percentage for that year; and the one AY 24-25 row with a
    Category gets 100 although the year has two rows. *)
Lemma category_percentages_blank_year :
  len blank_category_df = 3 /\
  len (year_rows "AY 24-25" blank_category_df) = 2 /\
  len (year_rows "AY 25-26" blank_category_df) = 1 /\
  exists p dist,
    cat_counts blank_category_df = Ok dist /\
    dist = [mkCat (CStr "AY 24-25") (CStr "Beginner") 1 p] /\
    (p == 100)%Q /\
    of_year (CStr "AY 25-26") dist = [] /\
    ~ (Qsum (map Percentage (of_year (CStr "AY 25-26") dist)) == 100)%Q.
Proof.
  repeat (split; [reflexivity|]).
  eexists. eexists. split; [vm_compute; reflexivity|].
  split; [reflexivity|]. split; [reflexivity|]. split; [reflexivity|].
  discriminate.
Qed.

(** C5, amended: for a table with one Academic Year and one Category column
    the category distribution is computed from the rows that have a
    Category.  Each of its rows counts the table's rows of its year and
    category, and its percentage is that count over the number of the
    year's rows that have a Category, times 100, as float64 computes the
    quotient and the product.  For each year with at least one row that has
    a Category the year's counts add up to the number of these rows and the
    year's percentages add up to 100 within [percent_tolerance]; a year
    whose rows all have a blank Category has no percentage at all. *)
Theorem category_percentages_sum_to_100 (filtered : DataFrame) :
  one_column filtered "Academic Year" ->
  one_column filtered "Category" ->
  exists dist,
    cat_counts filtered = Ok dist /\
    (forall r, In r dist ->
       Count r
       = List.length (in_category filtered (cat_year r) (cat_category r)) /\
       0 < Count r <= List.length (categorised filtered (cat_year r)) /\
       Percentage r
       = round64
           (round64
              (Qnat (Count r)
               / Qnat (List.length (categorised filtered (cat_year r))))
            * 100)%Q) /\
    (forall y, categorised filtered y <> [] ->
       of_year y dist <> [] /\
       list_sum (map Count (of_year y dist))
       = List.length (categorised filtered y) /\
       (Qabs (Qsum (map Percentage (of_year y dist)) - 100)
        <= percent_tolerance)%Q) /\
    (forall y, categorised filtered y = [] -> of_year y dist = []).
Proof.
  intros H1 H2.
  destruct (groupby_size_year filtered H1 H2) as (counts & E & Hy & Hc).
  destruct (groupby_size_ok _ _ filtered H1 H2) as (counts' & E' & Hpos).
  rewrite E in E'. injection E' as <-.
  rewrite Forall_forall in Hc, Hpos.
  unfold cat_counts. rewrite E, bind_ok.
  eexists. split; [reflexivity|].
  assert (Hof : forall y,
             of_year y (map (with_percentage counts) counts)
             = map (with_percentage counts)
                 (filter (fun kc => cell_eqb (fst (fst kc)) y) counts)).
  { intros y. unfold of_year. now rewrite filter_map_comm. }
  assert (Hsum : forall y,
             list_sum (map Count (of_year y (map (with_percentage counts) counts)))
             = List.length (categorised filtered y)).
  { intros y. rewrite Hof, map_map. cbn [Count with_percentage].
    rewrite <- Hy. reflexivity. }
  split; [|split].
  - intros r Hr. apply in_map_iff in Hr as (kc & <- & Hkc).
    cbn [Count cat_year cat_category Percentage with_percentage].
    pose proof (Hc kc Hkc) as Ec. pose proof (Hpos kc Hkc) as Pc.
    unfold key in *. rewrite <- Hy. split; [exact Ec|]. split; [|reflexivity].
    split; [exact Pc|]. unfold year_total. apply list_sum_ge.
    apply filter_In. split; [exact Hkc|].
    rewrite Ec in Pc. unfold in_category in Pc.
    destruct (filter _ (rows filtered)) as [|r0 rs] eqn:F; [simpl in Pc; lia|].
    assert (Hin : In r0 (r0 :: rs)) by now left.
    rewrite <- F in Hin. apply filter_In in Hin as [_ Hin].
    apply andb_true_iff in Hin as [Hin _].
    apply cell_eqb_notna in Hin as [_ Hin]. now apply cell_eqb_refl.
  - intros y Hne.
    assert (Ht : 0 < List.length (categorised filtered y)).
    { destruct (categorised filtered y); [contradiction | simpl; lia]. }
    split; [|split; [apply Hsum|]].
    + intros X. specialize (Hsum y). rewrite X in Hsum. simpl in Hsum. lia.
    + pose proof (Hsum y) as S. rewrite Hof in *. rewrite map_map in *.
      cbn [Count with_percentage] in S.
      set (L := filter (fun kc => cell_eqb (fst (fst kc)) y) counts) in *.
      set (t := List.length (categorised filtered y)) in *.
      assert (EP : map (fun kc => Percentage (with_percentage counts kc)) L
                   = map (fun c => round64 (round64 (Qnat c / Qnat t) * 100))%Q
                       (map snd L)).
      { rewrite map_map. apply map_ext_in. intros kc Hk.
        apply filter_In in Hk as [_ Hk].
        cbn [Percentage with_percentage].
        match goal with
        | |- context [year_total ?k counts] =>
            replace (year_total k counts) with t; [reflexivity|]
        end.
        unfold t. rewrite <- (Hy y). symmetry. now apply year_total_eq. }
      rewrite EP.
      assert (Hl : Forall (fun c => 0 < c) (map snd L)).
      { apply Forall_forall. intros c Hin.
        apply in_map_iff in Hin as (kc & <- & Hk).
        apply filter_In in Hk as [Hk _]. now apply Hpos. }
      pose proof (percentages_error t (map snd L) Hl Ht) as B.
      assert (One : (Qsum (map (fun c => Qnat c / Qnat t) (map snd L)) == 1)%Q).
      { assert (S' : list_sum (map snd L) = t) by exact S.
        rewrite Qsum_shares, S'. unfold Qdiv. apply Qmult_inv_r.
        pose proof (Qnat_pos t Ht). lra. }
      rewrite One in B. rewrite !Qmult_1_l in B.
      eapply Qle_trans; [exact B | exact share_error_small].
  - intros y Hn. specialize (Hsum y). rewrite Hn in Hsum. simpl in Hsum.
    rewrite Hof in *. rewrite map_map in Hsum. cbn [Count with_percentage] in Hsum.
    unfold key in *.
    destruct (filter (fun kc : cell * cell * nat => cell_eqb (fst (fst kc)) y)
                counts) as [|kc L] eqn:F; [reflexivity|].
    assert (Hin : In kc (kc :: L)) by now left.
    rewrite <- F in Hin. apply filter_In in Hin as [Hin _].
    specialize (Hpos kc Hin). simpl in Hsum. lia.
Qed.

(** ** The page *)

Ltac all_elements :=
  repeat (apply Forall_cons; [reflexivity|]); try apply Forall_nil.

(** The dashboard branch shows no warning and reports no error itself. *)
Lemma show_dashboard_calm f :
  Forall (fun e => calm e = true) (fst (show_dashboard f)).
Proof.
  unfold show_dashboard, ui_bind, eval, emit.
  destruct (avg_marks "AY 24-25" f); [|all_elements].
  destruct (avg_marks "AY 25-26" f); [|all_elements].
  destruct (negb (empty f)); [|all_elements].
  destruct (groupby_mean "Subject" _ _ f); [|all_elements].
  destruct (cat_counts f); [|all_elements].
  destruct (groupby_mean "State" _ _ f); all_elements.
Qed.

Lemma ui_bind_ok {A B : Type} (a : A) (k : A -> ui B) :
  ui_bind (eval (Ok a)) k = k a.
Proof. unfold ui_bind, eval. now destruct (k a). Qed.

Lemma ui_bind_raise {A B : Type} (e : exn) (k : A -> ui B) :
  ui_bind (eval (Raise e)) k = ([], Raise e).
Proof. reflexivity. Qed.

Lemma ui_bind_emit {B : Type} (x : element) (k : unit -> ui B) :
  ui_bind (emit x) k = (x :: fst (k tt), snd (k tt)).
Proof. unfold ui_bind, emit. now destruct (k tt). Qed.

Ltac run_page :=
  repeat (rewrite ?ui_bind_ok, ?ui_bind_raise, ?ui_bind_emit; cbn [fst snd]).

Section Page.

Variable na : astype_na.
Variable repr_float : Q -> string.

(** The three ways the [try] block can go. *)
Lemma process_cases file1 file2 sel :
  let run := process na repr_float file1 file2 sel in
  (exists e, snd run = Raise e /\
             Forall (fun x => quiet x = true) (fst run)) \/
  (exists pre, Forall (fun x => quiet x = true) pre /\
               fst run = pre ++ [no_data_warning] /\ snd run = Ok tt) \/
  (exists pre df f,
      Forall (fun x => quiet x = true) pre /\
      load_and_prep_data na repr_float file1 file2 = Ok df /\
      filtered_df df sel = Ok f /\ empty f = false /\
      fst run = pre ++ fst (show_dashboard f) /\
      snd run = snd (show_dashboard f)).
Proof.
  cbv zeta. unfold process.
  destruct (load_and_prep_data na repr_float file1 file2) as [df|e] eqn:L;
    run_page; [|left; exists e; split; [reflexivity | all_elements]].
  destruct (options df "State") as [o1|e]; run_page;
    [|left; exists e; split; [reflexivity | all_elements]].
  destruct (options df "Centre Name") as [o2|e]; run_page;
    [|left; exists e; split; [reflexivity | all_elements]].
  destruct (options df "Donor") as [o3|e]; run_page;
    [|left; exists e; split; [reflexivity | all_elements]].
  destruct (options df "Subject") as [o4|e]; run_page;
    [|left; exists e; split; [reflexivity | all_elements]].
  destruct (options df "Grade") as [o5|e]; run_page;
    [|left; exists e; split; [reflexivity | all_elements]].
  destruct (filtered_df df sel) as [f|e] eqn:F; run_page;
    [|left; exists e; split; [reflexivity | all_elements]].
  destruct (empty f) eqn:Em.
  - right; left.
    exists [ SidebarSuccess "Baseline Data Merged Successfully!";
             SidebarMarkdown "---"; SidebarHeader "2. Filter Data";
             Multiselect "Select State(s)" o1 ["All"];
             Multiselect "Select Centre Name(s)" o2 ["All"];
             Multiselect "Select Donor(s)" o3 ["All"];
             Multiselect "Select Subject(s)" o4 ["All"];
             Multiselect "Select Class/Grade(s)" o5 ["All"] ].
    split; [all_elements|]. split; reflexivity.
  - right; right.
    exists [ SidebarSuccess "Baseline Data Merged Successfully!";
             SidebarMarkdown "---"; SidebarHeader "2. Filter Data";
             Multiselect "Select State(s)" o1 ["All"];
             Multiselect "Select Centre Name(s)" o2 ["All"];
             Multiselect "Select Donor(s)" o3 ["All"];
             Multiselect "Select Subject(s)" o4 ["All"];
             Multiselect "Select Class/Grade(s)" o5 ["All"] ], df, f.
    split; [all_elements|]. repeat (split; [reflexivity || assumption|]).
    reflexivity.
Qed.

Lemma quiet_parts x :
  quiet x = true ->
  is_aggregate x = false /\ is_warning x = false /\ is_error x = false.
Proof. unfold quiet. destruct x; simpl; intros H; try discriminate; auto. Qed.

Lemma calm_parts x :
  calm x = true -> is_warning x = false /\ is_error x = false.
Proof. unfold calm. destruct x; simpl; intros H; try discriminate; auto. Qed.

Lemma page_head_quiet : Forall (fun x => quiet x = true) page_head.
Proof. all_elements. Qed.

(** X14: whatever is uploaded and selected, the page starts with the same
    head, and it reports at most one error, as its last element: everything
    shown before a failure stays, and nothing is shown after it. *)
Theorem script_error_is_last
  (file1 file2 : option workbook) (sel : Selections) :
  exists out,
    script na repr_float file1 file2 sel = page_head ++ out /\
    (Forall (fun x => is_error x = false) out \/
     exists out' e,
       out = out' ++ [Error e] /\
       Forall (fun x => is_error x = false) out').
Proof.
  unfold script. eexists. split; [reflexivity|].
  destruct file1 as [f1|]; [destruct file2 as [f2|]|];
    try solve [left; repeat constructor].
  unfold try_except.
  assert (NE : forall l, Forall (fun x => quiet x = true) l ->
                        Forall (fun x => is_error x = false) l).
  { intros l. apply Forall_impl. intros x Hx. now apply quiet_parts. }
  destruct (process_cases f1 f2 sel)
    as [(e & Hs & Hq) | [(pre & Hq & Hf & Hs) | (pre & df & f & Hq & _ & _ & _ & Hf & Hs)]];
    cbv zeta in *;
    destruct (process na repr_float f1 f2 sel) as [out r]; cbn [fst snd] in *;
    subst; cbv beta iota.
  - right. exists out, e. split; [reflexivity | now apply NE].
  - left. apply Forall_app. split; [now apply NE | repeat constructor].
  - assert (C : Forall (fun x => is_error x = false)
                  (pre ++ fst (show_dashboard f))).
    { apply Forall_app. split; [now apply NE|].
      eapply Forall_impl; [|apply show_dashboard_calm].
      intros x Hx. now apply calm_parts. }
    destruct (snd (show_dashboard f)) as [u|e].
    + now left.
    + right. eauto.
Qed.

(** X15: metrics, charts and the raw table are shown only for a merged
    table whose filtered rows are not empty, and never together with the
    no-data warning. *)
Theorem dashboard_only_with_rows
  (file1 file2 : option workbook) (sel : Selections) :
  (Forall (fun x => is_aggregate x = false)
     (script na repr_float file1 file2 sel) \/
   Forall (fun x => is_warning x = false)
     (script na repr_float file1 file2 sel)) /\
  (forall x, In x (script na repr_float file1 file2 sel) ->
     is_aggregate x = true ->
     exists f1 f2 df f,
       file1 = Some f1 /\ file2 = Some f2 /\
       load_and_prep_data na repr_float f1 f2 = Ok df /\
       filtered_df df sel = Ok f /\ 0 < len f).
Proof.
  cbv zeta. unfold script.
  assert (QA : forall l, Forall (fun x => quiet x = true) l ->
                         Forall (fun x => is_aggregate x = false) l).
  { intros l. apply Forall_impl. intros x Hx. now apply quiet_parts. }
  assert (QW : forall l, Forall (fun x => quiet x = true) l ->
                         Forall (fun x => is_warning x = false) l).
  { intros l. apply Forall_impl. intros x Hx. now apply quiet_parts. }
  assert (NoAgg : forall l, Forall (fun x => is_aggregate x = false) l ->
                    forall x, In x l -> is_aggregate x = true -> False).
  { intros l Hl x Hx Ha. rewrite Forall_forall in Hl.
    rewrite (Hl x Hx) in Ha. discriminate. }
  pose proof page_head_quiet as HQ.
  destruct file1 as [f1|]; [destruct file2 as [f2|]|];
    try solve [split; [left; apply Forall_app; split;
                               [now apply QA | repeat constructor]
                      | intros x Hx Ha; exfalso;
                        eapply (NoAgg (page_head ++ _)); [|exact Hx|exact Ha];
                        apply Forall_app; split;
                        [now apply QA | repeat constructor]]].
  unfold try_except.
  destruct (process_cases f1 f2 sel)
    as [(e & Hs & Hq) | [(pre & Hq & Hf & Hs) | (pre & df & f & Hq & L & F & Em & Hf & Hs)]];
    cbv zeta in *;
    destruct (process na repr_float f1 f2 sel) as [out r]; cbn [fst snd] in *;
    subst; cbv beta iota.
  - assert (A : Forall (fun x => is_aggregate x = false)
                  (page_head ++ out ++ [Error e])).
    { apply Forall_app. split; [now apply QA|]. apply Forall_app.
      split; [now apply QA | repeat constructor]. }
    split; [now left|]. intros x Hx Ha. exfalso.
    eapply NoAgg; [exact A | exact Hx | exact Ha].
  - assert (A : Forall (fun x => is_aggregate x = false)
                  (page_head ++ pre ++ [no_data_warning])).
    { apply Forall_app. split; [now apply QA|]. apply Forall_app.
      split; [now apply QA | repeat constructor]. }
    split; [now left|]. intros x Hx Ha. exfalso.
    eapply NoAgg; [exact A | exact Hx | exact Ha].
  - assert (Hlen : 0 < len f).
    { unfold empty, len in *. destruct (rows f); [discriminate | simpl; lia]. }
    assert (W : Forall (fun x => is_warning x = false)
                  (pre ++ fst (show_dashboard f))).
    { apply Forall_app. split; [now apply QW|].
      eapply Forall_impl; [|apply show_dashboard_calm].
      intros x Hx. now apply calm_parts. }
    split.
    + right. apply Forall_app. split; [now apply QW|].
      destruct (snd (show_dashboard f)); [assumption|].
      apply Forall_app. split; [assumption | repeat constructor].
    + intros x _ _. exists f1, f2, df, f. auto.
Qed.

(** X16: for two valid sheets whose Obtained Marks are numbers or blank and
    a selection that keeps at least one row, the run goes through: after the
    head and the sidebar the page shows the three metrics (the row count and
    the two year means, with their delta), the three charts and, last, the
    filtered table itself; no warning and no error. *)
Theorem full_dashboard
  (file1 file2 : workbook) (a b : DataFrame) (sel : Selections) :
  read_excel file1 "BaseLine-AY2425" = Ok a ->
  read_excel file2 "BL-Data" = Ok b ->
  valid_source a -> valid_source b ->
  numeric_marks a -> numeric_marks b ->
  exists df f o1 o2 o3 o4 o5 avg_subj dist avg_state,
    load_and_prep_data na repr_float file1 file2 = Ok df /\
    filtered_df df sel = Ok f /\
    groupby_mean "Subject" "Academic Year" "Obtained Marks" f = Ok avg_subj /\
    cat_counts f = Ok dist /\
    groupby_mean "State" "Academic Year" "Obtained Marks" f = Ok avg_state /\
    (0 < len f ->
     script na repr_float (Some file1) (Some file2) sel
     = page_head ++
       [ SidebarSuccess "Baseline Data Merged Successfully!";
         SidebarMarkdown "---";
         SidebarHeader "2. Filter Data";
         Multiselect "Select State(s)" o1 ["All"];
         Multiselect "Select Centre Name(s)" o2 ["All"];
         Multiselect "Select Donor(s)" o3 ["All"];
         Multiselect "Select Subject(s)" o4 ["All"];
         Multiselect "Select Class/Grade(s)" o5 ["All"];
         Markdown "### Quick Metrics";
         Metric "Total Assessments (Filtered)" (Grouped (len f)) None;
         Metric "Avg Baseline Score (AY 24-25)"
           (fixed2_or_na (average (marks_present "AY 24-25" f))) None;
         Metric "Avg Baseline Score (AY 25-26)"
           (fixed2_or_na (average (marks_present "AY 25-26" f)))
           (delta (average (marks_present "AY 24-25" f))
              (average (marks_present "AY 25-26" f)));
         Markdown "---";
         Markdown "#### Average Marks by Subject";
         PlotlyChart
           (BarMeans "Subject" "Obtained Marks" "Academic Year" avg_subj);
         Markdown "#### Performance Category Distribution";
         PlotlyChart
           (BarShares "Academic Year" "Percentage" "Category" dist
              (map (fun r => Percent1 (Percentage r)) dist));
         Markdown "#### Average Marks by State";
         PlotlyChart
           (BarMeans "State" "Obtained Marks" "Academic Year" avg_state);
         Dataframe "View Filtered Raw Data" f ]).
Proof.
  intros Ea Eb Ha Hb Na Nb.
  pose proof (load_and_prep_data_spec na repr_float file1 file2 a b Ea Eb Ha Hb)
    as L.
  assert (Hm : numeric_marks (unified na repr_float a b)).
  { unfold numeric_marks in *.
    rewrite unified_value_column by (simpl; tauto).
    rewrite stacked_marks by discriminate.
    apply Forall_forall. intros c Hc. unfold upcast_column in Hc.
    apply in_map_iff in Hc as (x & <- & Hx). rewrite to_dtype_is_text.
    apply in_app_or in Hx as [Hx|Hx];
      [rewrite Forall_forall in Na; now apply Na
      |rewrite Forall_forall in Nb; now apply Nb]. }
  set (df := unified na repr_float a b) in *.
  assert (Hone : forall label, In label common_cols -> one_column df label)
    by (intros label Hl; now apply unified_one_column).
  assert (C1 : one_column df "State") by (apply Hone; simpl; tauto).
  assert (C4 : one_column df "Subject") by (apply Hone; simpl; tauto).
  destruct (unified_options na repr_float a b "State") as [o1 O1]; [simpl; tauto|].
  destruct (unified_options na repr_float a b "Centre Name") as [o2 O2];
    [simpl; tauto|].
  destruct (unified_options na repr_float a b "Donor") as [o3 O3]; [simpl; tauto|].
  destruct (unified_options na repr_float a b "Subject") as [o4 O4]; [simpl; tauto|].
  destruct (unified_options na repr_float a b "Grade") as [o5 O5]; [simpl; tauto|].
  fold df in O1, O2, O3, O4, O5.
  assert (Hfc : Forall (one_column df) filter_cols).
  { apply Forall_forall. intros label Hl. apply Hone.
    now apply filter_col_common. }
  pose proof (filtered_df_passes df sel Hfc) as F.
  set (f := select_rows (passes (columns df) sel) df) in *.
  assert (Ay : one_column f "Academic Year") by reflexivity.
  assert (Om : one_column f "Obtained Marks") by reflexivity.
  assert (Ca : one_column f "Category") by reflexivity.
  assert (Nf : numeric_marks f).
  { unfold numeric_marks, series in *. rewrite Forall_forall in *.
    intros c Hc. apply in_map_iff in Hc as (r & <- & Hr).
    apply filter_In in Hr as [Hr _]. apply Hm. apply in_map_iff. now exists r. }
  destruct (groupby_mean_ok "Subject" "Academic Year" f C4 Ay Om Nf)
    as [avg_subj Gs].
  destruct (groupby_mean_ok "State" "Academic Year" f C1 Ay Om Nf)
    as [avg_state Gt].
  destruct (groupby_size_ok "Academic Year" "Category" f Ay Ca)
    as (counts & Gc & _).
  assert (Cc : cat_counts f = Ok (map (with_percentage counts) counts))
    by (unfold cat_counts; now rewrite Gc).
  exists df, f, o1, o2, o3, o4, o5, avg_subj,
    (map (with_percentage counts) counts), avg_state.
  repeat (split; [assumption|]).
  intros Hlen.
  assert (Em : empty f = false).
  { unfold empty, len in *. simpl columns.
    destruct (rows f); [simpl in Hlen; lia | reflexivity]. }
  pose proof (avg_marks_spec "AY 24-25" f Ay Om Nf) as A24.
  pose proof (avg_marks_spec "AY 25-26" f Ay Om Nf) as A25.
  unfold script, process. rewrite L. clearbody f df.
  unfold eval, emit, ui_bind, try_except.
  rewrite O1, O2, O3, O4, O5, F, Em.
  unfold show_dashboard, eval, emit, ui_bind.
  rewrite A24, A25, Em, Gs, Gt, Cc. reflexivity.
Qed.

End Page.

(** ** Ranges *)

(** X18: every percentage of the category distribution is above 0 and at
    most 100. *)
Theorem category_percentage_range (filtered : DataFrame) :
  one_column filtered "Academic Year" ->
  one_column filtered "Category" ->
  exists dist,
    cat_counts filtered = Ok dist /\
    Forall (fun r => (0 < Percentage r <= 100)%Q) dist.
Proof.
  intros H1 H2.
  destruct (groupby_spec _ _ filtered H1 H2)
    as (groups & E & _ & _ & _ & Hr).
  unfold cat_counts, groupby_size. rewrite E, !bind_ok.
  eexists. split; [reflexivity|].
  set (counts := map (fun g => (fst g, List.length (snd g))) groups).
  apply Forall_forall. intros row Hrow.
  apply in_map_iff in Hrow as (kc & <- & Hkc).
  assert (Hg := Hkc). unfold counts in Hg.
  apply in_map_iff in Hg as (g & <- & Hg).
  rewrite Forall_forall in Hr. destruct (Hr g Hg) as (r & Hin & Ek & Hrg).
  assert (Hn : key_notna (fst g) = true).
  { rewrite (groupby_rows _ _ _ _ g E Hg) in Hrg.
    apply filter_In in Hrg as [Hrg _]. apply filter_In in Hrg as [_ Hrg].
    now rewrite <- Ek. }
  assert (Hpos : 0 < List.length (snd g))
    by (destruct (snd g); [destruct Hrg | simpl; lia]).
  assert (Hle : List.length (snd g) <= year_total (fst (fst g)) counts).
  { unfold year_total.
    apply (list_sum_ge _ (fst g, List.length (snd g))).
    apply filter_In. split; [assumption|]. simpl.
    apply cell_eqb_refl. unfold key_notna in Hn.
    apply andb_true_iff in Hn as [Hn _]. now apply negb_true_iff. }
  simpl. set (n := List.length (snd g)) in *.
  set (t := year_total (fst (fst g)) counts) in *.
  assert (Ht : (0 < Qnat t)%Q) by (unfold Qnat, Qlt; simpl; lia).
  assert (Hnq : (0 < Qnat n)%Q) by (unfold Qnat, Qlt; simpl; lia).
  assert (Hnt : (Qnat n <= Qnat t)%Q) by (unfold Qnat, Qle; simpl; lia).
  assert (X1 : (0 < Qnat n / Qnat t)%Q).
  { apply Qlt_shift_div_l; [assumption|]. now rewrite Qmult_0_l. }
  assert (X2 : (Qnat n / Qnat t <= inject_Z 1)%Q).
  { apply Qle_shift_div_r; [assumption|]. now rewrite Qmult_1_l. }
  pose proof (round64_gt_0 _ X1) as P1.
  pose proof (round64_le _ 1 X1 X2 ltac:(discriminate)) as L1.
  set (q := round64 (Qnat n / Qnat t)) in *. clearbody q.
  assert (Y1 : (0 < q * 100)%Q) by lra.
  assert (Y2 : (q * 100 <= inject_Z 100)%Q).
  { change (inject_Z 100) with 100%Q. change (inject_Z 1) with 1%Q in L1. lra. }
  split.
  - now apply round64_gt_0.
  - apply (round64_le _ 100 Y1 Y2). discriminate.
Qed.

(** ** The two years *)

Lemma filter_split {A : Type} (p q : A -> bool) l :
  (forall x, In x l -> xorb (p x) (q x) = true) ->
  List.length l = List.length (filter p l) + List.length (filter q l).
Proof.
  induction l as [|x l IH]; intros H; simpl; [reflexivity|].
  specialize (IH (fun y Hy => H y (or_intror Hy))).
  specialize (H x (or_introl eq_refl)).
  destruct (p x), (q x); simpl in *; try discriminate; lia.
Qed.

Section Years.

Variable na : astype_na.
Variable repr_float : Q -> string.

(** X19: every row counted in the total of a filtered unified table is in
    exactly one of the two year groups whose means are shown: the total is
    the number of AY 24-25 rows plus the number of AY 25-26 rows. *)
Theorem total_is_sum_of_years
  (file1 file2 : workbook) (a b : DataFrame) (sel : Selections) :
  read_excel file1 "BaseLine-AY2425" = Ok a ->
  read_excel file2 "BL-Data" = Ok b ->
  valid_source a -> valid_source b ->
  exists df f,
    load_and_prep_data na repr_float file1 file2 = Ok df /\
    filtered_df df sel = Ok f /\
    len f = len (year_rows "AY 24-25" f) + len (year_rows "AY 25-26" f).
Proof.
  intros Ea Eb Ha Hb.
  pose proof (load_and_prep_data_spec na repr_float file1 file2 a b Ea Eb Ha Hb)
    as L.
  set (df := unified na repr_float a b) in *.
  assert (Hfc : Forall (one_column df) filter_cols)
    by (repeat constructor).
  exists df, (select_rows (passes (columns df) sel) df).
  split; [exact L|]. split; [apply (filtered_df_passes df sel Hfc)|].
  unfold len, year_rows, select_rows. simpl rows. simpl columns.
  apply filter_split. intros r Hr. apply filter_In in Hr as [Hr _].
  unfold df, unified in Hr. simpl in Hr. apply in_app_or in Hr.
  destruct Hr as [Hr|Hr]; apply in_map_iff in Hr as (r0 & <- & _);
    reflexivity.
Qed.

End Years.

(** ** Missing sheets *)

Lemma read_excel_cases file sheet :
  (In sheet (map fst file) -> exists df, read_excel file sheet = Ok df) /\
  (~ In sheet (map fst file) ->
   read_excel file sheet = Raise (SheetNotFound sheet)).
Proof.
  induction file as [|[n df] file [IH1 IH2]]; simpl.
  - split; [intros [] | reflexivity].
  - destruct (String.eqb_spec n sheet) as [->|N].
    + split; [intros _; now eexists | intros X; exfalso; apply X; now left].
    + split.
      * intros [E|H]; [contradiction | now apply IH1].
      * intros X. apply IH2. intros H. apply X. now right.
Qed.

Lemma getitem_list_sheet_found labels df s :
  getitem_list labels df <> Raise (SheetNotFound s).
Proof. unfold getitem_list. destruct (filter _ labels); discriminate. Qed.

Lemma concat_sheet_found a b s : concat a b <> Raise (SheetNotFound s).
Proof.
  unfold concat. destruct (list_eqb _ _); [discriminate|].
  destruct (nodupb _ && nodupb _); discriminate.
Qed.

Lemma map_series_sheet_found label f df s :
  map_series label f df <> Raise (SheetNotFound s).
Proof.
  unfold map_series, getitem.
  destruct (count_occ string_dec (columns df) label) as [|[|n]];
    simpl; discriminate.
Qed.

Section MissingSheets.

Variable na : astype_na.
Variable repr_float : Q -> string.

Lemma strip_columns_sheet_found cols s : forall df,
  strip_columns na repr_float cols df <> Raise (SheetNotFound s).
Proof.
  induction cols as [|col cols IH]; intros df; [discriminate|].
  rewrite strip_columns_cons.
  destruct (map_series col (clean_text na repr_float) df) as [d|e] eqn:E.
  - rewrite bind_ok. apply IH.
  - simpl. intros X. injection X as ->.
    now apply (map_series_sheet_found col (clean_text na repr_float) df s).
Qed.

(** X20: the merger fails with the sheet-not-found error exactly when a
    workbook has no sheet of the expected name.  Both sheets are read before
    any column is looked at: a first workbook without [BaseLine-AY2425]
    fails with that name whatever the second holds, otherwise a second
    workbook without [BL-Data] fails with that name whatever columns the
    first sheet has; the page then shows the head and this one error.  With
    both names present both sheets are read and no later step reports a
    missing sheet. *)
Theorem merge_missing_sheet (file1 file2 : workbook) (sel : Selections) :
  (~ In "BaseLine-AY2425" (map fst file1) ->
   load_and_prep_data na repr_float file1 file2
   = Raise (SheetNotFound "BaseLine-AY2425") /\
   script na repr_float (Some file1) (Some file2) sel
   = page_head ++ [Error (SheetNotFound "BaseLine-AY2425")]) /\
  (In "BaseLine-AY2425" (map fst file1) ->
   ~ In "BL-Data" (map fst file2) ->
   load_and_prep_data na repr_float file1 file2
   = Raise (SheetNotFound "BL-Data") /\
   script na repr_float (Some file1) (Some file2) sel
   = page_head ++ [Error (SheetNotFound "BL-Data")]) /\
  (In "BaseLine-AY2425" (map fst file1) ->
   In "BL-Data" (map fst file2) ->
   (exists a b,
       read_excel file1 "BaseLine-AY2425" = Ok a /\
       read_excel file2 "BL-Data" = Ok b) /\
   forall s,
     load_and_prep_data na repr_float file1 file2 <> Raise (SheetNotFound s)).
Proof.
  destruct (read_excel_cases file1 "BaseLine-AY2425") as [Y1 N1].
  destruct (read_excel_cases file2 "BL-Data") as [Y2 N2].
  split; [|split].
  - intros H. specialize (N1 H).
    assert (E : load_and_prep_data na repr_float file1 file2
                = Raise (SheetNotFound "BaseLine-AY2425"))
      by (unfold load_and_prep_data; now rewrite N1).
    split; [exact E | now apply script_merge_error].
  - intros H1 H2. destruct (Y1 H1) as [a Ea]. specialize (N2 H2).
    assert (E : load_and_prep_data na repr_float file1 file2
                = Raise (SheetNotFound "BL-Data"))
      by (unfold load_and_prep_data; now rewrite Ea, bind_ok, N2).
    split; [exact E | now apply script_merge_error].
  - intros H1 H2. destruct (Y1 H1) as [a Ea]. destruct (Y2 H2) as [b Eb].
    split; [now exists a, b|]. intros s.
    unfold load_and_prep_data. rewrite Ea, Eb, !bind_ok.
    destruct (getitem_list common_cols
                (set_scalar "Academic Year" (CStr "AY 24-25") (standardize a)))
      as [pa|e] eqn:Ga.
    2:{ simpl. intros X. injection X as ->.
        now apply getitem_list_sheet_found in Ga. }
    rewrite bind_ok.
    destruct (getitem_list common_cols
                (set_scalar "Academic Year" (CStr "AY 25-26") (standardize b)))
      as [pb|e] eqn:Gb.
    2:{ simpl. intros X. injection X as ->.
        now apply getitem_list_sheet_found in Gb. }
    rewrite bind_ok.
    destruct (concat pa pb) as [c|e] eqn:C.
    2:{ simpl. intros X. injection X as ->.
        now apply concat_sheet_found in C. }
    rewrite bind_ok.
    destruct (strip_columns na repr_float _ c) as [t|e] eqn:S.
    2:{ simpl. intros X. injection X as ->.
        now apply strip_columns_sheet_found in S. }
    rewrite bind_ok.
    destruct (map_series "Grade" _ t) as [g|e] eqn:G; [discriminate|].
    simpl. intros X. injection X as ->.
    now apply map_series_sheet_found in G.
Qed.

End MissingSheets.

Lemma valid_sourceb_sound df : valid_sourceb df = true -> valid_source df.
Proof.
  unfold valid_sourceb, valid_source, well_formed. intros H.
  repeat (apply andb_true_iff in H as [H ?]).
  repeat split.
  - now apply nodupb_sound.
  - apply Forall_forall. intros r Hr.
    apply Nat.eqb_eq. revert r Hr. now apply forallb_forall.
  - now apply nodupb_sound.
  - intros c Hc. apply mem_In. revert c Hc. now apply forallb_forall.
Qed.

(** ** The sample sheets *)

Example sample_merge :
  load_and_prep_data NanText repr_whole book_24_25 book_25_26 = Ok sample_df.
Proof. reflexivity. Qed.

Example sample_missing_sheet :
  load_and_prep_data NanText repr_whole book_25_26 book_25_26
  = Raise (SheetNotFound "BaseLine-AY2425").
Proof. reflexivity. Qed.

Example sample_missing_column :
  load_and_prep_data NanText repr_whole book_24_25
    [("BL-Data", mkFrame ["State"; "Grade"] [])]
  = Raise (KeyError ["Centre Name"; "Donor"; "Subject"; "Total Marks";
                     "Obtained Marks"; "Category"]).
Proof. reflexivity. Qed.

(** A sheet with both a Rubrics and a Category column has two Category
    columns after the renaming; stacking it on a sheet with one is refused. *)
Example sample_both_labels :
  load_and_prep_data NanText repr_whole
    [("BaseLine-AY2425",
      mkFrame ("Category" :: columns sheet_24_25)
        (map (cons CNull) (rows sheet_24_25)))]
    book_25_26
  = Raise InvalidIndexError.
Proof. reflexivity. Qed.

Example sample_options :
  options sample_df "Grade" = Ok [CStr "All"; CStr "3"; CStr "nan"] /\
  options sample_df "State" = Ok [CStr "All"; CStr "Goa"; CStr "Kerala"].
Proof. split; reflexivity. Qed.

(** Means 55 and 70, delta 15; Math and Eng by year. *)
Example sample_key_figures :
  avg_marks "AY 24-25" sample_df = Ok (Some (110 # 2)%Q) /\
  avg_marks "AY 25-26" sample_df = Ok (Some 70%Q) /\
  delta (Some (110 # 2)%Q) (Some 70%Q) = Some (Fixed2 (30 # 2)) /\
  groupby_mean "Subject" "Academic Year" "Obtained Marks" sample_df
  = Ok [ ((CStr "Eng", CStr "AY 24-25"), Some 60%Q);
         ((CStr "Math", CStr "AY 24-25"), Some 50%Q);
         ((CStr "Math", CStr "AY 25-26"), Some 70%Q) ].
Proof. repeat split. Qed.

(** An integer stacked on floats or blanks is a float: the centre code 101
    reads [101.0] and the mark 50 is [50.0]; the integer marks of a column
    of integers stay integers. *)
Example sample_upcast :
  exists df,
    load_and_prep_data NanText repr_whole book_codes_24_25 book_codes_25_26
    = Ok df /\
    series df "Centre Name" = [CStr "101.0"; CStr "102.0"; CStr "nan"] /\
    series df "Obtained Marks" = [CFloat 50; CFloat (141 # 2); CFloat 80] /\
    series df "Total Marks" = [CInt 100; CInt 100; CInt 100] /\
    series df "Grade" = [CStr "3"; CStr "3"; CStr "4"].
Proof. eexists. split; [vm_compute; reflexivity|]. repeat split. Qed.

Example sample_merge_missing :
  load_and_prep_data StaysMissing repr_whole book_24_25 book_25_26
  = Ok sample_df_missing.
Proof. reflexivity. Qed.

(** Three categories of one row each: every share is the float nearest to
    a third, every percentage the float nearest to a hundred times that,
    and the three do not add up to 100 exactly. *)
Example sample_thirds :
  exists p,
    cat_counts thirds_df
    = Ok [ mkCat (CStr "AY 24-25") (CStr "Advanced") 1 p;
           mkCat (CStr "AY 24-25") (CStr "Beginner") 1 p;
           mkCat (CStr "AY 24-25") (CStr "Intermediate") 1 p ] /\
    (p == 2345624805922133 # 70368744177664)%Q /\
    ~ (p + p + p == 100)%Q.
Proof.
  eexists. split; [vm_compute; reflexivity|]. split; [reflexivity|].
  discriminate.
Qed.

Example sample_no_match :
  filtered_df sample_df pick_hindi = Ok (mkFrame common_cols []).
Proof. reflexivity. Qed.

(** ** The theorems at the sample sheets *)

Lemma merge_row_count_sample :
  read_excel book_24_25 "BaseLine-AY2425" = Ok sheet_24_25 /\
  read_excel book_25_26 "BL-Data" = Ok sheet_25_26 /\
  valid_source sheet_24_25 /\ valid_source sheet_25_26 /\
  exists df,
    load_and_prep_data NanText repr_whole book_24_25 book_25_26 = Ok df /\
    len df = len sheet_24_25 + len sheet_25_26.
Proof.
  assert (Ha : valid_source sheet_24_25)
    by (apply valid_sourceb_sound; reflexivity).
  assert (Hb : valid_source sheet_25_26)
    by (apply valid_sourceb_sound; reflexivity).
  repeat (split; [reflexivity || assumption|]).
  apply (merge_row_count NanText repr_whole book_24_25 book_25_26
           sheet_24_25 sheet_25_26); (reflexivity || assumption).
Defined.

Lemma merge_academic_year_sample :
  read_excel book_24_25 "BaseLine-AY2425" = Ok sheet_24_25 /\
  read_excel book_25_26 "BL-Data" = Ok sheet_25_26 /\
  valid_source sheet_24_25 /\ valid_source sheet_25_26 /\
  exists df,
    load_and_prep_data NanText repr_whole book_24_25 book_25_26 = Ok df /\
    len df = len sheet_24_25 + len sheet_25_26 /\
    getitem "Academic Year" df
    = Ok (repeat (CStr "AY 24-25") (len sheet_24_25)
          ++ repeat (CStr "AY 25-26") (len sheet_25_26)) /\
    (forall i r, nth_error (rows df) i = Some r ->
       get (columns df) r "Academic Year"
       = if Nat.ltb i (len sheet_24_25) then CStr "AY 24-25"
         else CStr "AY 25-26") /\
    Forall (fun c => c = CStr "AY 24-25" \/ c = CStr "AY 25-26")
      (series df "Academic Year").
Proof.
  assert (Ha : valid_source sheet_24_25)
    by (apply valid_sourceb_sound; reflexivity).
  assert (Hb : valid_source sheet_25_26)
    by (apply valid_sourceb_sound; reflexivity).
  repeat (split; [reflexivity || assumption|]).
  apply (merge_academic_year NanText repr_whole book_24_25 book_25_26
           sheet_24_25 sheet_25_26); (reflexivity || assumption).
Defined.

Lemma filter_columns_have_no_nulls_sample :
  NanText = NanText /\
  In "Centre Name" filter_cols /\
  valid_source sheet_24_25 /\ valid_source sheet_25_26 /\
  exists df l,
    load_and_prep_data NanText repr_whole book_24_25 book_25_26 = Ok df /\
    one_column df "Centre Name" /\
    Forall (fun c => is_text c = true /\ isna c = false)
      (series df "Centre Name") /\
    dropna (series df "Centre Name") = series df "Centre Name" /\
    options df "Centre Name" = Ok (CStr "All" :: l) /\
    (forall r,
        (In r (rows sheet_24_25) /\
         get (columns sheet_24_25) r "Centre Name" = CNull) \/
        (In r (rows sheet_25_26) /\
         get (columns sheet_25_26) r "Centre Name" = CNull) ->
        In (CStr "nan") (series df "Centre Name") /\ In (CStr "nan") l).
Proof.
  assert (Ha : valid_source sheet_24_25)
    by (apply valid_sourceb_sound; reflexivity).
  assert (Hb : valid_source sheet_25_26)
    by (apply valid_sourceb_sound; reflexivity).
  assert (Hl : In "Centre Name" filter_cols) by (simpl; tauto).
  split; [reflexivity|].
  repeat (split; [assumption|]).
  apply (filter_columns_have_no_nulls NanText repr_whole book_24_25 book_25_26
           sheet_24_25 sheet_25_26 "Centre Name");
    (reflexivity || assumption).
Defined.

Lemma empty_result_shows_no_data_sample :
  valid_source sheet_24_25 /\ valid_source sheet_25_26 /\
  exists filtered states centres donors subjects grades,
    options sample_df "State" = Ok states /\
    options sample_df "Centre Name" = Ok centres /\
    options sample_df "Donor" = Ok donors /\
    options sample_df "Subject" = Ok subjects /\
    options sample_df "Grade" = Ok grades /\
    filtered_df sample_df pick_hindi = Ok filtered /\
    len filtered = 0 /\
    script NanText repr_whole (Some book_24_25) (Some book_25_26) pick_hindi
    = page_head ++
      [ SidebarSuccess "Baseline Data Merged Successfully!";
        SidebarMarkdown "---";
        SidebarHeader "2. Filter Data";
        Multiselect "Select State(s)" states ["All"];
        Multiselect "Select Centre Name(s)" centres ["All"];
        Multiselect "Select Donor(s)" donors ["All"];
        Multiselect "Select Subject(s)" subjects ["All"];
        Multiselect "Select Class/Grade(s)" grades ["All"];
        no_data_warning ] /\
    forallb (fun e => negb (is_aggregate e) && negb (is_error e))
      (script NanText repr_whole (Some book_24_25) (Some book_25_26) pick_hindi)
    = true.
Proof.
  assert (Ha : valid_source sheet_24_25)
    by (apply valid_sourceb_sound; reflexivity).
  assert (Hb : valid_source sheet_25_26)
    by (apply valid_sourceb_sound; reflexivity).
  repeat (split; [assumption|]).
  destruct (empty_result_shows_no_data NanText repr_whole book_24_25 book_25_26
              sheet_24_25 sheet_25_26 pick_hindi eq_refl eq_refl Ha Hb)
    as (df & filtered & states & centres & donors & subjects & grades
        & L & O1 & O2 & O3 & O4 & O5 & F & H).
  rewrite sample_merge in L. injection L as <-.
  assert (Z : len filtered = 0).
  { rewrite sample_no_match in F. now injection F as <-. }
  exists filtered, states, centres, donors, subjects, grades.
  repeat (split; [assumption|]). exact (H Z).
Defined.

Lemma grade_normalization_idempotent_sample :
  endswith "3.0" (dot0 ++ dot0) = false /\
  endswith "3.0" (dot0 ++ dot0nl) = false /\
  endswith "3.0" (dot0nl ++ dot0) = false /\
  clean_grade NanText repr_whole (clean_grade NanText repr_whole (CStr "3.0"))
  = clean_grade NanText repr_whole (CStr "3.0").
Proof.
  repeat (split; [reflexivity|]).
  apply (grade_normalization_idempotent NanText repr_whole "3.0"); reflexivity.
Defined.

Lemma filter_all_is_identity_sample :
  (forall c : criterion, selected c all_selected = ["All"]) /\
  filtered_df sample_df all_selected = Ok sample_df.
Proof.
  assert (H : forall c : criterion, selected c all_selected = ["All"])
    by (intros c; destruct c; reflexivity).
  split; [exact H|].
  apply (filter_all_is_identity sample_df all_selected H).
Defined.

Lemma filtered_is_subsequence_sample :
  Forall (one_column sample_df) filter_cols /\
  exists f,
    filtered_df sample_df pick_goa = Ok f /\
    columns f = columns sample_df /\
    subseq (rows f) (rows sample_df).
Proof.
  assert (H : Forall (one_column sample_df) filter_cols)
    by (repeat constructor).
  split; [exact H|].
  apply (filtered_is_subsequence sample_df pick_goa H).
Defined.

Lemma all_sentinel_dominates_sample :
  In "All" (selected BySubject pick_math_and_all) /\
  (forall f,
      apply_filter (label_of BySubject)
        (selected BySubject pick_math_and_all) f
      = Ok f) /\
  filtered_df sample_df pick_math_and_all
  = filtered_df sample_df (select_all BySubject pick_math_and_all).
Proof.
  assert (H : In "All" (selected BySubject pick_math_and_all))
    by (simpl; tauto).
  split; [exact H|].
  apply (all_sentinel_dominates sample_df pick_math_and_all BySubject H).
Defined.

Lemma category_percentages_sample :
  one_column thirds_df "Academic Year" /\
  one_column thirds_df "Category" /\
  categorised thirds_df (CStr "AY 24-25") <> [] /\
  exists dist,
    cat_counts thirds_df = Ok dist /\
    of_year (CStr "AY 24-25") dist <> [] /\
    list_sum (map Count (of_year (CStr "AY 24-25") dist)) = 3 /\
    (Qabs (Qsum (map Percentage (of_year (CStr "AY 24-25") dist)) - 100)
     <= percent_tolerance)%Q.
Proof.
  assert (H1 : one_column thirds_df "Academic Year") by reflexivity.
  assert (H2 : one_column thirds_df "Category") by reflexivity.
  assert (N : categorised thirds_df (CStr "AY 24-25") <> []) by discriminate.
  repeat (split; [assumption|]).
  destruct (category_percentages_sum_to_100 thirds_df H1 H2)
    as (dist & E & _ & H & _).
  exists dist. split; [exact E|]. exact (H (CStr "AY 24-25") N).
Defined.

Lemma kpi_delta_sample :
  one_column sample_df "Academic Year" /\
  one_column sample_df "Obtained Marks" /\
  numeric_marks sample_df /\
  marks_present "AY 24-25" sample_df <> [] /\
  marks_present "AY 25-26" sample_df <> [] /\
  nth_error (fst (show_dashboard sample_df)) 3
  = Some (Metric "Avg Baseline Score (AY 25-26)"
            (fixed2_or_na (average (marks_present "AY 25-26" sample_df)))
            (delta (average (marks_present "AY 24-25" sample_df))
               (average (marks_present "AY 25-26" sample_df)))) /\
  delta (average (marks_present "AY 24-25" sample_df))
    (average (marks_present "AY 25-26" sample_df))
  = Some (Fixed2
            (Qsum (marks_present "AY 25-26" sample_df)
             / Qnat (List.length (marks_present "AY 25-26" sample_df))
             - Qsum (marks_present "AY 24-25" sample_df)
               / Qnat (List.length (marks_present "AY 24-25" sample_df)))%Q).
Proof.
  assert (H1 : one_column sample_df "Academic Year") by reflexivity.
  assert (H2 : one_column sample_df "Obtained Marks") by reflexivity.
  assert (H3 : numeric_marks sample_df) by (repeat constructor).
  assert (N24 : marks_present "AY 24-25" sample_df <> []) by discriminate.
  assert (N25 : marks_present "AY 25-26" sample_df <> []) by discriminate.
  repeat (split; [assumption|]).
  destruct (kpi_delta_spec sample_df H1 H2 H3) as (Hm & Hd & _).
  split; [exact Hm | exact (Hd N24 N25)].
Defined.

(** ** The further properties at the sample sheets *)

Lemma sample_columns : Forall (one_column sample_df) filter_cols.
Proof. repeat constructor. Qed.

Lemma sample_sheets_valid :
  valid_source sheet_24_25 /\ valid_source sheet_25_26.
Proof. split; apply valid_sourceb_sound; reflexivity. Qed.

Lemma filter_keeps_passing_rows_sample :
  Forall (one_column sample_df) filter_cols /\
  exists f,
    filtered_df sample_df pick_goa = Ok f /\
    columns f = columns sample_df /\
    rows f = filter (passes (columns sample_df) pick_goa) (rows sample_df) /\
    forall r,
      In r (rows f) <->
      In r (rows sample_df) /\
      forall c, In "All" (selected c pick_goa) \/
                exists v, get (columns sample_df) r (label_of c) = CStr v /\
                          In v (selected c pick_goa).
Proof.
  split; [exact sample_columns|].
  apply (filter_keeps_passing_rows sample_df pick_goa sample_columns).
Defined.

Lemma filter_twice_sample :
  Forall (one_column sample_df) filter_cols /\
  exists f1 f2 f12,
    filtered_df sample_df pick_goa = Ok f1 /\
    filtered_df sample_df pick_math_and_all = Ok f2 /\
    filtered_df f1 pick_goa = Ok f1 /\
    filtered_df f1 pick_math_and_all = Ok f12 /\
    filtered_df f2 pick_goa = Ok f12.
Proof.
  split; [exact sample_columns|].
  apply (filter_twice sample_df pick_goa pick_math_and_all sample_columns).
Defined.

Lemma filter_monotone_sample :
  Forall (one_column sample_df) filter_cols /\
  (forall c, incl (selected c pick_goa) (selected c pick_wide)) /\
  exists f f',
    filtered_df sample_df pick_goa = Ok f /\
    filtered_df sample_df pick_wide = Ok f' /\
    subseq (rows f) (rows f').
Proof.
  assert (H : forall c, incl (selected c pick_goa) (selected c pick_wide)).
  { intros c x Hx. destruct c; simpl in *; tauto. }
  split; [exact sample_columns|]. split; [exact H|].
  apply (filter_monotone sample_df pick_goa pick_wide sample_columns H).
Defined.

Lemma empty_selection_keeps_nothing_sample :
  Forall (one_column sample_df) filter_cols /\
  selected ByDonor pick_no_donor = [] /\
  exists f,
    filtered_df sample_df pick_no_donor = Ok f /\
    columns f = columns sample_df /\ len f = 0.
Proof.
  split; [exact sample_columns|]. split; [reflexivity|].
  apply (empty_selection_keeps_nothing sample_df pick_no_donor ByDonor
           sample_columns eq_refl).
Defined.

Lemma offered_value_matches_a_row_sample :
  Forall (one_column sample_df) filter_cols /\
  options sample_df (label_of ByState)
  = Ok [CStr "All"; CStr "Goa"; CStr "Kerala"] /\
  In (CStr "Kerala") [CStr "Goa"; CStr "Kerala"] /\
  selected ByState pick_kerala = ["Kerala"] /\
  (forall c', c' <> ByState -> In "All" (selected c' pick_kerala)) /\
  exists f, filtered_df sample_df pick_kerala = Ok f /\ 0 < len f.
Proof.
  assert (Hv : In (CStr "Kerala") [CStr "Goa"; CStr "Kerala"])
    by (simpl; tauto).
  assert (Ho : forall c', c' <> ByState -> In "All" (selected c' pick_kerala)).
  { intros c' N. destruct c'; simpl; tauto. }
  split; [exact sample_columns|]. split; [reflexivity|].
  split; [exact Hv|]. split; [reflexivity|]. split; [exact Ho|].
  apply (offered_value_matches_a_row sample_df pick_kerala ByState "Kerala"
           [CStr "Goa"; CStr "Kerala"] sample_columns eq_refl Hv eq_refl Ho).
Defined.

Lemma options_sorted_distinct_sample :
  one_column sample_df "State" /\
  Forall (fun c => is_text c = true) (series sample_df "State") /\
  exists rest,
    options sample_df "State" = Ok (CStr "All" :: rest) /\
    NoDup rest /\
    Sorted (fun a b => cell_leb a b = true) rest /\
    (forall v, In (CStr v) rest <->
               exists r, In r (rows sample_df) /\
                         get (columns sample_df) r "State" = CStr v).
Proof.
  assert (H1 : one_column sample_df "State") by reflexivity.
  assert (H2 : Forall (fun c => is_text c = true) (series sample_df "State"))
    by (repeat constructor).
  split; [exact H1|]. split; [exact H2|].
  apply (options_sorted_distinct sample_df "State" H1 H2).
Defined.

Lemma merge_key_error_sample :
  read_excel book_short "BaseLine-AY2425" = Ok sheet_short /\
  read_excel book_25_26 "BL-Data" = Ok sheet_25_26 /\
  missing_cols sheet_short
  = ["Centre Name"; "Donor"; "Subject"; "Total Marks"; "Obtained Marks"] /\
  load_and_prep_data NanText repr_whole book_short book_25_26
  = Raise (KeyError (missing_cols sheet_short)) /\
  script NanText repr_whole (Some book_short) (Some book_25_26) pick_goa
  = page_head ++ [Error (KeyError (missing_cols sheet_short))].
Proof.
  assert (N : missing_cols sheet_short <> []) by discriminate.
  split; [reflexivity|]. split; [reflexivity|]. split; [reflexivity|].
  destruct (merge_key_error NanText repr_whole book_short book_25_26 sheet_short
              sheet_25_26 pick_goa eq_refl eq_refl) as (H & _).
  exact (H N).
Defined.

Lemma sample_codes_valid :
  valid_source sheet_codes_24_25 /\ valid_source sheet_codes_25_26.
Proof. split; apply valid_sourceb_sound; reflexivity. Qed.

Lemma merge_carries_columns_sample :
  read_excel book_codes_24_25 "BaseLine-AY2425" = Ok sheet_codes_24_25 /\
  read_excel book_codes_25_26 "BL-Data" = Ok sheet_codes_25_26 /\
  valid_source sheet_codes_24_25 /\ valid_source sheet_codes_25_26 /\
  upcast_column
    (series sheet_codes_24_25 "Obtained Marks"
     ++ series sheet_codes_25_26 "Obtained Marks")
  = [CFloat 50; CFloat (141 # 2); CFloat 80] /\
  upcast_column
    (series sheet_codes_24_25 "Total Marks"
     ++ series sheet_codes_25_26 "Total Marks")
  = [CInt 100; CInt 100; CInt 100] /\
  exists df,
    load_and_prep_data NanText repr_whole book_codes_24_25 book_codes_25_26
    = Ok df /\
    columns df = common_cols /\
    getitem "Category" df
    = Ok (upcast_column
            (map (fun r => get (columns sheet_codes_24_25) r
                             (band_label sheet_codes_24_25))
               (rows sheet_codes_24_25)
             ++ map (fun r => get (columns sheet_codes_25_26) r
                                (band_label sheet_codes_25_26))
                  (rows sheet_codes_25_26))) /\
    getitem "Total Marks" df
    = Ok (upcast_column
            (series sheet_codes_24_25 "Total Marks"
             ++ series sheet_codes_25_26 "Total Marks")) /\
    getitem "Obtained Marks" df
    = Ok (upcast_column
            (series sheet_codes_24_25 "Obtained Marks"
             ++ series sheet_codes_25_26 "Obtained Marks")).
Proof.
  destruct sample_codes_valid as [Ha Hb].
  repeat (split; [reflexivity || assumption|]).
  apply (merge_carries_columns NanText repr_whole book_codes_24_25
           book_codes_25_26 sheet_codes_24_25 sheet_codes_25_26
           eq_refl eq_refl Ha Hb).
Defined.

Lemma merge_texts_are_stripped_sample :
  valid_source sheet_24_25 /\ valid_source sheet_25_26 /\
  In "Centre Name" text_cols /\
  exists df,
    load_and_prep_data StaysMissing repr_whole book_24_25 book_25_26 = Ok df /\
    Forall (fun c => ((exists t, c = CStr t /\ stripped t = true) \/
                      (StaysMissing = StaysMissing /\ c = CNull)) /\
                     clean_text StaysMissing repr_whole c = c)
      (series df "Centre Name").
Proof.
  destruct sample_sheets_valid as [Ha Hb].
  assert (Hl : In "Centre Name" text_cols) by (simpl; tauto).
  split; [exact Ha|]. split; [exact Hb|]. split; [exact Hl|].
  apply (merge_texts_are_stripped StaysMissing repr_whole book_24_25 book_25_26
           sheet_24_25 sheet_25_26 "Centre Name" eq_refl eq_refl Ha Hb Hl).
Defined.

Lemma grade_int_float_agree_sample :
  repr_whole (inject_Z 3) = (str_int 3 ++ ".0")%string /\
  clean_grade NanText repr_whole (CInt 3) = CStr (str_int 3) /\
  clean_grade NanText repr_whole (CFloat (inject_Z 3)) = CStr (str_int 3).
Proof.
  split; [reflexivity|].
  apply (grade_int_float_agree NanText repr_whole 3%Z eq_refl).
Defined.

Lemma category_counts_cover_rows_sample :
  one_column blank_marks_df "Academic Year" /\
  one_column blank_marks_df "Category" /\
  exists dist,
    cat_counts blank_marks_df = Ok dist /\
    list_sum (map Count dist)
    = List.length
        (filter (fun r =>
                   negb (isna (get (columns blank_marks_df) r "Academic Year")) &&
                   negb (isna (get (columns blank_marks_df) r "Category")))
           (rows blank_marks_df)) /\
    ForallOrdPairs
      (fun r1 r2 =>
         cell_eqb (cat_year r1) (cat_year r2) &&
         cell_eqb (cat_category r1) (cat_category r2) = false)
      dist.
Proof.
  split; [reflexivity|]. split; [reflexivity|].
  apply (category_counts_cover_rows blank_marks_df eq_refl eq_refl).
Defined.

Lemma sample_numeric : numeric_marks sample_df.
Proof. repeat constructor. Qed.

Lemma group_means_listing_sample :
  one_column sample_df "Subject" /\
  one_column sample_df "Academic Year" /\
  one_column sample_df "Obtained Marks" /\
  numeric_marks sample_df /\
  exists means,
    groupby_mean "Subject" "Academic Year" "Obtained Marks" sample_df
    = Ok means.
Proof.
  repeat (split; [reflexivity || exact sample_numeric|]).
  destruct (group_means_listing "Subject" "Academic Year" sample_df
              eq_refl eq_refl eq_refl sample_numeric) as (means & E & _).
  exists means. exact E.
Defined.

Lemma full_dashboard_sample :
  valid_source sheet_24_25 /\ valid_source sheet_25_26 /\
  numeric_marks sheet_24_25 /\ numeric_marks sheet_25_26 /\
  exists f,
    filtered_df sample_df pick_goa = Ok f /\
    0 < len f /\
    In (Metric "Total Assessments (Filtered)" (Grouped (len f)) None)
      (script NanText repr_whole (Some book_24_25) (Some book_25_26) pick_goa) /\
    In (Dataframe "View Filtered Raw Data" f)
      (script NanText repr_whole (Some book_24_25) (Some book_25_26) pick_goa).
Proof.
  destruct sample_sheets_valid as [Ha Hb].
  assert (Na : numeric_marks sheet_24_25) by (repeat constructor).
  assert (Nb : numeric_marks sheet_25_26) by (repeat constructor).
  repeat (split; [assumption|]).
  destruct (full_dashboard NanText repr_whole book_24_25 book_25_26 sheet_24_25
              sheet_25_26 pick_goa eq_refl eq_refl Ha Hb Na Nb)
    as (df & f & o1 & o2 & o3 & o4 & o5 & s & d & t & L & F & _ & _ & _ & S).
  rewrite sample_merge in L. injection L as <-.
  assert (P : 0 < len f).
  { vm_compute in F. injection F as <-. vm_compute. lia. }
  exists f. split; [exact F|]. split; [exact P|].
  rewrite (S P).
  split; apply in_or_app; right; simpl; tauto.
Defined.

Lemma category_percentage_range_sample :
  one_column sample_df "Academic Year" /\
  one_column sample_df "Category" /\
  exists dist,
    cat_counts sample_df = Ok dist /\
    Forall (fun r => (0 < Percentage r <= 100)%Q) dist.
Proof.
  split; [reflexivity|]. split; [reflexivity|].
  apply (category_percentage_range sample_df eq_refl eq_refl).
Defined.

Lemma total_is_sum_of_years_sample :
  valid_source sheet_24_25 /\ valid_source sheet_25_26 /\
  exists df f,
    load_and_prep_data NanText repr_whole book_24_25 book_25_26 = Ok df /\
    filtered_df df pick_goa = Ok f /\
    len f = len (year_rows "AY 24-25" f) + len (year_rows "AY 25-26" f).
Proof.
  destruct sample_sheets_valid as [Ha Hb].
  split; [exact Ha|]. split; [exact Hb|].
  apply (total_is_sum_of_years NanText repr_whole book_24_25 book_25_26 sheet_24_25
           sheet_25_26 pick_goa eq_refl eq_refl Ha Hb).
Defined.

Lemma merge_missing_sheet_sample :
  In "BaseLine-AY2425" (map fst book_short) /\
  ~ In "BL-Data" (map fst book_24_25) /\
  load_and_prep_data NanText repr_whole book_short book_24_25
  = Raise (SheetNotFound "BL-Data") /\
  script NanText repr_whole (Some book_short) (Some book_24_25) pick_goa
  = page_head ++ [Error (SheetNotFound "BL-Data")].
Proof.
  assert (H1 : In "BaseLine-AY2425" (map fst book_short)) by (simpl; tauto).
  assert (H2 : ~ In "BL-Data" (map fst book_24_25)).
  { simpl. intros [E|[]]. discriminate. }
  split; [exact H1|]. split; [exact H2|].
  destruct (merge_missing_sheet NanText repr_whole book_short book_24_25 pick_goa)
    as (_ & H & _).
  exact (H H1 H2).
Defined.
